(** * Invoice extraction: response normalisation and reconciliation

    A shallow embedding of the core of [OCR_Invoices_Output_Excel.py] and
    [OCR_Invoices_Output_Excel_Gemini.py]: the response parser
    [extract_json_from_response], the array reconciler
    [ensure_equal_length_arrays], the row cleaner [clean_dataframe], the
    per-document pipeline of [process_pdf] and the aggregation at the end of
    [process_folder].

    Python values are modelled as they are at run time: a parsed JSON
    document is an insertion-ordered dictionary (an association list with
    distinct keys), a list is a [list], a float is an IEEE binary64 number
    (Rocq's primitive [float]).  Library code the programs call ([json.loads],
    what [pandas.to_numeric] reads in a cell, the ordering pandas gives to
    cells that are not strings) is taken as a parameter; the parts of [re],
    [collections] and [pandas] whose behaviour the programs rely on, the
    dtypes of the columns among them, are written out. *)

From Stdlib Require Import List String Ascii Bool Arith ZArith Lia.
From Stdlib Require Import Floats Permutation Sorted.
Import ListNotations.
Open Scope string_scope.
Open Scope nat_scope.
Open Scope list_scope.
#[local] Set Warnings "-register-all".

(** ** Python values *)

(** What [json.loads] builds: [None], [bool], [int], [float], [str], [list]
    and [dict].  A [str] is a sequence of code points; the embedding keeps the
    code points below 256 (one [ascii] each). *)
Inductive json : Type :=
| JNull
| JBool (b : bool)
| JInt (z : Z)
| JFloat (f : float)
| JStr (s : string)
| JArr (items : list json)
| JObj (fields : list (string * json)).

(** A Python [dict] with string keys: insertion ordered, keys distinct. *)
Definition dict : Type := list (string * json).

Definition keys (d : dict) : list string := map fst d.

(** The well-formedness of a dictionary: no key occurs twice. *)
Definition wf_dict (d : dict) : Prop := NoDup (keys d).

(** [d[key]], [None] standing for [KeyError]. *)
Fixpoint dict_get (d : dict) (key : string) : option json :=
  match d with
  | [] => None
  | (k, v) :: d' => if String.eqb key k then Some v else dict_get d' key
  end.

(** [key in d]. *)
Definition dict_contains (d : dict) (key : string) : bool :=
  match dict_get d key with Some _ => true | None => false end.

(** [d[key] = v]: the value is replaced where the key stands, a new key goes
    to the end. *)
Fixpoint dict_set (d : dict) (key : string) (v : json) : dict :=
  match d with
  | [] => [(key, v)]
  | (k, w) :: d' =>
      if String.eqb key k then (k, v) :: d' else (k, w) :: dict_set d' key v
  end.

(** [isinstance(value, list)]. *)
Definition isinstance_list (value : json) : bool :=
  match value with JArr _ => true | _ => false end.

(** Python truth value, as [not value] tests it. *)
Definition truthy (value : json) : bool :=
  match value with
  | JNull => false
  | JBool b => b
  | JInt z => negb (Z.eqb z 0)
  | JFloat f => negb (PrimFloat.eqb f 0%float)
  | JStr s => negb (String.eqb s "")
  | JArr items => match items with [] => false | _ => true end
  | JObj fields => match fields with [] => false | _ => true end
  end.

(** The truth value of [d[key]], read once [key in d] is known. *)
Definition truthy_at (d : dict) (key : string) : bool :=
  match dict_get d key with Some v => truthy v | None => false end.

(** [key in keys], for a list of strings. *)
Definition str_in (key : string) (l : list string) : bool :=
  existsb (String.eqb key) l.

(** ** [collections.Counter] *)

(** A [Counter] over lengths: each distinct element with its count, in the
    order the elements were first met. *)
Definition counter : Type := list (nat * nat).

Fixpoint counter_add (c : counter) (x : nat) : counter :=
  match c with
  | [] => [(x, 1)]
  | (y, n) :: c' => if Nat.eqb x y then (y, S n) :: c' else (y, n) :: counter_add c' x
  end.

Definition Counter (l : list nat) : counter := fold_left counter_add l [].

(** [max(items, key=itemgetter(1))] as [heapq.nlargest(1, ...)] runs it: the
    candidate is replaced only by a strictly larger count, so the first of
    the items with the largest count is returned. *)
Fixpoint max_by_count (best : nat * nat) (c : counter) : nat * nat :=
  match c with
  | [] => best
  | e :: c' => if snd best <? snd e then max_by_count e c' else max_by_count best c'
  end.

(** [c.most_common(1)]. *)
Definition most_common_1 (c : counter) : list (nat * nat) :=
  match c with
  | [] => []
  | e :: c' => [max_by_count e c']
  end.

(** ** Helpers of the reconciler *)

(** [0 if key in ['Qty', 'U.Price', 'Total'] else ''] *)
Definition filler (key : string) : json :=
  if str_in key ["Qty"; "U.Price"; "Total"] then JInt 0 else JStr "".

(** [json_data[key]] for a key of [array_keys]: the list stored there. *)
Definition items_at (json_data : dict) (key : string) : list json :=
  match dict_get json_data key with
  | Some (JArr items) => items
  | _ => []
  end.

(** ** [re.search(r'\{.*\}', text, re.DOTALL)] *)

(** [.*\}] matched greedily at the head of [s]: with [re.DOTALL] the dot takes
    every character, and backtracking from the longest candidate stops at the
    last ["}"] of [s].  The result is the text matched. *)
Fixpoint match_to_last_brace (s : string) : option string :=
  match s with
  | EmptyString => None
  | String c s' =>
      match match_to_last_brace s' with
      | Some m => Some (String c m)
      | None => if Ascii.eqb c "}" then Some (String c EmptyString) else None
      end
  end.

(** The search tries the start positions from left to right and returns
    [json_match.group()] of the first position where the pattern matches. *)
Fixpoint re_search_braces (text : string) : option string :=
  match text with
  | EmptyString => None
  | String c rest =>
      if Ascii.eqb c "{" then
        match match_to_last_brace rest with
        | Some m => Some (String c m)
        | None => re_search_braces rest
        end
      else re_search_braces rest
  end.

(** ** [str.strip] *)

(** [str.isspace] on the code points below 256. *)
Definition isspace (c : ascii) : bool :=
  let n := nat_of_ascii c in
  ((9 <=? n) && (n <=? 13)) || ((28 <=? n) && (n <=? 32)) || (n =? 133) || (n =? 160).

Fixpoint lstrip (s : string) : string :=
  match s with
  | EmptyString => EmptyString
  | String c s' => if isspace c then lstrip s' else s
  end.

Fixpoint rstrip (s : string) : string :=
  match s with
  | EmptyString => EmptyString
  | String c s' =>
      match rstrip s' with
      | EmptyString => if isspace c then EmptyString else String c EmptyString
      | r => String c r
      end
  end.

Definition strip (s : string) : string := rstrip (lstrip s).

(** ** Exceptions *)

Inductive exn : Type :=
| KeyError (key : string)
| AttributeError
| TypeError
| ValueError
| OverflowError.

Inductive result (A : Type) : Type :=
| Ok (a : A)
| Raise (e : exn).
Arguments Ok {A} a.
Arguments Raise {A} e.

Definition bind {A B : Type} (r : result A) (k : A -> result B) : result B :=
  match r with
  | Ok a => k a
  | Raise e => Raise e
  end.

Notation "x <- e ;; k" := (bind e (fun x => k))
  (at level 61, e at next level, right associativity).

Fixpoint mapM {A B : Type} (f : A -> result B) (l : list A) : result (list B) :=
  match l with
  | [] => Ok []
  | x :: l' => y <- f x ;; ys <- mapM f l' ;; Ok (y :: ys)
  end.

(** ** The part of pandas the programs use *)

(** [float(z)]: the float nearest to an integer, ties to even. *)
Definition float_of_Z (z : Z) : float :=
  SF2Prim (binary_normalize prec emax z 0%Z false).

(** [float(b)] *)
Definition float_of_bool (b : bool) : float := if b then 1%float else 0%float.

(** The bounds of [int64] and [uint64]. *)
Definition int64_min : Z := (- 2 ^ 63)%Z.
Definition int64_max : Z := (2 ^ 63 - 1)%Z.
Definition uint64_max : Z := (2 ^ 64 - 1)%Z.

(** A column is of dtype [object], holding Python values, of dtype
    [float64], where NaN is the missing value, of dtype [int64] or [uint64]
    ([unsigned]), or of dtype [bool]. *)
Inductive column : Type :=
| ObjCol (cells : list json)
| NumCol (cells : list float)
| IntCol (unsigned : bool) (cells : list Z)
| BoolCol (cells : list bool).

Definition col_length (c : column) : nat :=
  match c with
  | ObjCol cells => List.length cells
  | NumCol cells => List.length cells
  | IntCol _ cells => List.length cells
  | BoolCol cells => List.length cells
  end.

(** A data frame with the default integer index: the number of rows and the
    columns in order. *)
Record DataFrame : Type := {
  nrows : nat;
  columns : list (string * column)
}.

(** [pd.DataFrame()] *)
Definition empty_frame : DataFrame := {| nrows := 0; columns := [] |}.

(** [df.empty]: some axis has length 0. *)
Definition df_empty (df : DataFrame) : bool :=
  (nrows df =? 0) || match columns df with [] => true | _ => false end.

Fixpoint lookup_column (cols : list (string * column)) (key : string) : option column :=
  match cols with
  | [] => None
  | (k, c) :: cols' => if String.eqb key k then Some c else lookup_column cols' key
  end.

(** [key in df.columns] *)
Definition has_column (df : DataFrame) (key : string) : bool :=
  match lookup_column (columns df) key with Some _ => true | None => false end.

(** [df[key]] *)
Definition getitem (df : DataFrame) (key : string) : result column :=
  match lookup_column (columns df) key with
  | Some c => Ok c
  | None => Raise (KeyError key)
  end.

Fixpoint set_column (cols : list (string * column)) (key : string) (c : column)
  : list (string * column) :=
  match cols with
  | [] => [(key, c)]
  | (k, c') :: cols' =>
      if String.eqb key k then (k, c) :: cols' else (k, c') :: set_column cols' key c
  end.

(** [df[key] = c] *)
Definition setitem (df : DataFrame) (key : string) (c : column) : DataFrame :=
  {| nrows := nrows df; columns := set_column (columns df) key c |}.

(** The first keys of a list of key lists, each once, in order of appearance
    (the union of the indexes of dict-valued fields). *)
Fixpoint union_keys (seen : list string) (ks : list string) : list string :=
  match ks with
  | [] => seen
  | k :: ks' => if str_in k seen then union_keys seen ks' else union_keys (seen ++ [k]) ks'
  end.

Definition lookup_or_nan (fields : list (string * json)) (label : string) : json :=
  match dict_get fields label with Some v => v | None => JFloat nan end.

(** The lengths of the list-valued fields and the key lists of the
    dict-valued fields, from which [pd.DataFrame] builds its index. *)
Definition raw_lengths (data : dict) : list nat :=
  flat_map (fun kv => match snd kv with JArr items => [List.length items] | _ => [] end) data.

Definition dict_indexes (data : dict) : list (list string) :=
  flat_map (fun kv => match snd kv with JObj fields => [map fst fields] | _ => [] end) data.

(** What the inference of a dtype has met in the cells so far, as
    [maybe_convert_objects] keeps it: [None], NaN, a float, an integer, an
    integer above [int64], a negative integer, a boolean. *)
Record seen : Type := {
  null_ : bool;
  nan_ : bool;
  float_ : bool;
  int_ : bool;
  uint_ : bool;
  sint_ : bool;
  bool_ : bool
}.

Definition seen_nothing : seen :=
  {| null_ := false; nan_ := false; float_ := false; int_ := false;
     uint_ := false; sint_ := false; bool_ := false |}.

(** One pass over the cells; [None] when a cell makes the column an [object]
    column at once: a string, a list, a dict, or, as long as no [None] has
    been met, an integer outside [int64] and [uint64] or integers that need
    both. *)
Fixpoint scan_objects (s : seen) (cells : list json) : option seen :=
  match cells with
  | [] => Some s
  | c :: cells' =>
      match c with
      | JNull =>
          scan_objects
            {| null_ := true; nan_ := nan_ s; float_ := float_ s; int_ := int_ s;
               uint_ := uint_ s; sint_ := sint_ s; bool_ := bool_ s |} cells'
      | JFloat f =>
          if PrimFloat.is_nan f then
            scan_objects
              {| null_ := null_ s; nan_ := true; float_ := float_ s; int_ := int_ s;
                 uint_ := uint_ s; sint_ := sint_ s; bool_ := bool_ s |} cells'
          else
            scan_objects
              {| null_ := null_ s; nan_ := nan_ s; float_ := true; int_ := int_ s;
                 uint_ := uint_ s; sint_ := sint_ s; bool_ := bool_ s |} cells'
      | JBool _ =>
          scan_objects
            {| null_ := null_ s; nan_ := nan_ s; float_ := float_ s; int_ := int_ s;
               uint_ := uint_ s; sint_ := sint_ s; bool_ := true |} cells'
      | JInt z =>
          if null_ s then
            scan_objects
              {| null_ := null_ s; nan_ := nan_ s; float_ := float_ s; int_ := true;
                 uint_ := uint_ s; sint_ := sint_ s; bool_ := bool_ s |} cells'
          else
            let uint := uint_ s || (Z.ltb int64_max z && Z.leb z uint64_max) in
            let sint := sint_ s || (Z.leb int64_min z && Z.ltb z 0) in
            if (uint && sint) || Z.ltb uint64_max z || Z.ltb z int64_min then None
            else
              scan_objects
                {| null_ := null_ s; nan_ := nan_ s; float_ := float_ s; int_ := true;
                   uint_ := uint; sint_ := sint; bool_ := bool_ s |} cells'
      | JStr _ | JArr _ | JObj _ => None
      end
  end.

(** The cell of a numeric column for a Python value. *)
Definition float_of_cell (c : json) : float :=
  match c with
  | JFloat f => f
  | JInt z => float_of_Z z
  | JBool b => float_of_bool b
  | _ => nan
  end.

Definition Z_of_cell (c : json) : Z :=
  match c with
  | JInt z => z
  | JBool b => if b then 1%Z else 0%Z
  | _ => 0%Z
  end.

Definition bool_of_cell (c : json) : bool :=
  match c with JBool b => b | _ => false end.

(** The column built from a list of Python values: booleans alone make a
    [bool] column; integers alone an [int64] or [uint64] column; integers,
    floats, NaN and [None] with a float, NaN or an integer among them a
    [float64] column, [None] turning into NaN; every other list, the empty
    one and the one of [None] alone too, an [object] column. *)
Definition infer_column (cells : list json) : column :=
  match scan_objects seen_nothing cells with
  | None => ObjCol cells
  | Some s =>
      if bool_ s then
        if null_ s || nan_ s || float_ s || int_ s then ObjCol cells
        else BoolCol (map bool_of_cell cells)
      else if null_ s || nan_ s then
        if float_ s || int_ s || nan_ s then NumCol (map float_of_cell cells)
        else ObjCol cells
      else if float_ s then NumCol (map float_of_cell cells)
      else if int_ s then IntCol (uint_ s) (map Z_of_cell cells)
      else ObjCol cells
  end.

(** The column of a scalar repeated over [n] rows. *)
Definition scalar_column (n : nat) (v : json) : column :=
  match v with
  | JBool b => BoolCol (repeat b n)
  | JInt z =>
      if Z.leb int64_min z && Z.leb z int64_max then IntCol false (repeat z n)
      else if Z.ltb int64_max z && Z.leb z uint64_max then IntCol true (repeat z n)
      else ObjCol (repeat v n)
  | JFloat f => NumCol (repeat f n)
  | v => ObjCol (repeat v n)
  end.

(** The column of one field, for an index of [n] rows: a list with its
    inferred dtype, a scalar repeated. *)
Definition column_of_list_or_scalar (n : nat) (v : json) : column :=
  match v with
  | JArr items => infer_column items
  | v => scalar_column n v
  end.

(** The column of one field, for an index of labels: a dict aligned on the
    labels, NaN where it has none, with the dtype inferred from the aligned
    values; a scalar repeated. *)
Definition column_of_dict_or_scalar (index : list string) (v : json) : column :=
  match v with
  | JObj fields => infer_column (map (lookup_or_nan fields) index)
  | v => scalar_column (List.length index) v
  end.

(** [pd.DataFrame(data)] for a dict [data]: the lists must all have one
    length, a scalar is repeated down the column, a dict-valued field is
    aligned on the union of the dict keys and cannot be mixed with lists;
    with scalars only there is no index to build from.  The columns keep the
    order of the keys. *)
Definition pd_DataFrame (data : dict) : result DataFrame :=
  match data with
  | [] => Ok empty_frame
  | _ :: _ =>
      match raw_lengths data, dict_indexes data with
      | [], [] => Raise ValueError
      | n :: lengths, [] =>
          if forallb (Nat.eqb n) lengths then
            Ok {| nrows := n;
                  columns := map (fun kv => (fst kv, column_of_list_or_scalar n (snd kv))) data |}
          else Raise ValueError
      | _ :: _, _ :: _ => Raise ValueError
      | [], _ :: _ =>
          let index := fold_left union_keys (dict_indexes data) [] in
          Ok {| nrows := List.length index;
                columns := map (fun kv => (fst kv, column_of_dict_or_scalar index (snd kv))) data |}
      end
  end.

(** [series.notna()]: [None] and NaN are missing. *)
Definition notna_cell (c : json) : bool :=
  match c with
  | JNull => false
  | JFloat f => negb (PrimFloat.is_nan f)
  | _ => true
  end.

Definition notna (c : column) : list bool :=
  match c with
  | ObjCol cells => map notna_cell cells
  | NumCol cells => map (fun f => negb (PrimFloat.is_nan f)) cells
  | IntCol _ cells => map (fun _ => true) cells
  | BoolCol cells => map (fun _ => true) cells
  end.

Definition is_number (c : json) : bool :=
  match c with JInt _ | JFloat _ => true | _ => false end.

Definition is_bool (c : json) : bool :=
  match c with JBool _ => true | _ => false end.

(** Whether the [.str] accessor accepts an object column: pandas refuses a
    column whose values are all numbers or all booleans (its inferred type
    must be string, mixed or empty). *)
Definition str_accessor_ok (cells : list json) : bool :=
  match filter notna_cell cells with
  | [] => true
  | present => negb (forallb is_number present) && negb (forallb is_bool present)
  end.

(** One cell of [series.str.strip()]: a value that is not a [str] gives NaN. *)
Definition str_strip_cell (c : json) : json :=
  match c with
  | JStr s => JStr (strip s)
  | _ => JFloat nan
  end.

(** [series.str.strip()]; only an [object] column has [.str]. *)
Definition str_strip (c : column) : result (list json) :=
  match c with
  | ObjCol cells =>
      if str_accessor_ok cells then Ok (map str_strip_cell cells) else Raise AttributeError
  | NumCol _ | IntCol _ _ | BoolCol _ => Raise AttributeError
  end.

(** [cells != ''], cell by cell. *)
Definition ne_empty_str (c : json) : bool :=
  match c with
  | JStr s => negb (String.eqb s "")
  | _ => true
  end.

(** One cell of [series > 0] in an object column: a missing value compares
    false, a value that has no order with a number raises. *)
Definition gt_zero_cell (c : json) : result bool :=
  match c with
  | JNull => Ok false
  | JBool b => Ok b
  | JInt z => Ok (Z.ltb 0 z)
  | JFloat f => Ok (PrimFloat.ltb 0%float f)
  | JStr _ | JArr _ | JObj _ => Raise TypeError
  end.

(** [series > 0] *)
Definition gt_zero (c : column) : result (list bool) :=
  match c with
  | ObjCol cells => mapM gt_zero_cell cells
  | NumCol cells => Ok (map (PrimFloat.ltb 0%float) cells)
  | IntCol _ cells => Ok (map (Z.ltb 0) cells)
  | BoolCol cells => Ok cells
  end.

(** [a & b] and [a | b] on boolean series. *)
Fixpoint zip_with {A B C : Type} (f : A -> B -> C) (a : list A) (b : list B) : list C :=
  match a, b with
  | x :: a', y :: b' => f x y :: zip_with f a' b'
  | _, _ => []
  end.

(** The elements of [l] where the mask is [True]. *)
Fixpoint select {A : Type} (mask : list bool) (l : list A) : list A :=
  match mask, l with
  | m :: mask', x :: l' => if m then x :: select mask' l' else select mask' l'
  | _, _ => []
  end.

Definition select_column (mask : list bool) (c : column) : column :=
  match c with
  | ObjCol cells => ObjCol (select mask cells)
  | NumCol cells => NumCol (select mask cells)
  | IntCol unsigned cells => IntCol unsigned (select mask cells)
  | BoolCol cells => BoolCol (select mask cells)
  end.

(** [df[mask].copy()] followed by [reset_index(drop=True)]. *)
Definition select_rows (mask : list bool) (df : DataFrame) : DataFrame :=
  {| nrows := List.length (select mask (seq 0 (nrows df)));
     columns := map (fun kc => (fst kc, select_column mask (snd kc))) (columns df) |}.

(** One cell of [series * k] in an [object] column, for a float [k]: Python
    multiplies a number, and has no product of a float with [None], a string,
    a list or a dict. *)
Definition mul_cell (k : float) (c : json) : result json :=
  match c with
  | JInt z =>
      if PrimFloat.is_infinity (float_of_Z z) then Raise OverflowError
      else Ok (JFloat (PrimFloat.mul (float_of_Z z) k))
  | JFloat f => Ok (JFloat (PrimFloat.mul f k))
  | JBool b => Ok (JFloat (PrimFloat.mul (float_of_bool b) k))
  | JNull | JStr _ | JArr _ | JObj _ => Raise TypeError
  end.

(** [series * k] for a float [k]: a numeric column gives a [float64] column,
    integers and booleans being converted first. *)
Definition mul_scalar (c : column) (k : float) : result column :=
  match c with
  | NumCol cells => Ok (NumCol (map (fun f => PrimFloat.mul f k) cells))
  | IntCol _ cells => Ok (NumCol (map (fun z => PrimFloat.mul (float_of_Z z) k) cells))
  | BoolCol cells => Ok (NumCol (map (fun b => PrimFloat.mul (float_of_bool b) k) cells))
  | ObjCol cells => cells <- mapM (mul_cell k) cells ;; Ok (ObjCol cells)
  end.

(** The cells of a column as Python values. *)
Definition cells_of (c : column) : list json :=
  match c with
  | ObjCol cells => cells
  | NumCol cells => map JFloat cells
  | IntCol _ cells => map JInt cells
  | BoolCol cells => map JBool cells
  end.

(** The dtypes of the columns. *)
Inductive dtype : Type := Dobject | Dfloat64 | Dint64 | Duint64 | Dbool.

Definition dtype_of (c : column) : dtype :=
  match c with
  | ObjCol _ => Dobject
  | NumCol _ => Dfloat64
  | IntCol false _ => Dint64
  | IntCol true _ => Duint64
  | BoolCol _ => Dbool
  end.

(** The dtype that holds the values of two dtypes: [object] as soon as one
    is [object] or a [bool] meets a number, [float64] for two different
    numeric dtypes. *)
Definition find_common_type (a b : dtype) : dtype :=
  match a, b with
  | Dobject, _ | _, Dobject => Dobject
  | Dbool, Dbool => Dbool
  | Dbool, _ | _, Dbool => Dobject
  | Dint64, Dint64 => Dint64
  | Duint64, Duint64 => Duint64
  | _, _ => Dfloat64
  end.

(** The dtype that holds the values of a dtype and NaN. *)
Definition ensure_dtype_can_hold_na (d : dtype) : dtype :=
  match d with
  | Dint64 | Duint64 => Dfloat64
  | Dbool => Dobject
  | d => d
  end.

(** [pd.concat(frames, ignore_index=True)]: the columns are the union of the
    frames' columns in order of appearance; a frame without a column
    contributes NaN; the dtype of a column is the common dtype of the frames
    that have it, widened to hold NaN when a frame has it not. *)
Definition concat_names (frames : list DataFrame) : list string :=
  fold_left union_keys (map (fun df => map fst (columns df)) frames) [].

Definition present_dtypes (key : string) (frames : list DataFrame) : list dtype :=
  flat_map (fun df => match lookup_column (columns df) key with
                      | Some c => [dtype_of c]
                      | None => []
                      end) frames.

Definition concat_dtype (key : string) (frames : list DataFrame) : dtype :=
  match present_dtypes key frames with
  | [] => Dfloat64
  | d :: ds =>
      let common := fold_left find_common_type ds d in
      if existsb (fun df => negb (has_column df key)) frames
      then ensure_dtype_can_hold_na common
      else common
  end.

Definition piece_obj (key : string) (df : DataFrame) : list json :=
  match lookup_column (columns df) key with
  | Some c => cells_of c
  | None => repeat (JFloat nan) (nrows df)
  end.

Definition concat_column (key : string) (frames : list DataFrame) : column :=
  let cells := flat_map (piece_obj key) frames in
  match concat_dtype key frames with
  | Dobject => ObjCol cells
  | Dfloat64 => NumCol (map float_of_cell cells)
  | Dint64 => IntCol false (map Z_of_cell cells)
  | Duint64 => IntCol true (map Z_of_cell cells)
  | Dbool => BoolCol (map bool_of_cell cells)
  end.

Definition pd_concat (frames : list DataFrame) : DataFrame :=
  {| nrows := list_sum (map nrows frames);
     columns := map (fun key => (key, concat_column key frames)) (concat_names frames) |}.

(** *** [sort_values] *)

Section SortValues.

(** The order pandas gives to two present cells of an object column that
    are not both strings. *)
Variable other_ltb : json -> json -> bool.

(** Strict order of the cells of an object column: strings by code point,
    missing values last. *)
Definition obj_ltb (a b : json) : bool :=
  match notna_cell a, notna_cell b with
  | true, false => true
  | false, _ => false
  | true, true =>
      match a, b with
      | JStr x, JStr y => String.ltb x y
      | _, _ => other_ltb a b
      end
  end.

(** Strict order of the cells of a [float64] column, NaN last. *)
Definition num_ltb (a b : float) : bool :=
  if PrimFloat.is_nan a then false
  else if PrimFloat.is_nan b then true
  else PrimFloat.ltb a b.

(** Row [i] before row [j] in one key column. *)
Definition col_ltb (c : column) (i j : nat) : bool :=
  match c with
  | ObjCol cells => obj_ltb (nth i cells JNull) (nth j cells JNull)
  | NumCol cells => num_ltb (nth i cells nan) (nth j cells nan)
  | IntCol _ cells => Z.ltb (nth i cells 0%Z) (nth j cells 0%Z)
  | BoolCol cells => negb (nth i cells false) && nth j cells false
  end.

(** Row [i] strictly before row [j] in the lexicographic order of the key
    columns. *)
Fixpoint rows_ltb (by_cols : list column) (i j : nat) : bool :=
  match by_cols with
  | [] => false
  | c :: by_cols' =>
      if col_ltb c i j then true
      else if col_ltb c j i then false
      else rows_ltb by_cols' i j
  end.

(** The indexer of a stable sort: insertion from the right, a row going in
    front of the rows that are not strictly before it. *)
Fixpoint insert_row (ltb : nat -> nat -> bool) (i : nat) (sorted : list nat) : list nat :=
  match sorted with
  | [] => [i]
  | j :: sorted' => if ltb j i then j :: insert_row ltb i sorted' else i :: j :: sorted'
  end.

Definition sort_indexer (ltb : nat -> nat -> bool) (rows : list nat) : list nat :=
  fold_right (insert_row ltb) [] rows.

(** [series.take(indexer)] *)
Definition take_column (indexer : list nat) (c : column) : column :=
  match c with
  | ObjCol cells => ObjCol (map (fun i => nth i cells JNull) indexer)
  | NumCol cells => NumCol (map (fun i => nth i cells nan) indexer)
  | IntCol unsigned cells => IntCol unsigned (map (fun i => nth i cells 0%Z) indexer)
  | BoolCol cells => BoolCol (map (fun i => nth i cells false) indexer)
  end.

(** A value that can be hashed: the values of a key column are factorized,
    which a list or a dict among them makes fail. *)
Definition hashable (c : json) : bool :=
  match c with
  | JArr _ | JObj _ => false
  | _ => true
  end.

Definition factorizable (c : column) : bool :=
  match c with
  | ObjCol cells => forallb hashable cells
  | _ => true
  end.

(** [df.sort_values(by)] for a list of two or more keys: ascending, missing
    values last.  With more than one key pandas factorizes each key column,
    raising [TypeError] on a cell that cannot be hashed, and sorts with a
    lexsort, which is stable. *)
Definition sort_values (by_keys : list string) (df : DataFrame) : result DataFrame :=
  by_cols <- mapM (getitem df) by_keys ;;
  if forallb factorizable by_cols then
    let indexer := sort_indexer (rows_ltb by_cols) (seq 0 (nrows df)) in
    Ok {| nrows := nrows df;
          columns := map (fun kc => (fst kc, take_column indexer (snd kc))) (columns df) |}
  else Raise TypeError.

End SortValues.

(** *** [to_numeric] *)

(** A number as [pandas.to_numeric] reads it in one cell. *)
Inductive number : Type :=
| NInt (z : Z)
| NFloat (f : float)
| NBool (b : bool).

Definition reads_float (n : number) : bool :=
  match n with NFloat _ => true | _ => false end.

Definition reads_int (n : number) : bool :=
  match n with NInt _ => true | _ => false end.

Definition reads_bool (n : number) : bool :=
  match n with NBool _ => true | _ => false end.

Definition reads_uint (n : number) : bool :=
  match n with NInt z => Z.ltb int64_max z && Z.leb z uint64_max | _ => false end.

Definition reads_negative (n : number) : bool :=
  match n with NInt z => Z.leb int64_min z && Z.ltb z 0 | _ => false end.

Definition reads_out_of_range (n : number) : bool :=
  match n with NInt z => Z.ltb z int64_min || Z.ltb uint64_max z | _ => false end.

Definition float_of_number (n : number) : float :=
  match n with
  | NInt z => float_of_Z z
  | NFloat f => f
  | NBool b => float_of_bool b
  end.

Definition Z_of_number (n : number) : Z :=
  match n with
  | NInt z => z
  | NBool b => if b then 1%Z else 0%Z
  | NFloat _ => 0%Z
  end.

Definition bool_of_number (n : number) : bool :=
  match n with NBool b => b | _ => false end.

(** ** Strings, paths and effects of the drivers *)

(** [str.lower] on one code point below 256: the letters A to Z and the
    capital letters of Latin-1 (all of 192 to 222 but the multiplication
    sign) move up by 32. *)
Definition lower_char (c : ascii) : ascii :=
  let n := nat_of_ascii c in
  if ((65 <=? n) && (n <=? 90))
     || ((192 <=? n) && (n <=? 222) && negb (n =? 215))
  then ascii_of_nat (n + 32)
  else c.

Fixpoint str_lower (s : string) : string :=
  match s with
  | EmptyString => EmptyString
  | String c s' => String (lower_char c) (str_lower s')
  end.

(** [s.endswith(suffix)] *)
Fixpoint endswith (s suffix : string) : bool :=
  if String.eqb s suffix then true
  else match s with
       | EmptyString => false
       | String _ s' => endswith s' suffix
       end.

(** [s.endswith(suffixes)] for a tuple of suffixes. *)
Definition endswith_any (s : string) (suffixes : list string) : bool :=
  existsb (endswith s) suffixes.

(** [s.startswith(prefix)] *)
Definition startswith (s prefix : string) : bool := String.prefix prefix s.

(** [s.rfind(c)] for one character, [None] standing for -1. *)
Fixpoint rfind (c : ascii) (s : string) : option nat :=
  match s with
  | EmptyString => None
  | String a s' =>
      match rfind c s' with
      | Some j => Some (S j)
      | None => if Ascii.eqb a c then Some 0 else None
      end
  end.

(** [Path(name).stem] for a file name as [os.listdir] gives it (one path
    component): the name without its last suffix; a dot at the start of the
    name does not begin a suffix. *)
Definition stem (name : string) : string :=
  match rfind "."%char name with
  | Some i =>
      if (0 <? i) && (i <? String.length name - 1) then substring 0 i name else name
  | None => name
  end.

(** [os.path.join(a, b)] on POSIX. *)
Definition path_join (a b : string) : string :=
  if startswith b "/" then b
  else if String.eqb a "" || endswith a "/" then String.append a b
  else String.append a (String.append "/" b).

(** What a retry loop does besides returning: the calls of the model, the
    messages it prints and the seconds it sleeps. *)
Inductive event : Type :=
| Called (attempt : nat)
| Printed (attempt : nat)
| Slept (seconds : nat).

(** The branch [process_folder] takes for a file. *)
Inductive handler : Type := UsePdf | UseImage | Unsupported.

(** What [process_folder] leaves behind: the files written, in order, the
    frames kept for the combined file, and the combined frame. *)
Record folder_run : Type := {
  saved : list (string * DataFrame);
  all_data : list DataFrame;
  processed_count : nat
}.

(** ** OCR_Invoices_Output_Excel.py *)

Module Excel.

Section Core.

(** [json.loads]: [None] stands for [json.JSONDecodeError].  The text handed
    over starts with an opening brace, so what parses is an object. *)
Variable json_loads : string -> option dict.

(** What [pd.to_numeric(series, errors='coerce')] reads in one cell of an
    [object] column: an integer, a float or a boolean, NaN for a value that
    is no number. *)
Variable to_numeric : json -> number.

Variable other_ltb : json -> json -> bool.

Definition extract_json_from_response (response_text : string) : option dict :=
  match re_search_braces response_text with
  | None => None
  | Some json_match =>
      match json_loads json_match with
      | None => None
      | Some json_data =>
          if negb (dict_contains json_data "Product")
             || negb (truthy_at json_data "Product")
          then None
          else Some json_data
      end
  end.

(** One turn of the loop [for key in array_keys]. *)
Definition adjust (target_length : nat) (json_data : dict) (key : string) : dict :=
  let current := items_at json_data key in
  let current_length := List.length current in
  if current_length =? 0 then
    dict_set json_data key (JArr (repeat (filler key) target_length))
  else if current_length <? target_length then
    dict_set json_data key
      (JArr (current ++ repeat (filler key) (target_length - current_length)))
  else if target_length <? current_length then
    dict_set json_data key (JArr (firstn target_length current))
  else json_data.

(** [array_keys]: the keys whose value is a list, in dictionary order. *)
Definition array_keys (json_data : dict) : list string :=
  map fst (filter (fun kv => isinstance_list (snd kv)) json_data).

(** [non_empty_lengths] *)
Definition non_empty_lengths (json_data : dict) : list nat :=
  filter (fun n => 0 <? n)
    (map (fun key => List.length (items_at json_data key)) (array_keys json_data)).

Definition ensure_equal_length_arrays (json_data : dict) : dict :=
  match array_keys json_data with
  | [] => json_data
  | _ :: _ =>
      match non_empty_lengths json_data with
      | [] => json_data
      | _ :: _ =>
          match most_common_1 (Counter (non_empty_lengths json_data)) with
          | (target_length, _) :: _ =>
              fold_left (adjust target_length) (array_keys json_data) json_data
          | [] => json_data
          end
      end
  end.

Definition clean_dataframe (df : DataFrame) : result DataFrame :=
  product <- getitem df "Product" ;;
  stripped <- str_strip product ;;
  let mask := zip_with andb (map ne_empty_str stripped) (notna product) in
  total <- getitem df "Total" ;;
  positive <- gt_zero total ;;
  let mask := zip_with orb mask (zip_with andb positive (notna total)) in
  Ok (select_rows mask df).

(** [df[col] = pd.to_numeric(df[col], errors='coerce')]: a numeric column is
    returned as it is.  The cells of an [object] column are read one by one;
    the result is [float64] when a float or NaN was read, or an integer
    outside [int64] and [uint64], or integers that need both; else it is
    [int64] or [uint64] when an integer was read, booleans counting 1 and 0;
    else [bool]; an empty column gives [int64]. *)
Definition to_numeric_column (c : column) : column :=
  match c with
  | ObjCol cells =>
      let read := map to_numeric cells in
      let uint := existsb reads_uint read in
      if existsb reads_float read || existsb reads_out_of_range read
         || (uint && existsb reads_negative read)
      then NumCol (map float_of_number read)
      else if existsb reads_int read then IntCol uint (map Z_of_number read)
      else if existsb reads_bool read then BoolCol (map bool_of_number read)
      else IntCol false (map Z_of_number read)
  | c => c
  end.

Definition convert_numeric_columns (df : DataFrame) : DataFrame :=
  fold_left
    (fun df col =>
       match lookup_column (columns df) col with
       | Some c => setitem df col (to_numeric_column c)
       | None => df
       end)
    ["Qty"; "U.Price"; "Total"] df.

(** The body of the [try] of [process_pdf] from the response on;
    [process_image] runs the same statements.  [source] is
    [os.path.basename(pdf_path)], [response] the text the model call
    returned. *)
Definition process_response (source response : string) : result DataFrame :=
  match extract_json_from_response response with
  | None => Ok empty_frame
  | Some json_data =>
      let json_data := ensure_equal_length_arrays json_data in
      df <- pd_DataFrame json_data ;;
      let df := convert_numeric_columns df in
      df <- (if has_column df "U.Price" then
               price <- getitem df "U.Price" ;;
               marked_up <- mul_scalar price 1.25%float ;;
               Ok (setitem df "Marked_Up_Price" marked_up)
             else Ok df) ;;
      let df := setitem df "Source" (ObjCol (repeat (JStr source) (nrows df))) in
      clean_dataframe df
  end.

(** [process_pdf] for a valid PDF: [except Exception] turns every failure
    into the empty frame. *)
Definition process_pdf (source response : string) : DataFrame :=
  match process_response source response with
  | Ok df => df
  | Raise _ => empty_frame
  end.

(** [process_image] once the image is encoded: the statements after the
    model call are those of [process_pdf]. *)
Definition process_image (source response : string) : DataFrame :=
  match process_response source response with
  | Ok df => df
  | Raise _ => empty_frame
  end.

(** The sort at the end of [process_folder]. *)
Definition sort_combined (combined_df : DataFrame) : result DataFrame :=
  if has_column combined_df "Date"
  then sort_values other_ltb ["Date"; "Product"] combined_df
  else Ok combined_df.

(** [process_folder] once the documents are processed: [documents] are the
    frames [process_pdf] and [process_image] returned, in processing order.
    [None] when nothing was extracted and no combined file is written. *)
Definition combine_documents (documents : list DataFrame) : result (option DataFrame) :=
  let all_data := filter (fun df => negb (df_empty df)) documents in
  match all_data with
  | [] => Ok None
  | _ :: _ =>
      let combined_df := pd_concat all_data in
      combined_df <- clean_dataframe combined_df ;;
      combined_df <- sort_combined combined_df ;;
      Ok (Some combined_df)
  end.

(** *** The model call *)

(** [for block in message.content: if hasattr(block, 'text'): return
    block.text], a block being its [text] when it has one. *)
Fixpoint first_block_text (blocks : list (option string)) : option string :=
  match blocks with
  | [] => None
  | Some text :: _ => Some text
  | None :: blocks' => first_block_text blocks'
  end.

(** What the statements after [messages.create] return for the content
    blocks of a message: [None] stands for the exception raised
    ([IndexError] on an empty content, [ValueError] when no block has
    text). *)
Definition text_of_message (content : list (option string)) : option string :=
  match content with
  | [] => None
  | Some text :: _ => Some text
  | None :: _ => first_block_text content
  end.

(** The loop [for attempt in range(retries)] of [call_claude_with_retries],
    from [attempt] on with [remaining] turns left.  [create attempt] is what
    [messages.create] gives at that attempt, [None] when it raises.  The
    module sets [USE_ANTHROPIC_DIRECT = True] and [USE_AWS_BEDROCK = False],
    so the call goes to [messages.create].  The result is the text returned,
    or [None] for [Exception("All retries failed")], with the events in
    order. *)
Fixpoint claude_attempts (create : nat -> option (list (option string)))
    (retries delay attempt remaining : nat) : option string * list event :=
  match remaining with
  | 0 => (None, [])
  | S remaining' =>
      match match create attempt with
            | Some content => text_of_message content
            | None => None
            end with
      | Some text => (Some text, [Called attempt])
      | None =>
          let rest := claude_attempts create retries delay (S attempt) remaining' in
          (fst rest,
           Called attempt :: Printed attempt
           :: (if attempt <? retries - 1 then [Slept (delay * (attempt + 1))] else [])
           ++ snd rest)
      end
  end.

Definition call_claude_with_retries (create : nat -> option (list (option string)))
    (retries delay : nat) : option string * list event :=
  claude_attempts create retries delay 0 retries.

(** *** [process_image]: the media type *)

(** The media type [process_image] declares for an image whose [img.format]
    is [format] ([None] when PIL knows none), and whether the image is saved
    again as PNG. *)
Definition image_media_type (format : option string) : string * bool :=
  match format with
  | Some f =>
      if negb (String.eqb f "") && str_in (str_lower f) ["jpeg"; "jpg"]
      then ("image/jpeg", false)
      else if negb (String.eqb f "") && String.eqb (str_lower f) "png"
      then ("image/png", false)
      else if negb (String.eqb f "") && String.eqb (str_lower f) "webp"
      then ("image/webp", false)
      else if negb (String.eqb f "") && String.eqb (str_lower f) "gif"
      then ("image/gif", false)
      else ("image/png", true)
  | None => ("image/png", true)
  end.

(** *** [process_folder]: the loop over the files *)

(** [os.path.isdir] of a file of the folder. *)
Variable isdir : string -> bool.

(** [validate_pdf] of a file of the folder. *)
Variable valid_pdf : string -> bool.

(** The text the model call returns for a file, [None] when reading the file
    or the call raises. *)
Variable model_response : string -> option string.

(** The test on the extension. *)
Definition dispatch (file : string) : handler :=
  if endswith_any (str_lower file) [".pdf"; ".PDF"] then UsePdf
  else if endswith_any (str_lower file)
            [".jpg"; ".jpeg"; ".png"; ".webp"; ".heic"; ".gif"] then UseImage
  else Unsupported.

(** [process_pdf(file_path)] and [process_image(file_path)] for a file of the
    folder; [os.path.basename(file_path)] is the file name. *)
Definition process_pdf_file (file : string) : DataFrame :=
  if valid_pdf file then
    match model_response file with
    | Some response => process_pdf file response
    | None => empty_frame
    end
  else empty_frame.

Definition process_image_file (file : string) : DataFrame :=
  match model_response file with
  | Some response => process_image file response
  | None => empty_frame
  end.

(** [os.path.join(output_folder, f"{Path(file).stem}.xlsx")] *)
Definition output_path (output_folder file : string) : string :=
  path_join output_folder (String.append (stem file) ".xlsx").

(** One turn of the loop [for file in files]. *)
Definition process_file (output_folder : string) (run : folder_run) (file : string)
  : folder_run :=
  if isdir file then run
  else
    let counted := {| saved := saved run; all_data := all_data run;
                      processed_count := S (processed_count run) |} in
    match match dispatch file with
          | UsePdf => Some (process_pdf_file file)
          | UseImage => Some (process_image_file file)
          | Unsupported => None
          end with
    | None => counted
    | Some df =>
        if negb (df_empty df) then
          {| saved := saved counted ++ [(output_path output_folder file, df)];
             all_data := all_data counted ++ [df];
             processed_count := processed_count counted |}
        else counted
    end.

(** [process_folder] up to the combined file: the run over the files of the
    folder and the combined frame, [None] when no combined file is written. *)
Definition process_folder (files : list string) (output_folder : string)
  : folder_run * result (option DataFrame) :=
  let run := fold_left (process_file output_folder) files
               {| saved := []; all_data := []; processed_count := 0 |} in
  (run, combine_documents (all_data run)).

End Core.

End Excel.

(** ** OCR_Invoices_Output_Excel_Gemini.py *)

Module Gemini.

Section Core.

Variable json_loads : string -> option dict.

Definition extract_json_from_response (response_text : string) : option dict :=
  match re_search_braces response_text with
  | None => None
  | Some json_match =>
      match json_loads json_match with
      | None => None
      | Some json_data =>
          if negb (dict_contains json_data "Product")
             || negb (truthy_at json_data "Product")
          then None
          else Some json_data
      end
  end.

Definition adjust (target_length : nat) (json_data : dict) (key : string) : dict :=
  let current := items_at json_data key in
  let current_length := List.length current in
  if current_length =? 0 then
    dict_set json_data key (JArr (repeat (filler key) target_length))
  else if current_length <? target_length then
    dict_set json_data key
      (JArr (current ++ repeat (filler key) (target_length - current_length)))
  else if target_length <? current_length then
    dict_set json_data key (JArr (firstn target_length current))
  else json_data.

Definition array_keys (json_data : dict) : list string :=
  map fst (filter (fun kv => isinstance_list (snd kv)) json_data).

Definition non_empty_lengths (json_data : dict) : list nat :=
  filter (fun n => 0 <? n)
    (map (fun key => List.length (items_at json_data key)) (array_keys json_data)).

Definition ensure_equal_length_arrays (json_data : dict) : dict :=
  match array_keys json_data with
  | [] => json_data
  | _ :: _ =>
      match non_empty_lengths json_data with
      | [] => json_data
      | _ :: _ =>
          match most_common_1 (Counter (non_empty_lengths json_data)) with
          | (target_length, _) :: _ =>
              fold_left (adjust target_length) (array_keys json_data) json_data
          | [] => json_data
          end
      end
  end.

Definition clean_dataframe (df : DataFrame) : result DataFrame :=
  product <- getitem df "Product" ;;
  stripped <- str_strip product ;;
  let mask := zip_with andb (map ne_empty_str stripped) (notna product) in
  total <- getitem df "Total" ;;
  positive <- gt_zero total ;;
  let mask := zip_with orb mask (zip_with andb positive (notna total)) in
  Ok (select_rows mask df).

(** The loop of [call_gemini_with_retries]: [generate attempt] is
    [model.generate_content(payload).text] at that attempt, [None] when it
    raises. *)
Fixpoint gemini_attempts (generate : nat -> option string)
    (retries delay attempt remaining : nat) : option string * list event :=
  match remaining with
  | 0 => (None, [])
  | S remaining' =>
      match generate attempt with
      | Some text => (Some text, [Called attempt])
      | None =>
          let rest := gemini_attempts generate retries delay (S attempt) remaining' in
          (fst rest,
           Called attempt :: Printed attempt
           :: (if attempt <? retries - 1 then [Slept delay] else [])
           ++ snd rest)
      end
  end.

Definition call_gemini_with_retries (generate : nat -> option string)
    (retries delay : nat) : option string * list event :=
  gemini_attempts generate retries delay 0 retries.

(** The test on the extension in [process_folder]. *)
Definition dispatch (file : string) : handler :=
  if endswith_any (str_lower file) [".pdf"; ".PDF"] then UsePdf
  else if endswith_any (str_lower file)
            [".jpg"; ".jpeg"; ".png"; ".webp"; ".heic"] then UseImage
  else Unsupported.

End Core.

End Gemini.

(** ** Specification-side notions for the reconciler *)

(** Example 1 of the specification: [{"Product": ["A", "B"], "Qty": [1]}]. *)
Definition example_1 : dict :=
  [("Product", JArr [JStr "A"; JStr "B"]); ("Qty", JArr [JInt 1])].

(** The dominant length [N]: the [target_length] the reconciler computes,
    when it gets that far. *)
Definition dominant_length (json_data : dict) : option nat :=
  match most_common_1 (Counter (Excel.non_empty_lengths json_data)) with
  | (target_length, _) :: _ => Some target_length
  | [] => None
  end.

(** A sequence brought to length [N] as the specification words it: [N]
    fillers for an empty one, padding on the right for a short one, the first
    [N] elements of a long one. *)
Definition fit (N : nat) (key : string) (items : list json) : list json :=
  match items with
  | [] => repeat (filler key) N
  | _ :: _ =>
      if List.length items <? N
      then items ++ repeat (filler key) (N - List.length items)
      else firstn N items
  end.

Definition reconcile_entry (N : nat) (kv : string * json) : string * json :=
  match snd kv with
  | JArr items => (fst kv, JArr (fit N (fst kv) items))
  | _ => kv
  end.

(** The fields the extraction prompt asks for. *)
Definition fixed_fields : list string :=
  ["Date"; "Product"; "Qty"; "U.Price"; "Total"].

(** The lengths of the sequence-valued fields, read off the entries. *)
Definition seq_length (kv : string * json) : nat :=
  match snd kv with JArr items => List.length items | _ => 0 end.

Definition seq_lengths (d : dict) : list nat :=
  map seq_length (filter (fun kv => isinstance_list (snd kv)) d).

(** Every field of the fixed field set holds a sequence of length [N] after
    reconciliation, whether or not the raw extraction had it. *)
Definition all_fixed_fields_reconciled (d : dict) : Prop :=
  forall N, dominant_length d = Some N ->
  forall key, In key fixed_fields ->
  exists items,
    dict_get (Excel.ensure_equal_length_arrays d) key = Some (JArr items)
    /\ List.length items = N.

(** ** Specification-side notions for the parser *)

Fixpoint first_index (c : ascii) (s : string) : option nat :=
  match s with
  | EmptyString => None
  | String a s' => if Ascii.eqb a c then Some 0 else option_map S (first_index c s')
  end.

Fixpoint last_index (c : ascii) (s : string) : option nat :=
  match s with
  | EmptyString => None
  | String a s' =>
      match last_index c s' with
      | Some j => Some (S j)
      | None => if Ascii.eqb a c then Some 0 else None
      end
  end.

(** The substring from the first opening brace to the last closing brace of
    the text, when the one stands before the other. *)
Definition first_to_last_brace (text : string) : option string :=
  match first_index "{"%char text, last_index "}"%char text with
  | Some i, Some j => if i <? j then Some (substring i (j - i + 1) text) else None
  | _, _ => None
  end.

(** The failures the specification names. *)
Inductive failure : Type := NoJsonFound | InvalidJson | MissingProductField.

(** A value that is empty or absent: the empty list, string or object, or
    [None]. *)
Definition empty_or_absent (v : json) : Prop :=
  v = JNull \/ v = JStr "" \/ v = JArr [] \/ v = JObj [].

(** The parser tells its caller which of the three failures occurred:
    [signal] reads the failure off what the parser returned. *)
Definition signals_failures (json_loads : string -> option dict)
    (signal : option dict -> option failure) : Prop :=
  (forall text, first_to_last_brace text = None ->
     signal (Excel.extract_json_from_response json_loads text) = Some NoJsonFound)
  /\ (forall text m, first_to_last_brace text = Some m -> json_loads m = None ->
      signal (Excel.extract_json_from_response json_loads text) = Some InvalidJson)
  /\ (forall text m d, first_to_last_brace text = Some m -> json_loads m = Some d ->
      (dict_get d "Product" = None
       \/ exists v, dict_get d "Product" = Some v /\ empty_or_absent v) ->
      signal (Excel.extract_json_from_response json_loads text) = Some MissingProductField).

(** The double quote. *)
Definition dq : string := String (ascii_of_nat 34) EmptyString.

(** The object of Example 4, [{"Product":["X"],"Total":[10]}], and the
    response text around it. *)
Definition example_4_object : string :=
  String.concat ""
    ["{"; dq; "Product"; dq; ":["; dq; "X"; dq; "],"; dq; "Total"; dq; ":[10]}"].

Definition example_4_text : string :=
  String.concat "" ["Here is the result: "; example_4_object; " Thanks!"].

Definition example_4_dict : dict :=
  [("Product", JArr [JStr "X"]); ("Total", JArr [JInt 10])].

(** Example 1 as the model writes it. *)
Definition example_1_object : string :=
  String.concat ""
    ["{"; dq; "Product"; dq; ":["; dq; "A"; dq; ","; dq; "B"; dq; "],";
     dq; "Qty"; dq; ":[1]}"].

(** An invoice of two lines, the second with a unit price that is not a
    number:
    [{"Date":["2023-06-24","2023-06-24"],"Product":["BD2 Coriander Eng","BIA MINT Eng"],
      "Qty":[50,10],"U.Price":[7.5,"n/a"],"Total":[375,70]}]. *)
Definition sample_invoice_object : string :=
  String.concat ""
    ["{"; dq; "Date"; dq; ":["; dq; "2023-06-24"; dq; ","; dq; "2023-06-24"; dq; "],";
     dq; "Product"; dq; ":["; dq; "BD2 Coriander Eng"; dq; ","; dq; "BIA MINT Eng"; dq; "],";
     dq; "Qty"; dq; ":[50,10],";
     dq; "U.Price"; dq; ":[7.5,"; dq; "n/a"; dq; "],";
     dq; "Total"; dq; ":[375,70]}"].

Definition sample_invoice_dict : dict :=
  [("Date", JArr [JStr "2023-06-24"; JStr "2023-06-24"]);
   ("Product", JArr [JStr "BD2 Coriander Eng"; JStr "BIA MINT Eng"]);
   ("Qty", JArr [JInt 50; JInt 10]);
   ("U.Price", JArr [JFloat 7.5%float; JStr "n/a"]);
   ("Total", JArr [JInt 375; JInt 70])].

(** A response with a Product and a Total and no Date:
    [{"Product":["A"],"Total":[5]}]. *)
Definition sample_no_date_object : string :=
  String.concat ""
    ["{"; dq; "Product"; dq; ":["; dq; "A"; dq; "],"; dq; "Total"; dq; ":[5]}"].

Definition sample_no_date_dict : dict :=
  [("Product", JArr [JStr "A"]); ("Total", JArr [JInt 5])].

(** [json.loads] on the texts the examples use; no other text is used with
    it. *)
Definition sample_json_loads (s : string) : option dict :=
  if String.eqb s example_4_object then Some example_4_dict
  else if String.eqb s example_1_object then Some example_1
  else if String.eqb s sample_invoice_object then Some sample_invoice_dict
  else if String.eqb s sample_no_date_object then Some sample_no_date_dict
  else if String.eqb s "{}" then Some []
  else None.

(** [pd.to_numeric(..., errors='coerce')] on the cells the examples use:
    numbers as they are, NaN for the strings (none of which is numeric) and
    for [None]. *)
Definition sample_to_numeric (c : json) : number :=
  match c with
  | JInt z => NInt z
  | JFloat f => NFloat f
  | JBool b => NBool b
  | _ => NFloat nan
  end.

(** ** Specification-side notions for frames *)

(** Every column has as many cells as the frame has rows. *)
Definition wf_frame (df : DataFrame) : Prop :=
  Forall (fun kc => col_length (snd kc) = nrows df) (columns df).

(** Row [i] of a frame as a record, and the frame as its sequence of rows. *)
Definition row_at (df : DataFrame) (i : nat) : dict :=
  map (fun kc => (fst kc, nth i (cells_of (snd kc)) JNull)) (columns df).

Definition rows (df : DataFrame) : list dict :=
  map (row_at df) (seq 0 (nrows df)).











(** The two rows of Example 3. *)
Definition example_3_frame : DataFrame :=
  {| nrows := 2;
     columns := [("Product", ObjCol [JStr "  "; JStr ""]);
                 ("Total", NumCol [0%float; 5%float])] |}.

(** A column of a numeric dtype: [float64], [int64], [uint64] or [bool]. *)
Definition numeric_column (c : column) : bool :=
  match c with ObjCol _ => false | _ => true end.

(** The frame after the numeric conversion gets its mark-up column. *)
Definition with_marked_up_price (df : DataFrame) : DataFrame :=
  match lookup_column (columns df) "U.Price" with
  | Some (ObjCol _) | None => df
  | Some price =>
      setitem df "Marked_Up_Price"
        (NumCol (map (fun v => (float_of_cell v * 1.25)%float) (cells_of price)))
  end.

(** The float a cell holds when it holds a number. *)
Definition number_of_cell (c : json) : option float :=
  match c with
  | JInt z => Some (float_of_Z z)
  | JFloat f => Some f
  | JBool b => Some (float_of_bool b)
  | _ => None
  end.

(** The unit price of a row when it is present: a number that is not NaN. *)
Definition price_of (row : dict) : option float :=
  match dict_get row "U.Price" with
  | Some v =>
      match number_of_cell v with
      | Some u => if PrimFloat.is_nan u then None else Some u
      | None => None
      end
  | None => None
  end.

(** A field of a row is null: absent or a missing value. *)
Definition null_field (row : dict) (key : string) : Prop :=
  match dict_get row key with
  | Some v => notna_cell v = false
  | None => True
  end.

(** In every row the mark-up is the unit price times 1.25 when there is a
    unit price, and null when there is none. *)
Definition marked_up_as_claimed (out : DataFrame) : Prop :=
  forall row, In row (rows out) ->
    match price_of row with
    | Some u => dict_get row "Marked_Up_Price" = Some (JFloat (u * 1.25)%float)
    | None => null_field row "Marked_Up_Price"
    end.

(** A response that brings a mark-up of its own and no unit price:
    [{"Product":["Widget"],"Total":[10],"Marked_Up_Price":["x"]}]. *)
Definition own_mark_up_object : string :=
  String.concat ""
    ["{"; dq; "Product"; dq; ":["; dq; "Widget"; dq; "],"; dq; "Total"; dq; ":[10],";
     dq; "Marked_Up_Price"; dq; ":["; dq; "x"; dq; "]}"].

Definition own_mark_up_dict : dict :=
  [("Product", JArr [JStr "Widget"]); ("Total", JArr [JInt 10]);
   ("Marked_Up_Price", JArr [JStr "x"])].

(** [json.loads] on that text. *)
Definition own_mark_up_loads (s : string) : option dict :=
  if String.eqb s own_mark_up_object then Some own_mark_up_dict else None.

(** ** Floating point *)

(** A float of the specification is NaN. *)
Definition sf_is_nan (x : spec_float) : bool :=
  match x with S754_nan => true | _ => false end.

(** ** Specification-side notions for the sort *)







(** No order is needed between cells that are not strings in the examples. *)
Definition no_other_order (a b : json) : bool := false.

(** ** Further sample inputs *)

(** A response whose Product is a scalar and whose only list is empty:
    [{"Product":"Widget","Total":[]}]. *)
Definition scalar_product_object : string :=
  String.concat ""
    ["{"; dq; "Product"; dq; ":"; dq; "Widget"; dq; ","; dq; "Total"; dq; ":[]}"].

Definition scalar_product_dict : dict :=
  [("Product", JStr "Widget"); ("Total", JArr [])].

(** [json.loads] on that text. *)
Definition scalar_product_loads (s : string) : option dict :=
  if String.eqb s scalar_product_object then Some scalar_product_dict else None.

(** ** Specification-side notions for the retry loops *)

(** The number of calls of the model and the seconds slept in a sequence of
    events. *)
Definition calls (events : list event) : nat :=
  List.length (filter (fun e => match e with Called _ => true | _ => false end) events).

Definition seconds_slept (events : list event) : nat :=
  list_sum (map (fun e => match e with Slept seconds => seconds | _ => 0 end) events).

(** A model that fails twice and then answers. *)
Definition third_time_lucky (attempt : nat) : option string :=
  if attempt <? 2 then None else Some "ok".

Definition third_time_lucky_message (attempt : nat) : option (list (option string)) :=
  if attempt <? 2 then None else Some [None; Some "ok"].

(** The sleeps of a sequence of events, in order. *)
Definition sleeps (events : list event) : list nat :=
  flat_map (fun e => match e with Slept seconds => [seconds] | _ => [] end) events.

(** What one attempt of [call_claude_with_retries] gives: the text, or
    [None] when the call or the reading of the message raises. *)
Definition claude_attempt (create : nat -> option (list (option string)))
    (attempt : nat) : option string :=
  match create attempt with
  | Some content => Excel.text_of_message content
  | None => None
  end.

(** ** Specification-side notions for the folder run *)

Section FolderSpec.

Variable json_loads : string -> option dict.
Variable to_numeric : json -> number.
Variable isdir : string -> bool.
Variable valid_pdf : string -> bool.
Variable model_response : string -> option string.

(** The frame extracted from a file of the folder; [None] for a directory
    and for a file whose extension is not handled. *)
Definition handled_frame (file : string) : option DataFrame :=
  if isdir file then None
  else match Excel.dispatch file with
       | UsePdf =>
           Some (Excel.process_pdf_file json_loads to_numeric valid_pdf model_response file)
       | UseImage =>
           Some (Excel.process_image_file json_loads to_numeric model_response file)
       | Unsupported => None
       end.

(** The spreadsheet a file of the folder gives rise to, if any. *)
Definition written (output_folder file : string) : list (string * DataFrame) :=
  match handled_frame file with
  | Some df => if df_empty df then [] else [(Excel.output_path output_folder file, df)]
  | None => []
  end.

End FolderSpec.

(** The rows of the spreadsheets written for the single files. *)
Definition rows_saved (run : folder_run) : nat :=
  list_sum (map (fun entry => nrows (snd entry)) (saved run)).

(** A sample folder: a directory, an invoice as PDF and as image, a text
    file; the model answers every call with the sample invoice. *)
Definition sample_files : list string :=
  ["archive"; "invoice.pdf"; "notes.txt"; "invoice.png"].

Definition sample_isdir (file : string) : bool := String.eqb file "archive".

Definition sample_valid_pdf (file : string) : bool := true.

Definition sample_model_response (file : string) : option string :=
  Some sample_invoice_object.

Definition sample_folder_run : folder_run * result (option DataFrame) :=
  Excel.process_folder sample_json_loads sample_to_numeric no_other_order
    sample_isdir sample_valid_pdf sample_model_response sample_files "output".

Definition sample_combined : DataFrame :=
  Eval vm_compute in
    match snd sample_folder_run with
    | Ok (Some combined_df) => combined_df
    | _ => empty_frame
    end.

(* ================================================================== *)
(** * Theorems *)

(** ** Dictionaries *)

Lemma dict_get_app_notin (pre d : dict) (k : string) :
  ~ In k (keys pre) -> dict_get (pre ++ d) k = dict_get d k.
Proof.
  induction pre as [|[k' v'] pre IH]; simpl; intros Hn; [reflexivity|].
  destruct (String.eqb_spec k k') as [->|_].
  - exfalso. apply Hn. now left.
  - apply IH. intros H. apply Hn. now right.
Qed.

Lemma dict_set_app_notin (pre d : dict) (k : string) (v : json) :
  ~ In k (keys pre) -> dict_set (pre ++ d) k v = pre ++ dict_set d k v.
Proof.
  induction pre as [|[k' v'] pre IH]; simpl; intros Hn; [reflexivity|].
  destruct (String.eqb_spec k k') as [->|_].
  - exfalso. apply Hn. now left.
  - f_equal. apply IH. intros H. apply Hn. now right.
Qed.


Lemma dict_get_None (d : dict) (k : string) :
  dict_get d k = None <-> ~ In k (keys d).
Proof.
  induction d as [|[k' v'] d IH]; simpl.
  - split; [intros _ []|reflexivity].
  - destruct (String.eqb_spec k k') as [->|Hne].
    + split; [discriminate|]. intros H. exfalso. apply H. now left.
    + rewrite IH. split; intros H.
      * intros [E|E]; [now apply Hne|now apply H].
      * intros E. apply H. now right.
Qed.

Lemma In_dict_get (d : dict) (k : string) (v : json) :
  wf_dict d -> In (k, v) d -> dict_get d k = Some v.
Proof.
  unfold wf_dict. induction d as [|[k' v'] d IH]; simpl; intros Hnd Hin; [easy|].
  inversion Hnd as [|? ? Hnotin Hnd']; subst.
  destruct Hin as [E|Hin].
  - injection E as -> ->. now rewrite String.eqb_refl.
  - destruct (String.eqb_spec k k') as [->|_].
    + exfalso. apply Hnotin. change (In (fst (k', v)) (map fst d)). now apply in_map.
    + now apply IH.
Qed.

Lemma dict_get_map_entry (f : string * json -> string * json) (d : dict) (k : string) :
  (forall kv, fst (f kv) = fst kv) ->
  dict_get (map f d) k =
  match dict_get d k with Some v => Some (snd (f (k, v))) | None => None end.
Proof.
  intros Hf. induction d as [|[k' v'] d IH]; simpl; [reflexivity|].
  specialize (Hf (k', v')) as Hk. destruct (f (k', v')) as [k'' v''] eqn:E.
  simpl in Hk. subst k''.
  destruct (String.eqb_spec k k') as [->|_]; [now rewrite E|apply IH].
Qed.

(** ** The reconciler as a map over the entries *)

Lemma fit_length_eq (N : nat) (key : string) (items : list json) :
  List.length items = N -> fit N key items = items.
Proof.
  intros <-. unfold fit. destruct items as [|x items]; [reflexivity|].
  rewrite Nat.ltb_irrefl. apply firstn_all.
Qed.

Lemma fit_length (N : nat) (key : string) (items : list json) :
  List.length (fit N key items) = N.
Proof.
  unfold fit. destruct items as [|x items]; [apply repeat_length|].
  destruct (Nat.ltb_spec (List.length (x :: items)) N) as [H|H].
  - rewrite length_app, repeat_length. lia.
  - apply firstn_length_le. exact H.
Qed.

Lemma reconcile_entry_fst (N : nat) (kv : string * json) :
  fst (reconcile_entry N kv) = fst kv.
Proof. unfold reconcile_entry. now destruct (snd kv). Qed.

Lemma keys_map_reconcile (N : nat) (d : dict) :
  keys (map (reconcile_entry N) d) = keys d.
Proof.
  unfold keys. rewrite map_map. apply map_ext. apply reconcile_entry_fst.
Qed.

Lemma adjust_at (N : nat) (pre d : dict) (k : string) (items : list json) :
  ~ In k (keys pre) ->
  Excel.adjust N (pre ++ (k, JArr items) :: d) k
  = pre ++ (k, JArr (fit N k items)) :: d.
Proof.
  intros Hn. unfold Excel.adjust, items_at.
  rewrite dict_get_app_notin by exact Hn. simpl. rewrite String.eqb_refl.
  rewrite !dict_set_app_notin by exact Hn. simpl. rewrite String.eqb_refl.
  unfold fit. destruct items as [|x items]; [reflexivity|].
  cbn [List.length Nat.eqb].
  destruct (Nat.ltb_spec (S (List.length items)) N) as [H|H]; [reflexivity|].
  destruct (Nat.ltb_spec N (S (List.length items))) as [H'|H']; [reflexivity|].
  assert (E : List.length (x :: items) = N) by (simpl; lia).
  now rewrite <- E, firstn_all.
Qed.

Lemma fold_adjust_map (N : nat) (d pre : dict) :
  wf_dict (pre ++ d) ->
  fold_left (Excel.adjust N) (Excel.array_keys d) (pre ++ d)
  = pre ++ map (reconcile_entry N) d.
Proof.
  unfold wf_dict, keys. revert pre.
  induction d as [|[k v] d IH]; intros pre Hnd; [reflexivity|].
  assert (Hk : ~ In k (keys pre)).
  { rewrite map_app in Hnd. simpl in Hnd.
    apply NoDup_remove_2 in Hnd. intros H. apply Hnd. apply in_or_app. now left. }
  assert (Hnd' : NoDup (map fst ((pre ++ [(k, snd (reconcile_entry N (k, v)))]) ++ d))).
  { rewrite <- app_assoc, !map_app in *. exact Hnd. }
  assert (Hstep : forall w, pre ++ (k, w) :: d = (pre ++ [(k, w)]) ++ d)
    by (intros; now rewrite <- app_assoc).
  unfold Excel.array_keys in *. cbn [filter snd].
  destruct v; cbn [isinstance_list map fst fold_left];
    try (rewrite Hstep, IH by exact Hnd'; now rewrite <- app_assoc).
  rewrite adjust_at by exact Hk.
  rewrite Hstep, IH by exact Hnd'. now rewrite <- app_assoc.
Qed.

Ltac wf_dict_tac :=
  unfold wf_dict, keys; simpl;
  repeat (constructor; [simpl; intuition discriminate|]); constructor.

(** ** [Counter] and [most_common(1)] *)

Lemma counter_add_keys_in (c : counter) (x : nat) :
  In x (map fst c) -> map fst (counter_add c x) = map fst c.
Proof.
  induction c as [|[y n] c IH]; simpl; [easy|].
  destruct (Nat.eqb_spec x y) as [->|Hne]; simpl; [reflexivity|].
  intros [E|H]; [now subst|]. now rewrite IH.
Qed.

Lemma counter_add_keys_notin (c : counter) (x : nat) :
  ~ In x (map fst c) -> map fst (counter_add c x) = map fst c ++ [x].
Proof.
  induction c as [|[y n] c IH]; simpl; [reflexivity|].
  intros Hn. destruct (Nat.eqb_spec x y) as [->|Hne]; simpl.
  - exfalso. apply Hn. now left.
  - rewrite IH; [reflexivity|]. intros H. apply Hn. now right.
Qed.

Lemma counter_add_In (c : counter) (x y n : nat) :
  NoDup (map fst c) ->
  In (y, n) (counter_add c x) ->
  (y <> x /\ In (y, n) c)
  \/ (y = x /\ exists n0, n = S n0 /\ In (x, n0) c)
  \/ (y = x /\ n = 1 /\ ~ In x (map fst c)).
Proof.
  induction c as [|[z m] c IH]; simpl; intros Hnd Hin.
  - destruct Hin as [E|[]]. injection E as <- <-. right. right. tauto.
  - inversion Hnd as [|? ? Hz Hnd']; subst.
    destruct (Nat.eqb_spec x z) as [->|Hne]; simpl in Hin.
    + destruct Hin as [E|Hin].
      * injection E as <- <-. right. left. split; [reflexivity|].
        exists m. split; [reflexivity|now left].
      * left. split; [|now right]. intros ->. apply Hz.
        change (In (fst (z, n)) (map fst c)). now apply in_map.
    + destruct Hin as [E|Hin].
      * injection E as <- <-. left. split; [congruence|now left].
      * destruct (IH Hnd' Hin) as [[H1 H2]|[[H1 [n0 [H2 H3]]]|[H1 [H2 H3]]]].
        -- left. split; [exact H1|now right].
        -- right. left. split; [exact H1|]. exists n0. split; [exact H2|now right].
        -- right. right. repeat split; try assumption.
           intros [E|E]; [congruence|now apply H3].
Qed.

Lemma Counter_snoc (l : list nat) (x : nat) :
  Counter (l ++ [x]) = counter_add (Counter l) x.
Proof. unfold Counter. now rewrite fold_left_app. Qed.

Lemma count_occ_snoc (l : list nat) (x y : nat) :
  count_occ Nat.eq_dec (l ++ [x]) y
  = count_occ Nat.eq_dec l y + (if Nat.eq_dec x y then 1 else 0).
Proof.
  rewrite count_occ_app. simpl. now destruct (Nat.eq_dec x y).
Qed.

(** The counter lists the distinct elements in the order they were first
    met, each with the number of its occurrences. *)
Lemma Counter_spec (l : list nat) :
  NoDup (map fst (Counter l))
  /\ (forall x, In x (map fst (Counter l)) <-> In x l)
  /\ (forall x n, In (x, n) (Counter l) -> n = count_occ Nat.eq_dec l x)
  /\ (forall a x b, map fst (Counter l) = a ++ x :: b ->
      forall y, In y b -> exists pre post, l = pre ++ x :: post /\ ~ In y pre).
Proof.
  induction l as [|x l IH] using rev_ind.
  - cbn. repeat split; try easy; try constructor.
    intros a x b H. now destruct a.
  - destruct IH as (Hnd & Hkeys & Hcount & Hord).
    rewrite Counter_snoc.
    destruct (in_dec Nat.eq_dec x (map fst (Counter l))) as [Hin|Hnin].
    + rewrite (counter_add_keys_in _ _ Hin). repeat split.
      * exact Hnd.
      * intros H. apply in_or_app. left. now apply Hkeys.
      * intros H. apply in_app_or in H. destruct H as [H|[<-|[]]]; [now apply Hkeys|exact Hin].
      * intros y n H. rewrite count_occ_snoc.
        apply counter_add_In in H; [|exact Hnd].
        destruct H as [[H1 H2]|[[-> [n0 [-> H2]]]|[_ [_ H3]]]].
        -- rewrite (Hcount _ _ H2). destruct (Nat.eq_dec x y); [congruence|lia].
        -- rewrite (Hcount _ _ H2). destruct (Nat.eq_dec x x); [lia|congruence].
        -- contradiction.
      * intros a z b E y Hy. destruct (Hord a z b E y Hy) as (pre & post & -> & Hp).
        exists pre, (post ++ [x]). split; [|exact Hp].
        now rewrite <- app_assoc.
    + rewrite (counter_add_keys_notin _ _ Hnin).
      assert (Hxl : ~ In x l) by (intros H; apply Hnin; now apply Hkeys).
      repeat split.
      * apply NoDup_app; [exact Hnd|repeat constructor; easy|].
        intros y Hy [<-|[]]. contradiction.
      * intros H. apply in_app_or in H. apply in_or_app.
        destruct H as [H|H]; [left; now apply Hkeys|now right].
      * intros H. apply in_app_or in H. apply in_or_app.
        destruct H as [H|H]; [left; now apply Hkeys|now right].
      * intros y n H. rewrite count_occ_snoc.
        apply counter_add_In in H; [|exact Hnd].
        destruct H as [[H1 H2]|[[-> [n0 [-> H2]]]|[-> [-> _]]]].
        -- rewrite (Hcount _ _ H2). destruct (Nat.eq_dec x y); [congruence|lia].
        -- exfalso. apply Hnin. change (In (fst (x, n0)) (map fst (Counter l))).
           now apply in_map.
        -- rewrite (count_occ_not_In Nat.eq_dec) in Hxl. rewrite Hxl.
           destruct (Nat.eq_dec x x); [reflexivity|congruence].
      * intros a z b E y Hy.
        destruct (exists_last (l := b)) as (b' & w & ->); [now intros ->|].
        change (a ++ z :: b' ++ [w]) with (a ++ (z :: b') ++ [w]) in E.
        rewrite app_assoc in E. apply app_inj_tail in E. destruct E as [E <-].
        apply in_app_or in Hy. destruct Hy as [Hy|[<-|[]]].
        -- destruct (Hord a z b' E y Hy) as (pre & post & -> & Hp).
           exists pre, (post ++ [x]). split; [|exact Hp]. now rewrite <- app_assoc.
        -- assert (Hz : In z l).
           { apply Hkeys. rewrite E. apply in_or_app. right. now left. }
           apply in_split in Hz. destruct Hz as (pre & post & ->).
           exists pre, (post ++ [x]). split; [now rewrite <- app_assoc|].
           intros H. apply Hxl. apply in_or_app. now left.
Qed.

(** [max_by_count] returns the first entry whose count is the largest. *)
Lemma max_by_count_spec (c : counter) (best : nat * nat) :
  exists a b, best :: c = a ++ max_by_count best c :: b
    /\ (forall e, In e a -> snd e < snd (max_by_count best c))
    /\ (forall e, In e b -> snd e <= snd (max_by_count best c)).
Proof.
  revert best. induction c as [|e c IH]; intros best; simpl.
  - exists [], []. repeat split; easy.
  - destruct (Nat.ltb_spec (snd best) (snd e)) as [Hlt|Hge].
    + destruct (IH e) as (a & b & E & Ha & Hb).
      exists (best :: a), b. rewrite E. repeat split; [|exact Hb].
      intros e' [<-|He']; [|now apply Ha].
      assert (Hin : In e (a ++ max_by_count e c :: b)) by (rewrite <- E; now left).
      apply in_app_or in Hin. destruct Hin as [H|[H|H]].
      * specialize (Ha _ H). lia.
      * rewrite H. lia.
      * specialize (Hb _ H). lia.
    + destruct (IH best) as (a & b & E & Ha & Hb).
      destruct a as [|a0 a].
      * simpl in E. injection E as E1 E2. exists [], (e :: b).
        rewrite <- E1 in *. subst c. repeat split; [easy|].
        intros e' [<-|He']; [lia|]. now apply Hb.
      * simpl in E. injection E as E1 E2. subst a0. exists (best :: e :: a), b.
        split; [simpl; now rewrite <- E2|]. split; [|exact Hb].
        intros e' [<-|[<-|He']].
        -- apply Ha. now left.
        -- specialize (Ha best (or_introl eq_refl)). lia.
        -- apply Ha. now right.
Qed.

Lemma most_common_1_spec (l : list nat) (N cnt : nat) (rest : list (nat * nat)) :
  most_common_1 (Counter l) = (N, cnt) :: rest ->
  In N l
  /\ cnt = count_occ Nat.eq_dec l N
  /\ (forall m, count_occ Nat.eq_dec l m <= count_occ Nat.eq_dec l N)
  /\ (forall m, In m l -> m <> N ->
      count_occ Nat.eq_dec l m = count_occ Nat.eq_dec l N ->
      exists pre post, l = pre ++ N :: post /\ ~ In m pre).
Proof.
  destruct (Counter_spec l) as (Hnd & Hkeys & Hcount & Hord).
  unfold most_common_1. destruct (Counter l) as [|e c] eqn:Ec; [discriminate|].
  intros E. injection E as E _.
  destruct (max_by_count_spec c e) as (a & b & Hsplit & Ha & Hb).
  rewrite E in *. cbn [snd] in *.
  assert (Hr : In (N, cnt) (e :: c)).
  { rewrite Hsplit. apply in_or_app. right. now left. }
  assert (Hcnt : cnt = count_occ Nat.eq_dec l N) by now apply Hcount.
  assert (Hentry : forall m, In m l -> exists n, In (m, n) (e :: c)).
  { intros m Hm. apply Hkeys in Hm. apply in_map_iff in Hm.
    destruct Hm as ([m' n] & <- & Hm). now exists n. }
  split; [|split; [exact Hcnt|split]].
  - apply Hkeys. change N with (fst (N, cnt)). now apply in_map.
  - intros m. destruct (in_dec Nat.eq_dec m l) as [Hm|Hm].
    + destruct (Hentry m Hm) as [n Hn]. rewrite <- (Hcount _ _ Hn), <- Hcnt.
      rewrite Hsplit in Hn. apply in_app_or in Hn. destruct Hn as [Hn|[Hn|Hn]].
      * specialize (Ha _ Hn). simpl in Ha. lia.
      * injection Hn as _ ->. lia.
      * specialize (Hb _ Hn). simpl in Hb. lia.
    + rewrite (count_occ_not_In Nat.eq_dec) in Hm. rewrite Hm. lia.
  - intros m Hm Hne Htie. destruct (Hentry m Hm) as [n Hn].
    pose proof (Hcount _ _ Hn) as Hn'.
    rewrite Hsplit in Hn. apply in_app_or in Hn. destruct Hn as [Hn|[Hn|Hn]].
    + specialize (Ha _ Hn). simpl in Ha. lia.
    + injection Hn as -> _. congruence.
    + apply (Hord (map fst a) N (map fst b)).
      * rewrite Hsplit, map_app. reflexivity.
      * change m with (fst (m, n)). now apply in_map.
Qed.

Lemma dominant_length_exists (d : dict) :
  Excel.non_empty_lengths d <> [] -> exists N, dominant_length d = Some N.
Proof.
  intros Hne. unfold dominant_length.
  destruct (Counter_spec (Excel.non_empty_lengths d)) as (_ & Hkeys & _).
  destruct (Counter (Excel.non_empty_lengths d)) as [|e c] eqn:Ec.
  - destruct (Excel.non_empty_lengths d) as [|x l]; [congruence|].
    exfalso. apply (Hkeys x). now left.
  - simpl. destruct (max_by_count e c) as [N cnt]. now exists N.
Qed.

Lemma dominant_length_In (d : dict) (N : nat) :
  dominant_length d = Some N -> In N (Excel.non_empty_lengths d).
Proof.
  unfold dominant_length.
  destruct (most_common_1 (Counter (Excel.non_empty_lengths d))) as [|[n cnt] rest] eqn:E;
    [discriminate|].
  intros H. injection H as ->. now apply most_common_1_spec in E.
Qed.

Lemma dominant_length_pos (d : dict) (N : nat) :
  dominant_length d = Some N -> 0 < N.
Proof.
  intros H. apply dominant_length_In in H. unfold Excel.non_empty_lengths in H.
  apply filter_In in H. destruct H as [_ H]. now apply Nat.ltb_lt.
Qed.

(** ** What the reconciler returns *)

Lemma array_keys_lengths (d : dict) :
  wf_dict d ->
  map (fun key => List.length (items_at d key)) (Excel.array_keys d) = seq_lengths d.
Proof.
  intros Hwf. unfold Excel.array_keys, seq_lengths. rewrite map_map.
  apply map_ext_in. intros [k v] Hin. apply filter_In in Hin.
  destruct Hin as [Hin Harr]. simpl in *. unfold items_at, seq_length.
  rewrite (In_dict_get d k v Hwf Hin). now destruct v.
Qed.

Lemma non_empty_lengths_entries (d : dict) :
  wf_dict d ->
  Excel.non_empty_lengths d = filter (fun n => 0 <? n) (seq_lengths d).
Proof.
  intros Hwf. unfold Excel.non_empty_lengths. now rewrite array_keys_lengths.
Qed.

Lemma ensure_degenerate (d : dict) :
  Excel.non_empty_lengths d = [] -> Excel.ensure_equal_length_arrays d = d.
Proof.
  intros H. unfold Excel.ensure_equal_length_arrays. rewrite H.
  now destruct (Excel.array_keys d).
Qed.

Lemma ensure_dominant (d : dict) (N : nat) :
  wf_dict d -> dominant_length d = Some N ->
  Excel.ensure_equal_length_arrays d = map (reconcile_entry N) d.
Proof.
  intros Hwf HN. pose proof (dominant_length_In d N HN) as Hin.
  unfold Excel.ensure_equal_length_arrays. unfold dominant_length in HN.
  destruct (Excel.array_keys d) as [|k ks] eqn:Ek.
  - unfold Excel.non_empty_lengths in Hin. rewrite Ek in Hin. destruct Hin.
  - destruct (Excel.non_empty_lengths d) as [|n ns] eqn:En; [destruct Hin|].
    destruct (most_common_1 (Counter (n :: ns))) as [|[n' cnt] rest]; [discriminate|].
    injection HN as ->. rewrite <- Ek.
    apply (fold_adjust_map N d []). exact Hwf.
Qed.

Lemma reconcile_entry_idem (N : nat) (kv : string * json) :
  reconcile_entry N (reconcile_entry N kv) = reconcile_entry N kv.
Proof.
  destruct kv as [k v]. unfold reconcile_entry. destruct v; try reflexivity.
  cbn [fst snd]. now rewrite fit_length_eq by apply fit_length.
Qed.

Lemma filter_arrays_reconcile (N : nat) (d : dict) :
  filter (fun kv => isinstance_list (snd kv)) (map (reconcile_entry N) d)
  = map (reconcile_entry N) (filter (fun kv => isinstance_list (snd kv)) d).
Proof.
  induction d as [|[k v] d IH]; [reflexivity|].
  simpl. destruct v; simpl; now rewrite IH.
Qed.

Lemma seq_lengths_reconcile (N : nat) (d : dict) :
  seq_lengths (map (reconcile_entry N) d)
  = map (fun _ => N) (filter (fun kv => isinstance_list (snd kv)) d).
Proof.
  unfold seq_lengths. rewrite filter_arrays_reconcile, map_map.
  apply map_ext_in. intros [k v] Hin. apply filter_In in Hin. destruct Hin as [_ H].
  destruct v; try discriminate. unfold seq_length, reconcile_entry. simpl.
  apply fit_length.
Qed.

Lemma wf_dict_reconcile (N : nat) (d : dict) :
  wf_dict d -> wf_dict (map (reconcile_entry N) d).
Proof. unfold wf_dict. now rewrite keys_map_reconcile. Qed.

Lemma dominant_length_reconciled (d : dict) (N : nat) :
  wf_dict d -> dominant_length d = Some N ->
  dominant_length (map (reconcile_entry N) d) = Some N.
Proof.
  intros Hwf HN. pose proof (dominant_length_pos d N HN) as Hpos.
  pose proof (wf_dict_reconcile N d Hwf) as Hwf'.
  assert (Hall : forall n, In n (Excel.non_empty_lengths (map (reconcile_entry N) d)) -> n = N).
  { intros n Hn. rewrite non_empty_lengths_entries, seq_lengths_reconcile in Hn by exact Hwf'.
    apply filter_In in Hn. destruct Hn as [Hn _]. apply in_map_iff in Hn.
    now destruct Hn as (_ & <- & _). }
  destruct (dominant_length_exists (map (reconcile_entry N) d)) as [N' HN'].
  - apply dominant_length_In in HN.
    rewrite non_empty_lengths_entries in HN by exact Hwf.
    apply filter_In in HN. destruct HN as [HN _]. unfold seq_lengths in HN.
    apply in_map_iff in HN. destruct HN as (kv & _ & Hkv).
    rewrite non_empty_lengths_entries, seq_lengths_reconcile by exact Hwf'.
    intros E.
    assert (Hin : In N (filter (fun n => 0 <? n)
                   (map (fun _ : string * json => N)
                     (filter (fun kv => isinstance_list (snd kv)) d)))).
    { apply filter_In. split; [|now apply Nat.ltb_lt].
      apply in_map_iff. now exists kv. }
    rewrite E in Hin. destruct Hin.
  - rewrite HN'. f_equal. apply Hall. now apply dominant_length_In.
Qed.

Lemma ensure_lookup (d : dict) (N : nat) (key : string) :
  wf_dict d -> dominant_length d = Some N ->
  dict_get (Excel.ensure_equal_length_arrays d) key =
  match dict_get d key with
  | Some (JArr items) => Some (JArr (fit N key items))
  | other => other
  end.
Proof.
  intros Hwf HN. rewrite (ensure_dominant d N Hwf HN).
  rewrite dict_get_map_entry by apply reconcile_entry_fst.
  destruct (dict_get d key) as [v|]; [|reflexivity]. now destruct v.
Qed.

(** ** Claims about the reconciler *)



(** C4. The dominant length [N] that [ensure_equal_length_arrays] computes is
    a most frequent length among the non-empty sequence-valued fields; of two
    lengths that are equally frequent the one met first (in dictionary order)
    wins; the table is reconciled to that [N].  For
    [{"Product": ["A", "B"], "Qty": [1]}], [N = 2] and Qty becomes [[1, 0]]. *)
Theorem dominant_length_most_frequent (d : dict) (N : nat) :
  wf_dict d ->
  dominant_length d = Some N ->
  let lengths := filter (fun n => 0 <? n) (seq_lengths d) in
  In N lengths
  /\ (forall m, count_occ Nat.eq_dec lengths m <= count_occ Nat.eq_dec lengths N)
  /\ (forall m, In m lengths -> m <> N ->
      count_occ Nat.eq_dec lengths m = count_occ Nat.eq_dec lengths N ->
      exists pre post, lengths = pre ++ N :: post /\ ~ In m pre)
  /\ Excel.ensure_equal_length_arrays d = map (reconcile_entry N) d
  /\ dominant_length example_1 = Some 2
  /\ dict_get (Excel.ensure_equal_length_arrays example_1) "Qty"
     = Some (JArr [JInt 1; JInt 0]).
Proof.
  intros Hwf HN lengths. subst lengths.
  rewrite <- non_empty_lengths_entries by exact Hwf.
  pose proof (ensure_dominant d N Hwf HN) as Hens.
  unfold dominant_length in HN.
  destruct (most_common_1 (Counter (Excel.non_empty_lengths d))) as [|[n cnt] rest] eqn:E;
    [discriminate|].
  injection HN as ->. apply most_common_1_spec in E.
  destruct E as (H1 & _ & H3 & H4).
  repeat split; try assumption; reflexivity.
Qed.

Lemma dominant_length_most_frequent_witness :
  let lengths := filter (fun n => 0 <? n) (seq_lengths example_1) in
  In 2 lengths
  /\ (forall m, count_occ Nat.eq_dec lengths m <= count_occ Nat.eq_dec lengths 2)
  /\ (forall m, In m lengths -> m <> 2 ->
      count_occ Nat.eq_dec lengths m = count_occ Nat.eq_dec lengths 2 ->
      exists pre post, lengths = pre ++ 2 :: post /\ ~ In m pre)
  /\ Excel.ensure_equal_length_arrays example_1 = map (reconcile_entry 2) example_1
  /\ dominant_length example_1 = Some 2
  /\ dict_get (Excel.ensure_equal_length_arrays example_1) "Qty"
     = Some (JArr [JInt 1; JInt 0]).
Proof.
  apply (dominant_length_most_frequent example_1 2).
  - wf_dict_tac.
  - reflexivity.
Defined.

(** C6, as stated, fails: the reconciler touches only the keys the raw
    extraction has.  In [{"Product": ["A", "B"], "Qty": [1]}] the fields Date,
    U.Price and Total are absent before and after. *)
Lemma fixed_fields_counterexample : ~ all_fixed_fields_reconciled example_1.
Proof.
  intros H. destruct (H 2 eq_refl "Date") as (items & Hget & _).
  - now left.
  - discriminate Hget.
Qed.

(** C6, amended.  After reconciliation every field of the fixed field set
    that the raw extraction holds as a sequence has length [N], an empty one
    being filled with the placeholder of its key ([0] for Qty, U.Price and
    Total, the empty string for Date and Product); a field that is absent
    stays absent and a scalar field stays as it is. *)
Theorem fixed_fields_reconciled_when_present (d : dict) (N : nat) (key : string) :
  wf_dict d ->
  dominant_length d = Some N ->
  In key fixed_fields ->
  (forall items, dict_get d key = Some (JArr items) ->
     exists items',
       dict_get (Excel.ensure_equal_length_arrays d) key = Some (JArr items')
       /\ List.length items' = N
       /\ (items = [] -> items' = repeat (filler key) N))
  /\ (dict_get d key = None ->
      dict_get (Excel.ensure_equal_length_arrays d) key = None)
  /\ (forall v, dict_get d key = Some v -> isinstance_list v = false ->
      dict_get (Excel.ensure_equal_length_arrays d) key = Some v)
  /\ filler key = (if str_in key ["Qty"; "U.Price"; "Total"] then JInt 0 else JStr "").
Proof.
  intros Hwf HN _. rewrite (ensure_lookup d N key Hwf HN).
  split; [|split; [|split]].
  - intros items ->. exists (fit N key items). split; [reflexivity|].
    split; [apply fit_length|]. now intros ->.
  - now intros ->.
  - intros v -> Hv. now destruct v.
  - reflexivity.
Qed.

Lemma fixed_fields_reconciled_when_present_witness :
  (forall items, dict_get example_1 "Date" = Some (JArr items) ->
     exists items',
       dict_get (Excel.ensure_equal_length_arrays example_1) "Date" = Some (JArr items')
       /\ List.length items' = 2
       /\ (items = [] -> items' = repeat (filler "Date") 2))
  /\ (dict_get example_1 "Date" = None ->
      dict_get (Excel.ensure_equal_length_arrays example_1) "Date" = None)
  /\ (forall v, dict_get example_1 "Date" = Some v -> isinstance_list v = false ->
      dict_get (Excel.ensure_equal_length_arrays example_1) "Date" = Some v)
  /\ filler "Date" = (if str_in "Date" ["Qty"; "U.Price"; "Total"] then JInt 0 else JStr "").
Proof.
  apply (fixed_fields_reconciled_when_present example_1 2 "Date").
  - wf_dict_tac.
  - reflexivity.
  - simpl. tauto.
Defined.

(** C7. Reconciliation is idempotent: reconciling a reconciled table gives
    the same table. *)
Theorem ensure_equal_length_arrays_idempotent (d : dict) :
  wf_dict d ->
  Excel.ensure_equal_length_arrays (Excel.ensure_equal_length_arrays d)
  = Excel.ensure_equal_length_arrays d.
Proof.
  intros Hwf.
  destruct (Excel.non_empty_lengths d) as [|n ns] eqn:En.
  - now rewrite !(ensure_degenerate d En).
  - destruct (dominant_length_exists d) as [N HN]; [now rewrite En|].
    rewrite (ensure_dominant d N Hwf HN).
    rewrite (ensure_dominant _ N (wf_dict_reconcile N d Hwf)
               (dominant_length_reconciled d N Hwf HN)).
    rewrite map_map. apply map_ext. apply reconcile_entry_idem.
Qed.

Lemma ensure_equal_length_arrays_idempotent_witness :
  Excel.ensure_equal_length_arrays (Excel.ensure_equal_length_arrays example_1)
  = Excel.ensure_equal_length_arrays example_1.
Proof.
  apply (ensure_equal_length_arrays_idempotent example_1). wf_dict_tac.
Defined.

(** ** The response parser *)

Lemma substring_0_0 (s : string) : substring 0 0 s = EmptyString.
Proof. now destruct s. Qed.

Lemma match_to_last_brace_spec (s : string) :
  match_to_last_brace s =
  match last_index "}"%char s with
  | Some j => Some (substring 0 (S j) s)
  | None => None
  end.
Proof.
  induction s as [|c s IH]; [reflexivity|].
  cbn [match_to_last_brace last_index]. rewrite IH.
  destruct (last_index "}"%char s) as [j|]; [reflexivity|].
  destruct (Ascii.eqb c "}"%char); [|reflexivity].
  cbn [substring]. now rewrite substring_0_0.
Qed.

Lemma re_search_braces_none (s : string) :
  last_index "}"%char s = None -> re_search_braces s = None.
Proof.
  induction s as [|c s IH]; [reflexivity|].
  cbn [re_search_braces last_index]. rewrite match_to_last_brace_spec.
  destruct (last_index "}"%char s) as [j|]; [discriminate|].
  intros _. rewrite IH by reflexivity. now destruct (Ascii.eqb c "{"%char).
Qed.

(** The search returns the text from the first opening brace to the last
    closing brace. *)
Lemma re_search_braces_spec (text : string) :
  re_search_braces text = first_to_last_brace text.
Proof.
  unfold first_to_last_brace.
  induction text as [|c s IH]; [reflexivity|].
  cbn [re_search_braces first_index last_index].
  destruct (Ascii.eqb c "{"%char) eqn:Ec.
  - rewrite match_to_last_brace_spec.
    destruct (last_index "}"%char s) as [j|] eqn:El.
    + cbn [Nat.ltb Nat.leb]. rewrite Nat.sub_0_r, Nat.add_1_r. reflexivity.
    + rewrite (re_search_braces_none s El).
      apply Ascii.eqb_eq in Ec. subst c. reflexivity.
  - rewrite IH. destruct (first_index "{"%char s) as [i|]; [|reflexivity].
    cbn [option_map]. destruct (last_index "}"%char s) as [j|].
    + change (S i <? S j) with (i <? j). destruct (i <? j); [|reflexivity].
      cbn [Nat.sub]. destruct (j - i + 1) eqn:E; [lia|]. reflexivity.
    + destruct (Ascii.eqb c "}"%char); reflexivity.
Qed.

(** C3, as stated, fails: the parser has one way to fail, it returns [None].
    A response without braces and a response whose braces hold no JSON give
    the same result, so the caller cannot read [NoJsonFound] off the one and
    [InvalidJson] off the other. *)
Lemma failure_signals_counterexample :
  ~ exists signal, signals_failures sample_json_loads signal.
Proof.
  intros (signal & Hno & Hinvalid & _).
  specialize (Hno "no json here" eq_refl).
  specialize (Hinvalid "{oops}" "{oops}" eq_refl eq_refl).
  cbv in Hno, Hinvalid. congruence.
Qed.

(** C3, amended.  [extract_json_from_response] takes the text from the first
    opening brace to the last closing brace and parses it as JSON.  It returns
    [None] when there is no such text, when the text is not valid JSON, and
    when the parsed object has no Product key or a Product value that is
    empty or absent; the three cases are not told apart.  When it succeeds
    it returns the parsed mapping unchanged, and it succeeds exactly when the
    Product value is true in the sense of Python. *)
Theorem extract_json_from_response_spec (json_loads : string -> option dict)
    (text : string) :
  re_search_braces text = first_to_last_brace text
  /\ (first_to_last_brace text = None ->
      Excel.extract_json_from_response json_loads text = None)
  /\ (forall m, first_to_last_brace text = Some m -> json_loads m = None ->
      Excel.extract_json_from_response json_loads text = None)
  /\ (forall m d, first_to_last_brace text = Some m -> json_loads m = Some d ->
      (dict_get d "Product" = None
       \/ exists v, dict_get d "Product" = Some v /\ empty_or_absent v) ->
      Excel.extract_json_from_response json_loads text = None)
  /\ (forall d, Excel.extract_json_from_response json_loads text = Some d <->
      exists m v, first_to_last_brace text = Some m /\ json_loads m = Some d
                  /\ dict_get d "Product" = Some v /\ truthy v = true).
Proof.
  unfold Excel.extract_json_from_response, dict_contains, truthy_at.
  rewrite re_search_braces_spec.
  split; [reflexivity|]. split; [now intros ->|]. split; [now intros m -> ->|].
  split.
  - intros m d -> -> [ -> | (v & -> & Hv) ]; [reflexivity|].
    destruct Hv as [ -> | [ -> | [ -> | -> ] ] ]; reflexivity.
  - intros d. split.
    + destruct (first_to_last_brace text) as [m|]; [|discriminate].
      destruct (json_loads m) as [d'|] eqn:El; [|discriminate].
      destruct (dict_get d' "Product") as [v|] eqn:Ev; [|discriminate].
      destruct (truthy v) eqn:Et; [|discriminate].
      intros H. injection H as <-. now exists m, v.
    + intros (m & v & -> & -> & -> & ->). reflexivity.
Qed.

Lemma extract_json_from_response_spec_witness :
  Excel.extract_json_from_response sample_json_loads "no json here" = None
  /\ Excel.extract_json_from_response sample_json_loads "{oops}" = None
  /\ Excel.extract_json_from_response sample_json_loads "{}" = None
  /\ Excel.extract_json_from_response sample_json_loads example_4_text
     = Some example_4_dict.
Proof.
  split; [|split; [|split]].
  - apply (extract_json_from_response_spec sample_json_loads "no json here").
    reflexivity.
  - apply (extract_json_from_response_spec sample_json_loads "{oops}") with (m := "{oops}");
      reflexivity.
  - apply (extract_json_from_response_spec sample_json_loads "{}") with (m := "{}") (d := []);
      try reflexivity. now left.
  - apply (extract_json_from_response_spec sample_json_loads example_4_text).
    exists example_4_object, (JArr [JStr "X"]). repeat split; reflexivity.
Defined.

(** ** The two programs *)

(** C10. The three core functions of [OCR_Invoices_Output_Excel.py] return,
    on every input, what the functions of the same name of
    [OCR_Invoices_Output_Excel_Gemini.py] return. *)
Theorem core_functions_agree (json_loads : string -> option dict)
    (response_text : string) (json_data : dict) (df : DataFrame) :
  Excel.extract_json_from_response json_loads response_text
  = Gemini.extract_json_from_response json_loads response_text
  /\ Excel.ensure_equal_length_arrays json_data
     = Gemini.ensure_equal_length_arrays json_data
  /\ Excel.clean_dataframe df = Gemini.clean_dataframe df.
Proof. repeat split. Qed.

(** ** Floating point: multiplication by 1.25 and NaN *)

Lemma SFcompare_refl (x : spec_float) :
  sf_is_nan x = false -> SFcompare x x = Some Eq.
Proof.
  destruct x as [s|s| |s m e]; simpl; try discriminate; intros _.
  - reflexivity.
  - now destruct s.
  - destruct s; rewrite Z.compare_refl, Pos.compare_cont_refl; reflexivity.
Qed.

Lemma is_nan_Prim2SF (x : float) : PrimFloat.is_nan x = sf_is_nan (Prim2SF x).
Proof.
  unfold PrimFloat.is_nan. rewrite eqb_spec. unfold SFeqb.
  destruct (sf_is_nan (Prim2SF x)) eqn:E.
  - destruct (Prim2SF x); try discriminate. reflexivity.
  - now rewrite SFcompare_refl.
Qed.

Lemma shr_1_nonneg (mrs : shr_record) :
  (0 <= shr_m mrs)%Z -> (0 <= shr_m (shr_1 mrs))%Z.
Proof.
  destruct mrs as [m r s]. simpl. destruct m as [|p|p]; simpl; intros H; try lia.
  destruct p; simpl; lia.
Qed.

Lemma iter_pos_shr_1_nonneg (p : positive) (mrs : shr_record) :
  (0 <= shr_m mrs)%Z -> (0 <= shr_m (iter_pos shr_1 p mrs))%Z.
Proof.
  revert mrs. induction p as [p IH|p IH|]; intros mrs H; simpl.
  - apply IH, IH, shr_1_nonneg, H.
  - apply IH, IH, H.
  - apply shr_1_nonneg, H.
Qed.

Lemma shr_fexp_nonneg (prec emax m e : Z) (l : location) :
  (0 <= m)%Z -> (0 <= shr_m (fst (shr_fexp prec emax m e l)))%Z.
Proof.
  intros H. unfold shr_fexp, shr.
  assert (H0 : (0 <= shr_m (shr_record_of_loc m l))%Z) by (destruct l as [|[]]; exact H).
  destruct (fexp prec emax (Zdigits2 m + e) - e)%Z; simpl; try exact H0.
  now apply iter_pos_shr_1_nonneg.
Qed.

Lemma round_nearest_even_nonneg (m : Z) (l : location) :
  (0 <= m)%Z -> (0 <= round_nearest_even m l)%Z.
Proof.
  intros H. destruct l as [|[]]; simpl; try lia.
  destruct (Z.even m); lia.
Qed.

Lemma binary_round_aux_not_nan (prec emax : Z) (sx : bool) (mx ex : Z) (lx : location) :
  (0 <= mx)%Z -> sf_is_nan (binary_round_aux prec emax sx mx ex lx) = false.
Proof.
  intros H. unfold binary_round_aux.
  pose proof (shr_fexp_nonneg prec emax mx ex lx H) as H1.
  destruct (shr_fexp prec emax mx ex lx) as [mrs' e']. simpl in H1.
  pose proof (shr_fexp_nonneg prec emax
    (round_nearest_even (shr_m mrs') (loc_of_shr_record mrs')) e' loc_Exact
    (round_nearest_even_nonneg _ _ H1)) as H2.
  destruct (shr_fexp prec emax _ e' loc_Exact) as [mrs'' e'']. simpl in H2.
  destruct (shr_m mrs''); try lia; [reflexivity|].
  now destruct (e'' <=? emax - prec)%Z.
Qed.

Lemma SFmul_finite_nan (prec emax : Z) (x : spec_float) (s : bool) (m : positive) (e : Z) :
  sf_is_nan (SFmul prec emax x (S754_finite s m e)) = sf_is_nan x.
Proof.
  destruct x as [sx|sx| |sx mx ex]; simpl; try reflexivity.
  apply binary_round_aux_not_nan. lia.
Qed.

(** The product of a float and 1.25 is NaN exactly when the float is. *)
Lemma is_nan_mul_1_25 (x : float) :
  PrimFloat.is_nan (x * 1.25)%float = PrimFloat.is_nan x.
Proof.
  rewrite !is_nan_Prim2SF, mul_spec.
  destruct (Prim2SF 1.25%float) as [s|s| |s m e] eqn:E;
    vm_compute in E; try discriminate E.
  apply SFmul_finite_nan.
Qed.

(** ** Frames: masks and rows *)

Lemma select_map {A B : Type} (f : A -> B) (mask : list bool) (l : list A) :
  select mask (map f l) = map f (select mask l).
Proof.
  revert l. induction mask as [|m mask IH]; intros [|x l]; simpl; try reflexivity.
  destruct m; simpl; now rewrite IH.
Qed.

Lemma select_In {A : Type} (mask : list bool) (l : list A) (x : A) :
  In x (select mask l) -> In x l.
Proof.
  revert l. induction mask as [|m mask IH]; intros [|y l]; simpl; try easy.
  destruct m; simpl; intros H; [destruct H as [H|H]|]; auto.
Qed.

Lemma select_seq_nth {A : Type} (d : A) (mask : list bool) (cells : list A) (k : nat) :
  select mask cells
  = map (fun i => nth (i - k) cells d) (select mask (seq k (List.length cells))).
Proof.
  revert cells k. induction mask as [|m mask IH]; intros [|x cells] k; try reflexivity.
  cbn [select List.length seq].
  assert (E : map (fun i => nth (i - k) (x :: cells) d) (select mask (seq (S k) (List.length cells)))
              = select mask cells).
  { rewrite (IH cells (S k)). apply map_ext_in. intros i Hi.
    apply select_In in Hi. apply in_seq in Hi.
    replace (i - k) with (S (i - S k)) by lia. reflexivity. }
  destruct m; cbn [map]; rewrite E; [|reflexivity].
  now rewrite Nat.sub_diag.
Qed.


Lemma map_nth_seq {A B : Type} (f : A -> B) (d : A) (l : list A) :
  map (fun p => f (nth p l d)) (seq 0 (List.length l)) = map f l.
Proof.
  induction l as [|x l IH]; [reflexivity|].
  cbn [List.length seq map nth]. rewrite <- seq_shift, map_map. now rewrite IH.
Qed.

Lemma cells_of_select (mask : list bool) (c : column) :
  cells_of (select_column mask c) = select mask (cells_of c).
Proof. destruct c; simpl; try reflexivity; now rewrite select_map. Qed.

Lemma cells_of_length (c : column) : List.length (cells_of c) = col_length c.
Proof. destruct c; simpl; try reflexivity; apply length_map. Qed.

Lemma rows_select_rows (mask : list bool) (df : DataFrame) :
  wf_frame df -> rows (select_rows mask df) = select mask (rows df).
Proof.
  intros Hwf. unfold rows at 2. rewrite select_map.
  set (idx := select mask (seq 0 (nrows df))).
  rewrite <- (map_nth_seq (row_at df) 0 idx).
  unfold rows. cbn [nrows select_rows]. fold idx.
  apply map_ext_in. intros p Hp. apply in_seq in Hp.
  unfold row_at. cbn [columns select_rows]. rewrite map_map.
  apply map_ext_in. intros [k c] Hkc. cbn [fst snd]. f_equal.
  unfold wf_frame in Hwf. rewrite Forall_forall in Hwf.
  specialize (Hwf _ Hkc). cbn [snd] in Hwf.
  rewrite cells_of_select, (select_seq_nth JNull mask (cells_of c) 0).
  rewrite cells_of_length, Hwf. fold idx.
  rewrite (nth_indep _ JNull (nth (0 - 0) (cells_of c) JNull)) by (rewrite length_map; lia).
  rewrite (map_nth (fun i => nth (i - 0) (cells_of c) JNull) idx 0 p).
  now rewrite Nat.sub_0_r.
Qed.

Lemma dict_get_row_at (df : DataFrame) (i : nat) (key : string) :
  dict_get (row_at df i) key
  = option_map (fun c => nth i (cells_of c) JNull) (lookup_column (columns df) key).
Proof.
  unfold row_at. induction (columns df) as [|[k c] cols IH]; simpl; [reflexivity|].
  now destruct (String.eqb key k).
Qed.




Lemma lookup_column_In (cols : list (string * column)) (key : string) (c : column) :
  lookup_column cols key = Some c -> In (key, c) cols.
Proof.
  induction cols as [|[k c'] cols IH]; simpl; [discriminate|].
  destruct (String.eqb_spec key k) as [->|_]; intros H.
  - injection H as ->. now left.
  - right. now apply IH.
Qed.




(** ** The row cleaner *)




(** ** Columns of a frame *)

Lemma lookup_set_column (cols : list (string * column)) (k key : string) (c : column) :
  lookup_column (set_column cols k c) key
  = if String.eqb key k then Some c else lookup_column cols key.
Proof.
  induction cols as [|[k' c'] cols IH]; simpl.
  - reflexivity.
  - destruct (String.eqb_spec k k') as [->|Hne]; simpl.
    + now destruct (String.eqb key k').
    + rewrite IH. destruct (String.eqb_spec key k') as [->|_]; [|reflexivity].
      destruct (String.eqb_spec k' k) as [->|_]; [congruence|reflexivity].
Qed.

Lemma lookup_column_None (cols : list (string * column)) (key : string) :
  lookup_column cols key = None <-> ~ In key (map fst cols).
Proof.
  induction cols as [|[k c] cols IH]; simpl.
  - split; [intros _ []|reflexivity].
  - destruct (String.eqb_spec key k) as [->|Hne].
    + split; [discriminate|]. intros H. exfalso. apply H. now left.
    + rewrite IH. split; intros H.
      * intros [E|E]; [now apply Hne|now apply H].
      * intros E. apply H. now right.
Qed.

Lemma lookup_column_map (f : string -> column -> column)
    (cols : list (string * column)) (key : string) :
  lookup_column (map (fun kc => (fst kc, f (fst kc) (snd kc))) cols) key
  = option_map (f key) (lookup_column cols key).
Proof.
  induction cols as [|[k c] cols IH]; simpl; [reflexivity|].
  destruct (String.eqb_spec key k) as [->|_]; [reflexivity|apply IH].
Qed.

Lemma lookup_select_rows (mask : list bool) (df : DataFrame) (key : string) :
  lookup_column (columns (select_rows mask df)) key
  = option_map (select_column mask) (lookup_column (columns df) key).
Proof. apply (lookup_column_map (fun _ => select_column mask)). Qed.

Lemma wf_setitem (df : DataFrame) (key : string) (c : column) :
  wf_frame df -> col_length c = nrows df -> wf_frame (setitem df key c).
Proof.
  unfold wf_frame, setitem. cbn [nrows columns]. intros Hwf Hc.
  induction (columns df) as [|[k c'] cols IH]; simpl.
  - now repeat constructor.
  - inversion Hwf as [|? ? Hc' Hwf']; subst.
    destruct (String.eqb key k); constructor; auto.
Qed.

Lemma select_length {A : Type} (mask : list bool) (l : list A) :
  List.length (select mask l) = List.length (select mask (seq 0 (List.length l))).
Proof.
  destruct l as [|d l]; [now destruct mask|].
  now rewrite (select_seq_nth d mask (d :: l) 0), length_map.
Qed.

Lemma wf_select_rows (mask : list bool) (df : DataFrame) :
  wf_frame df -> wf_frame (select_rows mask df).
Proof.
  unfold wf_frame, select_rows. cbn [nrows columns]. intros Hwf.
  rewrite Forall_map. rewrite Forall_forall in *. intros [k c] Hin.
  specialize (Hwf _ Hin). cbn [snd] in *. rewrite <- Hwf.
  destruct c; cbn [select_column col_length]; apply select_length.
Qed.

(** ** The frame built from the reconciled extraction *)

Lemma infer_column_length (cells : list json) :
  col_length (infer_column cells) = List.length cells.
Proof.
  unfold infer_column. destruct (scan_objects seen_nothing cells) as [s|]; [|reflexivity].
  repeat match goal with |- context [if ?b then _ else _] => destruct b end;
    cbn [col_length]; rewrite ?length_map; reflexivity.
Qed.

Lemma scalar_column_length (n : nat) (v : json) :
  col_length (scalar_column n v) = n.
Proof.
  destruct v; cbn [scalar_column];
    repeat match goal with |- context [if ?b then _ else _] => destruct b end;
    cbn [col_length]; apply repeat_length.
Qed.

Lemma pd_DataFrame_columns (data : dict) (df : DataFrame) :
  pd_DataFrame data = Ok df ->
  exists g : json -> column,
    columns df = map (fun kv => (fst kv, g (snd kv))) data
    /\ forall kv, In kv data -> col_length (g (snd kv)) = nrows df.
Proof.
  unfold pd_DataFrame. destruct data as [|kv data].
  - intros [= <-]. exists (fun _ => ObjCol []). split; [reflexivity|intros _ []].
  - destruct (raw_lengths (kv :: data)) as [|n lengths] eqn:El;
      destruct (dict_indexes (kv :: data)) as [|ix indexes] eqn:Ei; try discriminate.
    + cbv zeta. intros [= <-].
      exists (column_of_dict_or_scalar (fold_left union_keys (ix :: indexes) [])).
      split; [reflexivity|]. intros [k v] Hin. cbn [snd nrows].
      destruct v; cbn [column_of_dict_or_scalar];
        try apply scalar_column_length.
      rewrite infer_column_length. apply length_map.
    + destruct (forallb (Nat.eqb n) lengths) eqn:Eall; [|discriminate].
      intros [= <-]. exists (column_of_list_or_scalar n).
      split; [reflexivity|]. intros [k v] Hin. cbn [snd nrows].
      destruct v; cbn [column_of_list_or_scalar]; try apply scalar_column_length.
      rewrite infer_column_length.
      assert (Hx : In (List.length items) (n :: lengths)).
      { rewrite <- El. apply in_flat_map. exists (k, JArr items). split; [exact Hin|now left]. }
      destruct Hx as [Hx|Hx]; [now symmetry|].
      rewrite forallb_forall in Eall. specialize (Eall _ Hx).
      apply Nat.eqb_eq in Eall. now symmetry.
Qed.

Lemma pd_DataFrame_names (data : dict) (df : DataFrame) :
  pd_DataFrame data = Ok df -> map fst (columns df) = keys data.
Proof.
  intros H. destruct (pd_DataFrame_columns data df H) as (g & -> & _).
  unfold keys. now rewrite map_map.
Qed.

Lemma pd_DataFrame_lookup_None (data : dict) (df : DataFrame) (key : string) :
  pd_DataFrame data = Ok df -> dict_get data key = None ->
  lookup_column (columns df) key = None.
Proof.
  intros H Hget. apply lookup_column_None. rewrite (pd_DataFrame_names data df H).
  now apply dict_get_None.
Qed.

Lemma pd_DataFrame_wf (data : dict) (df : DataFrame) :
  pd_DataFrame data = Ok df -> wf_frame df.
Proof.
  intros H. destruct (pd_DataFrame_columns data df H) as (g & E & Hlen).
  unfold wf_frame. rewrite E, Forall_map. apply Forall_forall. exact Hlen.
Qed.

(** ** The per-document pipeline *)

Section Pipeline.

Variable json_loads : string -> option dict.
Variable to_numeric : json -> number.

Lemma to_numeric_column_length (c : column) :
  col_length (Excel.to_numeric_column to_numeric c) = col_length c.
Proof.
  destruct c as [cells| | |]; try reflexivity. cbn [Excel.to_numeric_column].
  repeat match goal with |- context [if ?b then _ else _] => destruct b end;
    cbn [col_length]; now rewrite !length_map.
Qed.

Lemma to_numeric_column_numeric (c : column) :
  numeric_column (Excel.to_numeric_column to_numeric c) = true.
Proof.
  destruct c as [cells| | |]; try reflexivity. cbn [Excel.to_numeric_column].
  repeat match goal with |- context [if ?b then _ else _] => destruct b end; reflexivity.
Qed.

Lemma convert_step_lookup (df : DataFrame) (col key : string) :
  lookup_column
    (columns match lookup_column (columns df) col with
             | Some c => setitem df col (Excel.to_numeric_column to_numeric c)
             | None => df
             end) key
  = if String.eqb key col
    then option_map (Excel.to_numeric_column to_numeric) (lookup_column (columns df) key)
    else lookup_column (columns df) key.
Proof.
  destruct (String.eqb_spec key col) as [->|Hne].
  - destruct (lookup_column (columns df) col) as [c|] eqn:E; cbn [setitem columns].
    + now rewrite lookup_set_column, String.eqb_refl.
    + now rewrite E.
  - destruct (lookup_column (columns df) col) as [c|]; [|reflexivity].
    cbn [setitem columns]. rewrite lookup_set_column.
    destruct (String.eqb_spec key col); [contradiction|reflexivity].
Qed.

Lemma convert_step_wf (df : DataFrame) (col : string) :
  wf_frame df ->
  wf_frame match lookup_column (columns df) col with
           | Some c => setitem df col (Excel.to_numeric_column to_numeric c)
           | None => df
           end.
Proof.
  intros Hwf. destruct (lookup_column (columns df) col) as [c|] eqn:E; [|exact Hwf].
  apply wf_setitem; [exact Hwf|]. rewrite to_numeric_column_length.
  unfold wf_frame in Hwf. rewrite Forall_forall in Hwf.
  apply (Hwf _ (lookup_column_In _ _ _ E)).
Qed.

Lemma convert_numeric_columns_wf (df : DataFrame) :
  wf_frame df -> wf_frame (Excel.convert_numeric_columns to_numeric df).
Proof.
  intros Hwf. unfold Excel.convert_numeric_columns. cbn [fold_left].
  now repeat apply convert_step_wf.
Qed.

Lemma to_numeric_column_idem (c : column) :
  Excel.to_numeric_column to_numeric (Excel.to_numeric_column to_numeric c)
  = Excel.to_numeric_column to_numeric c.
Proof.
  pose proof (to_numeric_column_numeric c) as H.
  now destruct (Excel.to_numeric_column to_numeric c).
Qed.

Lemma convert_numeric_columns_lookup (df : DataFrame) (key : string) :
  lookup_column (columns (Excel.convert_numeric_columns to_numeric df)) key
  = if str_in key ["Qty"; "U.Price"; "Total"]
    then option_map (Excel.to_numeric_column to_numeric) (lookup_column (columns df) key)
    else lookup_column (columns df) key.
Proof.
  unfold Excel.convert_numeric_columns. cbn [fold_left].
  rewrite !convert_step_lookup. cbn [str_in existsb].
  destruct (String.eqb_spec key "Total") as [->|_]; [reflexivity|].
  destruct (String.eqb_spec key "U.Price") as [->|_]; [reflexivity|].
  destruct (String.eqb_spec key "Qty") as [->|_]; reflexivity.
Qed.

Lemma convert_numeric_columns_price (df : DataFrame) (c : column) :
  lookup_column (columns (Excel.convert_numeric_columns to_numeric df)) "U.Price" = Some c ->
  numeric_column c = true.
Proof.
  rewrite convert_numeric_columns_lookup. cbn [str_in existsb String.eqb Ascii.eqb Bool.eqb orb].
  destruct (lookup_column (columns df) "U.Price") as [c'|]; [|discriminate].
  intros [= <-]. apply to_numeric_column_numeric.
Qed.

Lemma mul_scalar_numeric (c : column) (k : float) :
  numeric_column c = true ->
  mul_scalar c k = Ok (NumCol (map (fun v => (float_of_cell v * k)%float) (cells_of c))).
Proof.
  destruct c; [discriminate| | |]; intros _; cbn [mul_scalar cells_of];
    now rewrite map_map.
Qed.

(** The mark-up statement of [process_pdf], on a frame whose numeric columns
    are converted. *)
Lemma marked_up_step (df : DataFrame) :
  (if has_column (Excel.convert_numeric_columns to_numeric df) "U.Price" then
     price <- getitem (Excel.convert_numeric_columns to_numeric df) "U.Price" ;;
     marked_up <- mul_scalar price 1.25%float ;;
     Ok (setitem (Excel.convert_numeric_columns to_numeric df) "Marked_Up_Price" marked_up)
   else Ok (Excel.convert_numeric_columns to_numeric df))
  = Ok (with_marked_up_price (Excel.convert_numeric_columns to_numeric df)).
Proof.
  unfold has_column, getitem, with_marked_up_price.
  destruct (lookup_column _ "U.Price") as [c|] eqn:E; [|reflexivity].
  pose proof (convert_numeric_columns_price df c E) as Hc.
  cbn [bind]. rewrite (mul_scalar_numeric c _ Hc). cbn [bind].
  now destruct c.
Qed.

Lemma with_marked_up_price_wf (df : DataFrame) :
  wf_frame df -> wf_frame (with_marked_up_price df).
Proof.
  intros Hwf. unfold with_marked_up_price.
  destruct (lookup_column (columns df) "U.Price") as [price|] eqn:E; [|exact Hwf].
  assert (Hlen : col_length price = nrows df).
  { unfold wf_frame in Hwf. rewrite Forall_forall in Hwf.
    apply (Hwf _ (lookup_column_In _ _ _ E)). }
  destruct price; try exact Hwf;
    (apply wf_setitem; [exact Hwf|]; cbn [col_length cells_of] in *;
     now rewrite !length_map).
Qed.

(** What [process_response] returns when no exception is raised. *)
Lemma process_response_Ok (source response : string) (out : DataFrame) :
  Excel.process_response json_loads to_numeric source response = Ok out ->
  (Excel.extract_json_from_response json_loads response = None /\ out = empty_frame)
  \/ exists json_data df,
       Excel.extract_json_from_response json_loads response = Some json_data
       /\ pd_DataFrame (Excel.ensure_equal_length_arrays json_data) = Ok df
       /\ Excel.clean_dataframe
            (setitem (with_marked_up_price (Excel.convert_numeric_columns to_numeric df))
               "Source"
               (ObjCol (repeat (JStr source)
                  (nrows (with_marked_up_price (Excel.convert_numeric_columns to_numeric df))))))
          = Ok out.
Proof.
  unfold Excel.process_response.
  destruct (Excel.extract_json_from_response json_loads response) as [json_data|].
  - destruct (pd_DataFrame (Excel.ensure_equal_length_arrays json_data)) as [df|e] eqn:Edf;
      [|discriminate].
    cbn [bind]. rewrite marked_up_step. cbn [bind]. intros H.
    right. now exists json_data, df.
  - intros [= <-]. now left.
Qed.

Lemma clean_dataframe_Ok (df out : DataFrame) :
  Excel.clean_dataframe df = Ok out ->
  (exists mask, out = select_rows mask df)
  /\ lookup_column (columns df) "Total" <> None.
Proof.
  unfold Excel.clean_dataframe, getitem.
  destruct (lookup_column (columns df) "Product") as [p|]; [|discriminate]. cbn [bind].
  destruct (str_strip p) as [stripped|]; [|discriminate]. cbn [bind].
  destruct (lookup_column (columns df) "Total") as [t|]; [|discriminate]. cbn [bind].
  destruct (gt_zero t) as [positive|]; [|discriminate]. cbn [bind].
  intros [= <-]. split; [eexists; reflexivity|discriminate].
Qed.

End Pipeline.

Lemma dict_get_set (d : dict) (k key : string) (v : json) :
  dict_get (dict_set d k v) key = if String.eqb key k then Some v else dict_get d key.
Proof.
  induction d as [|[k' v'] d IH]; simpl.
  - reflexivity.
  - destruct (String.eqb_spec k k') as [->|Hne]; simpl.
    + now destruct (String.eqb key k').
    + rewrite IH. destruct (String.eqb_spec key k') as [->|_]; [|reflexivity].
      destruct (String.eqb_spec k' k) as [->|_]; [congruence|reflexivity].
Qed.

Lemma adjust_get_other (N : nat) (d : dict) (k key : string) :
  key <> k -> dict_get (Excel.adjust N d k) key = dict_get d key.
Proof.
  intros Hne. unfold Excel.adjust.
  repeat match goal with |- context [if ?b then _ else _] => destruct b end;
    try reflexivity; rewrite dict_get_set;
    destruct (String.eqb_spec key k); congruence.
Qed.

Lemma fold_adjust_get_other (N : nat) (ks : list string) (d : dict) (key : string) :
  ~ In key ks -> dict_get (fold_left (Excel.adjust N) ks d) key = dict_get d key.
Proof.
  revert d. induction ks as [|k ks IH]; intros d Hn; [reflexivity|].
  simpl. rewrite IH by (intros H; apply Hn; now right).
  apply adjust_get_other. intros ->. apply Hn. now left.
Qed.

Lemma array_keys_incl (d : dict) (key : string) :
  In key (Excel.array_keys d) -> In key (keys d).
Proof.
  unfold Excel.array_keys, keys. intros H. apply in_map_iff in H.
  destruct H as (kv & <- & Hin). apply filter_In in Hin. apply in_map. tauto.
Qed.

(** The reconciler adds no key. *)
Lemma ensure_get_absent (d : dict) (key : string) :
  dict_get d key = None -> dict_get (Excel.ensure_equal_length_arrays d) key = None.
Proof.
  intros H. unfold Excel.ensure_equal_length_arrays.
  destruct (Excel.array_keys d) as [|k ks] eqn:Ek; [exact H|].
  destruct (Excel.non_empty_lengths d); [exact H|].
  destruct (most_common_1 _) as [|[N cnt] rest]; [exact H|].
  rewrite <- Ek, fold_adjust_get_other; [exact H|].
  intros Hin. apply array_keys_incl in Hin. now apply dict_get_None in H.
Qed.

Section PipelineClaims.

Variable json_loads : string -> option dict.
Variable to_numeric : json -> number.

(** The frame handed to [clean_dataframe] has the columns of the frame built
    from the extraction, Marked_Up_Price when there is a unit price, and
    Source. *)
Lemma lookup_before_clean (df : DataFrame) (source key : string) :
  key <> "Source" ->
  lookup_column
    (columns (setitem (with_marked_up_price (Excel.convert_numeric_columns to_numeric df))
       "Source"
       (ObjCol (repeat (JStr source)
          (nrows (with_marked_up_price (Excel.convert_numeric_columns to_numeric df)))))))
    key
  = lookup_column (columns (with_marked_up_price (Excel.convert_numeric_columns to_numeric df)))
      key.
Proof.
  intros Hne. cbn [setitem columns]. rewrite lookup_set_column.
  destruct (String.eqb_spec key "Source"); [contradiction|reflexivity].
Qed.

Lemma lookup_with_marked_up_price_other (df : DataFrame) (key : string) :
  key <> "Marked_Up_Price" ->
  lookup_column (columns (with_marked_up_price df)) key = lookup_column (columns df) key.
Proof.
  intros Hne. unfold with_marked_up_price.
  destruct (lookup_column (columns df) "U.Price") as [[| | |]|]; try reflexivity;
    cbn [setitem columns]; rewrite lookup_set_column;
    (destruct (String.eqb_spec key "Marked_Up_Price"); [contradiction|reflexivity]).
Qed.

(** C9. When the parsed extraction has a non-empty Product field and no Total
    key, the per-document pipeline returns the empty frame, that is zero
    rows: [clean_dataframe] reads the Total column whatever the frame holds,
    the exception leaves the [try] block and the handler returns
    [pd.DataFrame()]. *)
Theorem no_total_key_no_rows (source response : string) (json_data : dict) :
  Excel.extract_json_from_response json_loads response = Some json_data ->
  dict_get json_data "Total" = None ->
  (exists e, Excel.process_response json_loads to_numeric source response = Raise e)
  /\ Excel.process_pdf json_loads to_numeric source response = empty_frame
  /\ rows (Excel.process_pdf json_loads to_numeric source response) = []
  /\ (forall df, lookup_column (columns df) "Total" = None ->
      exists e, Excel.clean_dataframe df = Raise e)
  /\ (forall df product stripped,
      lookup_column (columns df) "Product" = Some product ->
      str_strip product = Ok stripped ->
      lookup_column (columns df) "Total" = None ->
      Excel.clean_dataframe df = Raise (KeyError "Total")).
Proof.
  intros Hext Htotal.
  assert (Hraise : exists e,
            Excel.process_response json_loads to_numeric source response = Raise e).
  { destruct (Excel.process_response json_loads to_numeric source response) as [out|e] eqn:E;
      [|now exists e].
    exfalso. apply process_response_Ok in E.
    destruct E as [[E _]|(d & df & Hd & Hdf & Hclean)]; [congruence|].
    rewrite Hext in Hd. injection Hd as <-.
    apply clean_dataframe_Ok in Hclean. destruct Hclean as [_ Hc]. apply Hc.
    rewrite lookup_before_clean by discriminate.
    rewrite lookup_with_marked_up_price_other by discriminate.
    rewrite convert_numeric_columns_lookup.
    rewrite (pd_DataFrame_lookup_None _ _ "Total" Hdf (ensure_get_absent _ _ Htotal)).
    reflexivity. }
  split; [exact Hraise|]. destruct Hraise as [e He].
  unfold Excel.process_pdf. rewrite He.
  split; [reflexivity|]. split; [reflexivity|]. split.
  - intros df Hdf. unfold Excel.clean_dataframe, getitem. rewrite Hdf.
    destruct (lookup_column (columns df) "Product") as [p|]; [|eexists; reflexivity].
    cbn [bind]. destruct (str_strip p); eexists; reflexivity.
  - intros df product stripped Hp Hs Hdf.
    unfold Excel.clean_dataframe, getitem. rewrite Hp, Hdf. cbn [bind].
    rewrite Hs. reflexivity.
Qed.

End PipelineClaims.

Lemma no_total_key_no_rows_witness :
  Excel.process_pdf sample_json_loads sample_to_numeric "invoice.pdf" example_1_object
  = empty_frame.
Proof.
  apply (no_total_key_no_rows sample_json_loads sample_to_numeric
           "invoice.pdf" example_1_object example_1); reflexivity.
Defined.

(** ** The mark-up column *)

Lemma process_pdf_cases (json_loads : string -> option dict) (to_numeric : json -> number)
    (source response : string) :
  Excel.process_pdf json_loads to_numeric source response = empty_frame
  \/ exists json_data df mask,
       Excel.extract_json_from_response json_loads response = Some json_data
       /\ pd_DataFrame (Excel.ensure_equal_length_arrays json_data) = Ok df
       /\ Excel.process_pdf json_loads to_numeric source response
          = select_rows mask
              (setitem (with_marked_up_price (Excel.convert_numeric_columns to_numeric df))
                 "Source"
                 (ObjCol (repeat (JStr source)
                    (nrows (with_marked_up_price
                              (Excel.convert_numeric_columns to_numeric df)))))).
Proof.
  unfold Excel.process_pdf.
  destruct (Excel.process_response json_loads to_numeric source response) as [out|e] eqn:E;
    [|now left].
  apply process_response_Ok in E.
  destruct E as [[_ ->]|(d & df & Hd & Hdf & Hclean)]; [now left|].
  right. apply clean_dataframe_Ok in Hclean. destruct Hclean as [[mask ->] _].
  now exists d, df, mask.
Qed.

Lemma process_pdf_wf (json_loads : string -> option dict) (to_numeric : json -> number)
    (source response : string) :
  wf_frame (Excel.process_pdf json_loads to_numeric source response).
Proof.
  destruct (process_pdf_cases json_loads to_numeric source response)
    as [->|(d & df & mask & _ & Hdf & ->)]; [constructor|].
  apply wf_select_rows, wf_setitem.
  - apply with_marked_up_price_wf, convert_numeric_columns_wf, (pd_DataFrame_wf _ _ Hdf).
  - apply repeat_length.
Qed.

Lemma numeric_select_column (mask : list bool) (c : column) :
  numeric_column (select_column mask c) = numeric_column c.
Proof. now destruct c. Qed.

Lemma process_pdf_price_columns (json_loads : string -> option dict)
    (to_numeric : json -> number) (source response : string) (price : column) :
  lookup_column (columns (Excel.process_pdf json_loads to_numeric source response)) "U.Price"
  = Some price ->
  numeric_column price = true
  /\ lookup_column (columns (Excel.process_pdf json_loads to_numeric source response))
       "Marked_Up_Price"
     = Some (NumCol (map (fun v => (float_of_cell v * 1.25)%float) (cells_of price)))
  /\ col_length price = nrows (Excel.process_pdf json_loads to_numeric source response).
Proof.
  intros Hprice.
  pose proof (process_pdf_wf json_loads to_numeric source response) as Hwf.
  assert (Hlen : col_length price
                 = nrows (Excel.process_pdf json_loads to_numeric source response)).
  { unfold wf_frame in Hwf. rewrite Forall_forall in Hwf.
    apply (Hwf _ (lookup_column_In _ _ _ Hprice)). }
  split; [|split; [|exact Hlen]]; clear Hlen Hwf;
    destruct (process_pdf_cases json_loads to_numeric source response)
      as [E|(d & df & mask & _ & Hdf & E)]; rewrite E in *; try discriminate;
    rewrite lookup_select_rows in *;
    rewrite lookup_before_clean in * by discriminate;
    unfold with_marked_up_price in *;
    destruct (lookup_column (columns (Excel.convert_numeric_columns to_numeric df)) "U.Price")
      as [c|] eqn:Ec;
    try (rewrite Ec in Hprice; discriminate);
    pose proof (convert_numeric_columns_price to_numeric df c Ec) as Hc;
    destruct c; try discriminate Hc;
    cbn [setitem columns] in *; rewrite lookup_set_column in *;
    cbn [String.eqb Ascii.eqb Bool.eqb] in *; rewrite Ec in Hprice;
    cbn [option_map select_column] in *; injection Hprice as <-;
    try reflexivity;
    cbn [cells_of]; now rewrite !select_map.
Qed.

Lemma number_float_of_cell (c : column) (i : nat) :
  numeric_column c = true -> i < col_length c ->
  number_of_cell (nth i (cells_of c) JNull)
  = Some (float_of_cell (nth i (cells_of c) JNull)).
Proof.
  destruct c as [cells|cells|u cells|cells]; [discriminate| | |]; intros _ Hi;
    cbn [cells_of col_length] in *.
  - rewrite (nth_indep _ JNull (JFloat nan)) by (rewrite length_map; lia).
    now rewrite map_nth.
  - rewrite (nth_indep _ JNull (JInt 0)) by (rewrite length_map; lia).
    now rewrite map_nth.
  - rewrite (nth_indep _ JNull (JBool false)) by (rewrite length_map; lia).
    now rewrite map_nth.
Qed.

(** C8, as stated, fails on a response that brings a
    Marked_Up_Price field of its own and no U.Price: the row has no unit
    price, and its Marked_Up_Price is the string of the response, not
    null. *)
Lemma marked_up_counterexample :
  ~ marked_up_as_claimed
      (Excel.process_pdf own_mark_up_loads sample_to_numeric "invoice.pdf"
         own_mark_up_object)
  /\ rows (Excel.process_pdf own_mark_up_loads sample_to_numeric "invoice.pdf"
             own_mark_up_object)
     = [[("Product", JStr "Widget"); ("Total", JInt 10);
         ("Marked_Up_Price", JStr "x"); ("Source", JStr "invoice.pdf")]].
Proof.
  split; [|reflexivity].
  intros H.
  specialize (H [("Product", JStr "Widget"); ("Total", JInt 10);
                 ("Marked_Up_Price", JStr "x"); ("Source", JStr "invoice.pdf")]).
  assert (Hin : In [("Product", JStr "Widget"); ("Total", JInt 10);
                    ("Marked_Up_Price", JStr "x"); ("Source", JStr "invoice.pdf")]
                   (rows (Excel.process_pdf own_mark_up_loads sample_to_numeric
                            "invoice.pdf" own_mark_up_object))).
  { now left. }
  specialize (H Hin). cbn in H. discriminate H.
Qed.

(** C8, amended.  In every row that [process_pdf] returns and that has a
    U.Price value, that value is a number, Marked_Up_Price is the float
    product of that number and 1.25, and it is null (NaN) exactly when the
    U.Price is.  The U.Price column is numeric and the Marked_Up_Price column
    is computed from it cell by cell.  When the extraction has no U.Price
    field the frame has no U.Price column and no mark-up is computed: it has
    a Marked_Up_Price column only if the extraction brings that field
    itself. *)
Theorem marked_up_price_spec (json_loads : string -> option dict)
    (to_numeric : json -> number) (source response : string) :
  let out := Excel.process_pdf json_loads to_numeric source response in
  (forall row v, In row (rows out) -> dict_get row "U.Price" = Some v ->
     exists u,
       number_of_cell v = Some u
       /\ dict_get row "Marked_Up_Price" = Some (JFloat (u * 1.25)%float)
       /\ PrimFloat.is_nan (u * 1.25)%float = PrimFloat.is_nan u)
  /\ (forall price, lookup_column (columns out) "U.Price" = Some price ->
      numeric_column price = true
      /\ lookup_column (columns out) "Marked_Up_Price"
         = Some (NumCol (map (fun v => (float_of_cell v * 1.25)%float) (cells_of price)))
      /\ col_length price = nrows out)
  /\ (forall json_data,
      Excel.extract_json_from_response json_loads response = Some json_data ->
      dict_get json_data "U.Price" = None ->
      lookup_column (columns out) "U.Price" = None
      /\ (dict_get json_data "Marked_Up_Price" = None ->
          lookup_column (columns out) "Marked_Up_Price" = None)).
Proof.
  intros out. subst out. split; [|split].
  - intros row v Hrow Hv. unfold rows in Hrow. apply in_map_iff in Hrow.
    destruct Hrow as (i & <- & Hi). apply in_seq in Hi.
    rewrite dict_get_row_at in *.
    destruct (lookup_column _ "U.Price") as [price|] eqn:Ep; [|discriminate].
    destruct (process_pdf_price_columns _ _ _ _ _ Ep) as (Hnum & -> & Hlen).
    cbn [option_map cells_of] in *. injection Hv as <-.
    exists (float_of_cell (nth i (cells_of price) JNull)).
    split; [apply number_float_of_cell; [exact Hnum|lia]|].
    split; [|apply is_nan_mul_1_25].
    rewrite (nth_indep _ JNull (JFloat nan))
      by (rewrite !length_map, cells_of_length; lia).
    rewrite (map_nth JFloat). f_equal. f_equal.
    rewrite (nth_indep _ nan ((fun v => (float_of_cell v * 1.25)%float) JNull))
      by (rewrite length_map, cells_of_length; lia).
    now rewrite (map_nth (fun v => (float_of_cell v * 1.25)%float)).
  - apply process_pdf_price_columns.
  - intros d Hext Hu.
    destruct (process_pdf_cases json_loads to_numeric source response)
      as [->|(d' & df & mask & Hd' & Hdf & ->)]; [now split|].
    rewrite Hext in Hd'. injection Hd' as <-.
    assert (Hnone : lookup_column
                      (columns (Excel.convert_numeric_columns to_numeric df)) "U.Price" = None).
    { rewrite convert_numeric_columns_lookup.
      now rewrite (pd_DataFrame_lookup_None _ _ _ Hdf (ensure_get_absent _ _ Hu)). }
    rewrite !lookup_select_rows, !lookup_before_clean by discriminate.
    unfold with_marked_up_price. rewrite Hnone. rewrite Hnone.
    split; [reflexivity|]. intros Hm.
    rewrite convert_numeric_columns_lookup.
    now rewrite (pd_DataFrame_lookup_None _ _ _ Hdf (ensure_get_absent _ _ Hm)).
Qed.

Lemma marked_up_price_spec_witness :
  exists u,
    number_of_cell (JFloat 7.5%float) = Some u
    /\ dict_get [("Date", JStr "2023-06-24"); ("Product", JStr "BD2 Coriander Eng");
                 ("Qty", JInt 50); ("U.Price", JFloat 7.5%float); ("Total", JInt 375);
                 ("Marked_Up_Price", JFloat 9.375%float);
                 ("Source", JStr "invoice.pdf")] "Marked_Up_Price"
       = Some (JFloat (u * 1.25)%float)
    /\ PrimFloat.is_nan (u * 1.25)%float = PrimFloat.is_nan u.
Proof.
  apply (marked_up_price_spec sample_json_loads sample_to_numeric "invoice.pdf"
           sample_invoice_object).
  - vm_compute. left. reflexivity.
  - reflexivity.
Defined.

(** ** String order *)














(** ** The stable sort *)

Section StableSort.

Variable ltb : nat -> nat -> bool.
Hypothesis ltb_irrefl : forall i, ltb i i = false.
Hypothesis ltb_trans : forall i j k, ltb i j = true -> ltb j k = true -> ltb i k = true.
Hypothesis ltb_negtrans : forall i j k, ltb i j = false -> ltb j k = false -> ltb i k = false.

Lemma insert_row_perm (i : nat) (sorted : list nat) :
  Permutation (insert_row ltb i sorted) (i :: sorted).
Proof.
  induction sorted as [|j sorted IH]; simpl; [reflexivity|].
  destruct (ltb j i); [|reflexivity].
  rewrite IH. apply perm_swap.
Qed.

Lemma sort_indexer_perm (l : list nat) : Permutation (sort_indexer ltb l) l.
Proof.
  induction l as [|i l IH]; simpl; [reflexivity|].
  rewrite insert_row_perm. now constructor.
Qed.




End StableSort.



(** ** The sort of the combined result *)






Lemma cells_of_take_column (indexer : list nat) (c : column) :
  Forall (fun i => i < col_length c) indexer ->
  cells_of (take_column indexer c) = map (fun i => nth i (cells_of c) JNull) indexer.
Proof.
  intros H. destruct c as [cells|cells|u cells|cells]; cbn [take_column cells_of];
    [reflexivity| | |];
    rewrite map_map; apply map_ext_in; intros i Hi;
    rewrite Forall_forall in H; specialize (H i Hi); cbn [col_length] in H.
  - rewrite (nth_indep (map JFloat cells) JNull (JFloat nan)) by (rewrite length_map; lia).
    now rewrite (map_nth JFloat).
  - rewrite (nth_indep (map JInt cells) JNull (JInt 0)) by (rewrite length_map; lia).
    now rewrite (map_nth JInt).
  - rewrite (nth_indep (map JBool cells) JNull (JBool false)) by (rewrite length_map; lia).
    now rewrite (map_nth JBool).
Qed.

Lemma rows_take (indexer : list nat) (df : DataFrame) :
  wf_frame df ->
  List.length indexer = nrows df ->
  Forall (fun i => i < nrows df) indexer ->
  rows {| nrows := nrows df;
          columns := map (fun kc => (fst kc, take_column indexer (snd kc))) (columns df) |}
  = map (row_at df) indexer.
Proof.
  intros Hwf Hlen Hidx. unfold rows. cbn [nrows].
  rewrite <- (map_nth_seq (row_at df) 0 indexer), Hlen.
  apply map_ext_in. intros p Hp. apply in_seq in Hp.
  unfold row_at. cbn [columns]. rewrite map_map.
  apply map_ext_in. intros [k c] Hkc. cbn [fst snd]. f_equal.
  unfold wf_frame in Hwf. rewrite Forall_forall in Hwf.
  specialize (Hwf _ Hkc). cbn [snd] in Hwf.
  rewrite cells_of_take_column by now rewrite Hwf.
  rewrite (nth_indep _ JNull (nth 0 (cells_of c) JNull)) by (rewrite length_map; lia).
  now rewrite (map_nth (fun i => nth i (cells_of c) JNull)).
Qed.




(* ================================================================== *)
(** * Further properties of the code *)

(** ** The reconciler *)

(** X1. A table whose list-valued fields all have one length is returned as it
    is: reconciliation is the identity on it. *)
Theorem ensure_identity_on_equal_lengths (d : dict) (n : nat) :
  wf_dict d ->
  (forall key items, dict_get d key = Some (JArr items) -> List.length items = n) ->
  Excel.ensure_equal_length_arrays d = d.
Proof.
  intros Hwf Hall.
  destruct (Excel.non_empty_lengths d) as [|m ms] eqn:En; [now apply ensure_degenerate|].
  destruct (dominant_length_exists d) as [N HN]; [now rewrite En|].
  assert (HNn : N = n).
  { pose proof (dominant_length_In d N HN) as Hin.
    rewrite non_empty_lengths_entries in Hin by exact Hwf.
    apply filter_In in Hin. destruct Hin as [Hin _]. unfold seq_lengths in Hin.
    apply in_map_iff in Hin. destruct Hin as ([k v] & <- & Hkv).
    apply filter_In in Hkv. destruct Hkv as [Hkv Harr]. simpl in Harr.
    destruct v; try discriminate. unfold seq_length. simpl.
    apply (Hall k). now apply In_dict_get. }
  subst N. rewrite (ensure_dominant d n Hwf HN).
  rewrite <- (map_id d) at 2. apply map_ext_in. intros [k v] Hin.
  unfold reconcile_entry. destruct v; try reflexivity. cbn [fst snd].
  rewrite fit_length_eq; [reflexivity|]. apply (Hall k). now apply In_dict_get.
Qed.

Lemma ensure_identity_on_equal_lengths_witness :
  Excel.ensure_equal_length_arrays example_4_dict = example_4_dict.
Proof.
  apply (ensure_identity_on_equal_lengths example_4_dict 1).
  - wf_dict_tac.
  - intros key items. cbn [example_4_dict dict_get].
    destruct (String.eqb key "Product"); [now intros [= <-]|].
    destruct (String.eqb key "Total"); [now intros [= <-]|discriminate].
Defined.

Lemma non_empty_lengths_without_elements (d : dict) :
  (forall key items, dict_get d key = Some (JArr items) -> items = []) ->
  Excel.non_empty_lengths d = [].
Proof.
  intros Hall. unfold Excel.non_empty_lengths.
  induction (Excel.array_keys d) as [|k ks IH]; [reflexivity|].
  cbn [map filter]. rewrite IH.
  unfold items_at. destruct (dict_get d k) as [v|] eqn:E; [|reflexivity].
  destruct v; try reflexivity. now rewrite (Hall k items E).
Qed.

(** X2. When no list-valued field has an element, the table is returned as it
    is: empty lists are filled only when some list tells how many rows there
    are. *)
Theorem ensure_unchanged_without_elements (d : dict) :
  (forall key items, dict_get d key = Some (JArr items) -> items = []) ->
  Excel.ensure_equal_length_arrays d = d.
Proof.
  intros Hall. now apply ensure_degenerate, non_empty_lengths_without_elements.
Qed.

Lemma ensure_unchanged_without_elements_witness :
  Excel.ensure_equal_length_arrays [("Product", JStr "Widget"); ("Total", JArr [])]
  = [("Product", JStr "Widget"); ("Total", JArr [])].
Proof.
  apply (ensure_unchanged_without_elements [("Product", JStr "Widget"); ("Total", JArr [])]).
  intros key items. cbn [dict_get].
  destruct (String.eqb key "Product"); [discriminate|].
  destruct (String.eqb key "Total"); [now intros [= <-]|discriminate].
Defined.

Lemma ensure_cases (d : dict) :
  wf_dict d ->
  Excel.ensure_equal_length_arrays d = d
  \/ exists N, dominant_length d = Some N
               /\ Excel.ensure_equal_length_arrays d = map (reconcile_entry N) d.
Proof.
  intros Hwf. destruct (Excel.non_empty_lengths d) as [|m ms] eqn:En.
  - left. now apply ensure_degenerate.
  - right. destruct (dominant_length_exists d) as [N HN]; [now rewrite En|].
    exists N. split; [exact HN|now apply ensure_dominant].
Qed.

(** X3. Reconciliation keeps the fields: the same keys in the same order, a
    list where there was a list, and every value that is not a list as it
    was. *)
Theorem ensure_keeps_fields (d : dict) :
  wf_dict d ->
  keys (Excel.ensure_equal_length_arrays d) = keys d
  /\ wf_dict (Excel.ensure_equal_length_arrays d)
  /\ (forall key,
      option_map isinstance_list (dict_get (Excel.ensure_equal_length_arrays d) key)
      = option_map isinstance_list (dict_get d key))
  /\ (forall key v, dict_get d key = Some v -> isinstance_list v = false ->
      dict_get (Excel.ensure_equal_length_arrays d) key = Some v).
Proof.
  intros Hwf. destruct (ensure_cases d Hwf) as [->|(N & HN & ->)].
  - repeat split; auto.
  - split; [apply keys_map_reconcile|]. split; [now apply wf_dict_reconcile|]. split.
    + intros key. rewrite dict_get_map_entry by apply reconcile_entry_fst.
      destruct (dict_get d key) as [v|]; [|reflexivity]. now destruct v.
    + intros key v Hget Hv. rewrite dict_get_map_entry by apply reconcile_entry_fst.
      rewrite Hget. now destruct v.
Qed.

Lemma ensure_keeps_fields_witness :
  keys (Excel.ensure_equal_length_arrays example_1) = keys example_1.
Proof.
  apply (ensure_keeps_fields example_1). wf_dict_tac.
Defined.

Lemma fit_prefix (N : nat) (key : string) (items : list json) (i : nat) :
  i < List.length items -> i < List.length (fit N key items) ->
  nth_error (fit N key items) i = nth_error items i.
Proof.
  intros Hi Hi'. unfold fit in *. destruct items as [|x items]; [simpl in Hi; lia|].
  destruct (List.length (x :: items) <? N).
  - now apply nth_error_app1.
  - rewrite nth_error_firstn. rewrite length_firstn in Hi'.
    destruct (Nat.ltb_spec i N); [reflexivity|lia].
Qed.

Lemma fit_padding (N : nat) (key : string) (items : list json) (i : nat) :
  List.length items <= i -> i < List.length (fit N key items) ->
  nth_error (fit N key items) i = Some (filler key).
Proof.
  intros Hi Hi'. unfold fit in *. destruct items as [|x items].
  - rewrite repeat_length in Hi'. now apply nth_error_repeat.
  - destruct (Nat.ltb_spec (List.length (x :: items)) N) as [H|H].
    + rewrite length_app, repeat_length in Hi'. rewrite nth_error_app2 by exact Hi.
      apply nth_error_repeat. lia.
    + rewrite length_firstn in Hi'. lia.
Qed.

(** X4. Reconciliation never alters an element it keeps, and what it adds is
    the filler of the key: at every position the two lists share, the
    reconciled list holds the element of the raw list, and at every position
    beyond the raw list it holds the filler. *)
Theorem ensure_keeps_elements (d : dict) (key : string) (items : list json) :
  wf_dict d ->
  dict_get d key = Some (JArr items) ->
  exists items',
    dict_get (Excel.ensure_equal_length_arrays d) key = Some (JArr items')
    /\ (forall i, i < List.length items -> i < List.length items' ->
        nth_error items' i = nth_error items i)
    /\ (forall i, List.length items <= i -> i < List.length items' ->
        nth_error items' i = Some (filler key)).
Proof.
  intros Hwf Hget. destruct (ensure_cases d Hwf) as [->|(N & HN & ->)].
  - exists items. split; [exact Hget|]. split; [reflexivity|]. intros i H1 H2. lia.
  - exists (fit N key items). split.
    + rewrite dict_get_map_entry by apply reconcile_entry_fst. now rewrite Hget.
    + split; intros i; [apply fit_prefix|apply fit_padding].
Qed.

Lemma ensure_keeps_elements_witness :
  exists items',
    dict_get (Excel.ensure_equal_length_arrays example_1) "Qty" = Some (JArr items')
    /\ (forall i, i < 1 -> i < List.length items' ->
        nth_error items' i = nth_error [JInt 1] i)
    /\ (forall i, 1 <= i -> i < List.length items' ->
        nth_error items' i = Some (filler "Qty")).
Proof.
  apply (ensure_keeps_elements example_1 "Qty" [JInt 1]).
  - wf_dict_tac.
  - reflexivity.
Defined.

(** ** From the reconciled table to the frame *)

Lemma raw_lengths_seq_lengths (d : dict) : raw_lengths d = seq_lengths d.
Proof.
  unfold raw_lengths, seq_lengths. induction d as [|[k v] d IH]; [reflexivity|].
  cbn [flat_map filter snd]. destruct v; cbn [isinstance_list map app]; now rewrite IH.
Qed.

Lemma dict_indexes_nil (d : dict) :
  (forall k fields, ~ In (k, JObj fields) d) -> dict_indexes d = [].
Proof.
  unfold dict_indexes. induction d as [|[k v] d IH]; intros H; [reflexivity|].
  cbn [flat_map snd]. rewrite IH by (intros k' f Hin; apply (H k' f); now right).
  destruct v; try reflexivity. exfalso. apply (H k fields). now left.
Qed.

Lemma no_objects_reconcile (N : nat) (d : dict) :
  (forall k fields, ~ In (k, JObj fields) d) ->
  forall k fields, ~ In (k, JObj fields) (map (reconcile_entry N) d).
Proof.
  intros H k fields Hin. apply in_map_iff in Hin. destruct Hin as ([k' v] & E & Hin).
  unfold reconcile_entry in E. cbn [fst snd] in E.
  destruct v; try discriminate E; injection E as <- E'; try discriminate E'.
  subst. now apply (H k' fields).
Qed.

Lemma pd_DataFrame_nrows_lists (data : dict) (df : DataFrame) (n : nat) (lengths : list nat) :
  pd_DataFrame data = Ok df -> raw_lengths data = n :: lengths -> nrows df = n.
Proof.
  unfold pd_DataFrame. destruct data as [|kv data]; [discriminate 2|].
  intros H E. rewrite E in H.
  destruct (dict_indexes (kv :: data)); [|discriminate].
  destruct (forallb (Nat.eqb n) lengths); [|discriminate].
  now injection H as <-.
Qed.

Lemma pd_DataFrame_lists (data : dict) (n : nat) (lengths : list nat) :
  raw_lengths data = n :: lengths ->
  forallb (Nat.eqb n) lengths = true ->
  dict_indexes data = [] ->
  exists df, pd_DataFrame data = Ok df /\ nrows df = n.
Proof.
  intros El Eall Ei. unfold pd_DataFrame. destruct data as [|kv data]; [discriminate El|].
  rewrite El, Ei, Eall. eexists. split; reflexivity.
Qed.

Lemma raw_lengths_reconciled (d : dict) (N : nat) :
  wf_dict d -> dominant_length d = Some N ->
  exists lengths,
    raw_lengths (map (reconcile_entry N) d) = N :: lengths
    /\ forallb (Nat.eqb N) lengths = true.
Proof.
  intros Hwf HN. rewrite raw_lengths_seq_lengths, seq_lengths_reconcile.
  apply dominant_length_In in HN. rewrite non_empty_lengths_entries in HN by exact Hwf.
  apply filter_In in HN. destruct HN as [HN _]. unfold seq_lengths in HN.
  destruct (filter (fun kv => isinstance_list (snd kv)) d) as [|kv l]; [destruct HN|].
  cbn [map]. eexists. split; [reflexivity|].
  apply forallb_forall. intros m Hm. apply in_map_iff in Hm.
  destruct Hm as (_ & <- & _). apply Nat.eqb_refl.
Qed.

Lemma no_objects_In (d : dict) :
  wf_dict d ->
  (forall key fields, dict_get d key <> Some (JObj fields)) ->
  forall k fields, ~ In (k, JObj fields) d.
Proof.
  intros Hwf H k fields Hin. apply (H k fields). now apply In_dict_get.
Qed.

(** X5. After reconciliation the frame can be built: for a table with a
    dominant length [N] and no object-valued field, [pd.DataFrame] does not
    raise on ragged lists; the frame has [N] rows and one column for each
    key, in the order of the keys. *)
Theorem frame_after_reconciliation (d : dict) (N : nat) :
  wf_dict d ->
  dominant_length d = Some N ->
  (forall key fields, dict_get d key <> Some (JObj fields)) ->
  exists df,
    pd_DataFrame (Excel.ensure_equal_length_arrays d) = Ok df
    /\ nrows df = N
    /\ map fst (columns df) = keys d
    /\ wf_frame df.
Proof.
  intros Hwf HN Hobj. rewrite (ensure_dominant d N Hwf HN).
  destruct (raw_lengths_reconciled d N Hwf HN) as (lengths & El & Eall).
  destruct (pd_DataFrame_lists _ N lengths El Eall) as (df & Hdf & Hn).
  { apply dict_indexes_nil, no_objects_reconcile, no_objects_In; assumption. }
  exists df. split; [exact Hdf|]. split; [exact Hn|]. split.
  - rewrite (pd_DataFrame_names _ _ Hdf). apply keys_map_reconcile.
  - apply (pd_DataFrame_wf _ _ Hdf).
Qed.

Lemma frame_after_reconciliation_witness :
  exists df,
    pd_DataFrame (Excel.ensure_equal_length_arrays example_1) = Ok df
    /\ nrows df = 2
    /\ map fst (columns df) = keys example_1
    /\ wf_frame df.
Proof.
  apply (frame_after_reconciliation example_1 2).
  - wf_dict_tac.
  - reflexivity.
  - intros key fields. cbn [example_1 dict_get].
    destruct (String.eqb key "Product"); [discriminate|].
    destruct (String.eqb key "Qty"); discriminate.
Defined.

(** ** The rows a document yields *)

Lemma select_length_le {A : Type} (mask : list bool) (l : list A) :
  List.length (select mask l) <= List.length l.
Proof.
  revert l. induction mask as [|m mask IH]; intros [|x l]; simpl; try lia.
  specialize (IH l). destruct m; simpl; lia.
Qed.

Lemma convert_numeric_columns_nrows (to_numeric : json -> number) (df : DataFrame) :
  nrows (Excel.convert_numeric_columns to_numeric df) = nrows df.
Proof.
  unfold Excel.convert_numeric_columns. cbn [fold_left].
  repeat match goal with
         | |- context [match lookup_column ?cols ?k with _ => _ end] =>
             destruct (lookup_column cols k)
         end; reflexivity.
Qed.

Lemma with_marked_up_price_nrows (df : DataFrame) :
  nrows (with_marked_up_price df) = nrows df.
Proof.
  unfold with_marked_up_price.
  now destruct (lookup_column (columns df) "U.Price") as [[| | |]|].
Qed.

Lemma process_pdf_nrows_le (json_loads : string -> option dict) (to_numeric : json -> number)
    (source response : string) (d : dict) (df : DataFrame) :
  Excel.extract_json_from_response json_loads response = Some d ->
  pd_DataFrame (Excel.ensure_equal_length_arrays d) = Ok df ->
  nrows (Excel.process_pdf json_loads to_numeric source response) <= nrows df.
Proof.
  intros Hext Hdf.
  destruct (process_pdf_cases json_loads to_numeric source response)
    as [->|(d' & df' & mask & Hd' & Hdf' & ->)]; [simpl; lia|].
  rewrite Hext in Hd'. injection Hd' as <-. rewrite Hdf in Hdf'. injection Hdf' as <-.
  cbn [select_rows nrows setitem].
  rewrite with_marked_up_price_nrows, convert_numeric_columns_nrows.
  etransitivity; [apply select_length_le|]. now rewrite length_seq.
Qed.

(** X6. A document yields at most as many rows as the dominant length of its
    extraction. *)
Theorem process_pdf_rows_bounded (json_loads : string -> option dict)
    (to_numeric : json -> number) (source response : string) (d : dict) (N : nat) :
  Excel.extract_json_from_response json_loads response = Some d ->
  wf_dict d ->
  dominant_length d = Some N ->
  nrows (Excel.process_pdf json_loads to_numeric source response) <= N.
Proof.
  intros Hext Hwf HN.
  destruct (pd_DataFrame (Excel.ensure_equal_length_arrays d)) as [df|e] eqn:Hdf.
  - assert (Hn : nrows df = N).
    { destruct (raw_lengths_reconciled d N Hwf HN) as (lengths & El & _).
      apply (pd_DataFrame_nrows_lists (map (reconcile_entry N) d) df N lengths); [|exact El].
      now rewrite <- (ensure_dominant d N Hwf HN). }
    rewrite <- Hn.
    now apply (process_pdf_nrows_le json_loads to_numeric source response d df).
  - unfold Excel.process_pdf, Excel.process_response. rewrite Hext, Hdf. simpl. lia.
Qed.

Lemma process_pdf_rows_bounded_witness :
  nrows (Excel.process_pdf sample_json_loads sample_to_numeric "invoice.pdf"
           sample_invoice_object) <= 2.
Proof.
  apply (process_pdf_rows_bounded sample_json_loads sample_to_numeric "invoice.pdf"
           sample_invoice_object sample_invoice_dict 2).
  - reflexivity.
  - wf_dict_tac.
  - reflexivity.
Defined.

Lemma extract_has_product (json_loads : string -> option dict) (response : string)
    (d : dict) :
  Excel.extract_json_from_response json_loads response = Some d ->
  exists v, dict_get d "Product" = Some v /\ truthy v = true.
Proof.
  unfold Excel.extract_json_from_response, dict_contains, truthy_at.
  destruct (re_search_braces response) as [m|]; [|discriminate].
  destruct (json_loads m) as [d'|]; [|discriminate].
  destruct (dict_get d' "Product") as [v|] eqn:Ev; [|discriminate].
  destruct (truthy v) eqn:Et; [|discriminate].
  intros [= <-]. now exists v.
Qed.

(** X7. A document whose extraction has no list with an element (a scalar
    Product, every list empty) and no object-valued field yields no row. *)
Theorem process_pdf_no_rows_without_elements (json_loads : string -> option dict)
    (to_numeric : json -> number) (source response : string) (d : dict) :
  Excel.extract_json_from_response json_loads response = Some d ->
  wf_dict d ->
  (forall key items, dict_get d key = Some (JArr items) -> items = []) ->
  (forall key fields, dict_get d key <> Some (JObj fields)) ->
  nrows (Excel.process_pdf json_loads to_numeric source response) = 0.
Proof.
  intros Hext Hwf Hempty Hobj.
  assert (Hens : Excel.ensure_equal_length_arrays d = d)
    by now apply ensure_degenerate, non_empty_lengths_without_elements.
  destruct (pd_DataFrame d) as [df|e] eqn:Hdf.
  - assert (Hn : nrows df = 0).
    { destruct (raw_lengths d) as [|n lengths] eqn:El.
      - exfalso. unfold pd_DataFrame in Hdf. destruct d as [|kv d']; [|].
        + destruct (extract_has_product json_loads response [] Hext) as (v & Hv & _).
          discriminate Hv.
        + rewrite El, (dict_indexes_nil _ (no_objects_In _ Hwf Hobj)) in Hdf. discriminate.
      - rewrite (pd_DataFrame_nrows_lists d df n lengths Hdf El).
        assert (Hin : In n (raw_lengths d)) by (rewrite El; now left).
        unfold raw_lengths in Hin. apply in_flat_map in Hin.
        destruct Hin as ([k v] & Hkv & Hn). cbn [snd] in Hn.
        destruct v; try (now destruct Hn). destruct Hn as [<-|[]].
        now rewrite (Hempty k items (In_dict_get _ _ _ Hwf Hkv)). }
    pose proof (process_pdf_nrows_le json_loads to_numeric source response d df Hext) as H.
    rewrite Hens in H. specialize (H Hdf). lia.
  - unfold Excel.process_pdf, Excel.process_response. rewrite Hext, Hens, Hdf. reflexivity.
Qed.

Lemma process_pdf_no_rows_without_elements_witness :
  nrows (Excel.process_pdf scalar_product_loads sample_to_numeric "invoice.pdf"
           scalar_product_object) = 0.
Proof.
  apply (process_pdf_no_rows_without_elements scalar_product_loads sample_to_numeric
           "invoice.pdf" scalar_product_object scalar_product_dict).
  - reflexivity.
  - wf_dict_tac.
  - intros key items. cbn [scalar_product_dict dict_get].
    destruct (String.eqb key "Product"); [discriminate|].
    destruct (String.eqb key "Total"); [now intros [= <-]|discriminate].
  - intros key fields. cbn [scalar_product_dict dict_get].
    destruct (String.eqb key "Product"); [discriminate|].
    destruct (String.eqb key "Total"); discriminate.
Defined.

(** ** The columns of the rows a document yields *)

Lemma select_repeat {A : Type} (mask : list bool) (x : A) (n : nat) :
  select mask (repeat x n) = repeat x (List.length (select mask (seq 0 n))).
Proof.
  rewrite (select_seq_nth x mask (repeat x n) 0), repeat_length.
  induction (select mask (seq 0 n)) as [|i idx IH]; [reflexivity|].
  cbn [map List.length repeat]. now rewrite IH, nth_repeat.
Qed.

Lemma row_number_cell (df : DataFrame) (key : string) (c : column) (row : dict) :
  wf_frame df ->
  lookup_column (columns df) key = Some c ->
  numeric_column c = true ->
  In row (rows df) ->
  exists v u, dict_get row key = Some v /\ number_of_cell v = Some u.
Proof.
  intros Hwf Hc Hnum Hrow. unfold rows in Hrow. apply in_map_iff in Hrow.
  destruct Hrow as (i & <- & Hi). apply in_seq in Hi.
  rewrite dict_get_row_at, Hc. cbn [option_map].
  assert (Hlen : col_length c = nrows df).
  { unfold wf_frame in Hwf. rewrite Forall_forall in Hwf.
    apply (Hwf _ (lookup_column_In _ _ _ Hc)). }
  eexists. eexists. split; [reflexivity|].
  apply number_float_of_cell; [exact Hnum|lia].
Qed.

Lemma lookup_numeric_before_clean (to_numeric : json -> number) (df : DataFrame)
    (source key : string) (c : column) :
  In key ["Qty"; "U.Price"; "Total"] ->
  lookup_column
    (columns (setitem (with_marked_up_price (Excel.convert_numeric_columns to_numeric df))
       "Source"
       (ObjCol (repeat (JStr source)
          (nrows (with_marked_up_price (Excel.convert_numeric_columns to_numeric df)))))))
    key = Some c ->
  numeric_column c = true.
Proof.
  intros Hkey.
  assert (H1 : key <> "Source") by (intros ->; simpl in Hkey; intuition discriminate).
  assert (H2 : key <> "Marked_Up_Price") by (intros ->; simpl in Hkey; intuition discriminate).
  rewrite lookup_before_clean by exact H1.
  rewrite lookup_with_marked_up_price_other by exact H2.
  rewrite convert_numeric_columns_lookup.
  assert (E : str_in key ["Qty"; "U.Price"; "Total"] = true).
  { simpl in Hkey. destruct Hkey as [<-|[<-|[<-|[]]]]; reflexivity. }
  rewrite E. destruct (lookup_column (columns df) key) as [c'|]; [|discriminate].
  intros [= <-]. apply to_numeric_column_numeric.
Qed.

(** X8. Every row a document yields carries the name of the document in its
    Source field. *)
Theorem process_pdf_rows_source (json_loads : string -> option dict)
    (to_numeric : json -> number) (source response : string) (row : dict) :
  In row (rows (Excel.process_pdf json_loads to_numeric source response)) ->
  dict_get row "Source" = Some (JStr source).
Proof.
  intros Hrow.
  destruct (process_pdf_cases json_loads to_numeric source response)
    as [E|(d & df & mask & _ & _ & E)]; rewrite E in Hrow; [destruct Hrow|].
  unfold rows in Hrow. apply in_map_iff in Hrow.
  destruct Hrow as (i & <- & Hi). apply in_seq in Hi. cbn [select_rows nrows setitem] in Hi.
  rewrite dict_get_row_at, lookup_select_rows. cbn [setitem columns].
  rewrite lookup_set_column, String.eqb_refl. cbn [option_map select_column cells_of].
  rewrite select_repeat.
  rewrite (nth_indep _ JNull (JStr source)) by (rewrite repeat_length; lia).
  now rewrite nth_repeat.
Qed.

Lemma process_pdf_rows_source_witness :
  dict_get
    (row_at (Excel.process_pdf sample_json_loads sample_to_numeric "invoice.pdf"
               sample_invoice_object) 1)
    "Source" = Some (JStr "invoice.pdf").
Proof.
  apply (process_pdf_rows_source sample_json_loads sample_to_numeric "invoice.pdf"
           sample_invoice_object).
  right. now left.
Defined.

(** X9. In every row a document yields Product and Total are present, and
    Qty, U.Price and Total hold a number wherever they are present: an
    integer, a float, NaN included, or a boolean, and never a string, a list,
    a dict or [None], whatever the model wrote in the field. *)
Theorem process_pdf_rows_numeric (json_loads : string -> option dict)
    (to_numeric : json -> number) (source response : string) (row : dict) :
  In row (rows (Excel.process_pdf json_loads to_numeric source response)) ->
  (exists product, dict_get row "Product" = Some product)
  /\ (exists total u, dict_get row "Total" = Some total /\ number_of_cell total = Some u)
  /\ (forall key v, In key ["Qty"; "U.Price"; "Total"] -> dict_get row key = Some v ->
      exists u, number_of_cell v = Some u).
Proof.
  intros Hrow.
  pose proof (process_pdf_wf json_loads to_numeric source response) as Hwf.
  assert (Hnum : forall key c, In key ["Qty"; "U.Price"; "Total"] ->
            lookup_column
              (columns (Excel.process_pdf json_loads to_numeric source response)) key = Some c ->
            numeric_column c = true).
  { intros key c Hkey Hc.
    destruct (process_pdf_cases json_loads to_numeric source response)
      as [E|(d & df & mask & _ & _ & E)]; rewrite E in Hc; [discriminate|].
    rewrite lookup_select_rows in Hc.
    destruct (lookup_column _ key) as [c'|] eqn:Ec'; [|discriminate].
    pose proof (lookup_numeric_before_clean to_numeric df source key c' Hkey Ec') as Hc'.
    injection Hc as <-. now rewrite numeric_select_column. }
  assert (Hhas : (exists p, lookup_column
                    (columns (Excel.process_pdf json_loads to_numeric source response))
                    "Product" = Some p)
                 /\ lookup_column
                      (columns (Excel.process_pdf json_loads to_numeric source response))
                      "Total" <> None).
  { unfold Excel.process_pdf in *.
    destruct (Excel.process_response json_loads to_numeric source response) as [out|e] eqn:E;
      [|destruct Hrow].
    apply process_response_Ok in E.
    destruct E as [[_ ->]|(d & df & _ & _ & Hclean)]; [destruct Hrow|].
    pose proof (clean_dataframe_Ok _ _ Hclean) as [[mask ->] Htotal].
    rewrite !lookup_select_rows. split.
    - unfold Excel.clean_dataframe, getitem in Hclean.
      destruct (lookup_column _ "Product") as [p|]; [|discriminate]. eexists. reflexivity.
    - destruct (lookup_column _ "Total"); [discriminate|contradiction]. }
  destruct Hhas as [[p Hp] Ht]. split; [|split].
  - unfold rows in Hrow. apply in_map_iff in Hrow. destruct Hrow as (i & <- & _).
    rewrite dict_get_row_at, Hp. eexists. reflexivity.
  - destruct (lookup_column _ "Total") as [t|] eqn:Et; [|contradiction].
    apply (row_number_cell _ "Total" t row Hwf Et); [|exact Hrow].
    apply (Hnum "Total" t); [simpl; tauto|exact Et].
  - intros key v Hkey Hv.
    destruct (lookup_column
                (columns (Excel.process_pdf json_loads to_numeric source response)) key)
      as [c|] eqn:Ec.
    + destruct (row_number_cell _ key c row Hwf Ec (Hnum key c Hkey Ec) Hrow)
        as (v' & u & Hv' & Hu).
      exists u. congruence.
    + unfold rows in Hrow. apply in_map_iff in Hrow. destruct Hrow as (i & <- & _).
      rewrite dict_get_row_at, Ec in Hv. discriminate.
Qed.

Lemma process_pdf_rows_numeric_witness :
  exists total u,
    dict_get
      (row_at (Excel.process_pdf sample_json_loads sample_to_numeric "invoice.pdf"
                 sample_invoice_object) 1)
      "Total" = Some total
    /\ number_of_cell total = Some u.
Proof.
  apply (process_pdf_rows_numeric sample_json_loads sample_to_numeric "invoice.pdf"
           sample_invoice_object).
  right. now left.
Defined.

(** ** The row cleaner: what it keeps *)

(** X10. [clean_dataframe] only removes rows: when it returns, the columns
    are those of its argument, the frame is still rectangular, it has no more
    rows, and every row of the result is a row of the argument. *)
Theorem clean_dataframe_only_removes (df out : DataFrame) :
  wf_frame df ->
  Excel.clean_dataframe df = Ok out ->
  map fst (columns out) = map fst (columns df)
  /\ wf_frame out
  /\ nrows out <= nrows df
  /\ (forall row, In row (rows out) -> In row (rows df)).
Proof.
  intros Hwf Hclean. destruct (clean_dataframe_Ok df out Hclean) as [[mask ->] _].
  split; [|split; [|split]].
  - cbn [select_rows columns]. rewrite map_map. reflexivity.
  - now apply wf_select_rows.
  - cbn [select_rows nrows]. etransitivity; [apply select_length_le|].
    now rewrite length_seq.
  - intros row. rewrite rows_select_rows by exact Hwf. apply select_In.
Qed.

Lemma clean_dataframe_only_removes_witness :
  map fst (columns {| nrows := 1;
                      columns := [("Product", ObjCol [JStr ""]);
                                  ("Total", NumCol [5%float])] |})
  = map fst (columns example_3_frame).
Proof.
  apply (clean_dataframe_only_removes example_3_frame).
  - repeat constructor.
  - reflexivity.
Defined.






(** ** The sort: what it keeps *)

(** X12. The sort of the combined frame keeps every row.  For a frame with
    a Date and a Product column the sort succeeds when no cell of the two
    columns is a list or a dict, and raises [TypeError] when one is; whenever
    it returns, the rows after the sort are a permutation of the rows before,
    under the same columns. *)
Theorem sort_combined_permutes (other_ltb : json -> json -> bool) (df : DataFrame)
    (date product : column) :
  wf_frame df ->
  lookup_column (columns df) "Date" = Some date ->
  lookup_column (columns df) "Product" = Some product ->
  (factorizable date && factorizable product = true ->
   exists sorted, Excel.sort_combined other_ltb df = Ok sorted)
  /\ (factorizable date && factorizable product = false ->
      Excel.sort_combined other_ltb df = Raise TypeError)
  /\ (forall sorted, Excel.sort_combined other_ltb df = Ok sorted ->
      Permutation (rows sorted) (rows df)
      /\ map fst (columns sorted) = map fst (columns df)
      /\ nrows sorted = nrows df).
Proof.
  intros Hwf Hd Hp. unfold Excel.sort_combined, sort_values, has_column. rewrite Hd.
  cbn [mapM]. unfold getitem. rewrite Hd, Hp. cbn [bind forallb]. rewrite andb_true_r.
  set (indexer := sort_indexer (rows_ltb other_ltb [date; product]) (seq 0 (nrows df))).
  assert (Hperm : Permutation indexer (seq 0 (nrows df))) by apply sort_indexer_perm.
  clearbody indexer.
  destruct (factorizable date && factorizable product).
  - split; [intros _; eexists; reflexivity|]. split; [discriminate|].
    intros sorted [= <-].
    split; [|split; [|reflexivity]].
    + rewrite rows_take; [now apply Permutation_map|exact Hwf| |].
      * rewrite (Permutation_length Hperm). apply length_seq.
      * apply Forall_forall. intros i Hi.
        apply (Permutation_in _ Hperm) in Hi. apply in_seq in Hi. lia.
    + cbn [columns]. now rewrite map_map.
  - split; [discriminate|]. split; [reflexivity|]. discriminate.
Qed.

Lemma sort_combined_permutes_witness :
  exists sorted,
    Excel.sort_combined no_other_order
      (Excel.process_pdf sample_json_loads sample_to_numeric "invoice.pdf"
         sample_invoice_object) = Ok sorted.
Proof.
  eapply (sort_combined_permutes no_other_order
            (Excel.process_pdf sample_json_loads sample_to_numeric "invoice.pdf"
               sample_invoice_object)).
  - apply process_pdf_wf.
  - reflexivity.
  - reflexivity.
  - reflexivity.
Defined.

(** ** The retry loops *)

Lemma calls_cons_called (attempt : nat) (events : list event) :
  calls (Called attempt :: events) = S (calls events).
Proof. reflexivity. Qed.

Lemma calls_app (a b : list event) : calls (a ++ b) = calls a + calls b.
Proof. unfold calls. now rewrite filter_app, length_app. Qed.

Lemma seconds_slept_app (a b : list event) :
  seconds_slept (a ++ b) = seconds_slept a + seconds_slept b.
Proof. unfold seconds_slept. now rewrite map_app, list_sum_app. Qed.

Section GeminiRetries.

Variable generate : nat -> option string.
Variables retries delay : nat.

Lemma gemini_attempts_success (remaining attempt k : nat) (text : string) :
  attempt + remaining = retries ->
  attempt <= k < retries ->
  generate k = Some text ->
  (forall j, attempt <= j < k -> generate j = None) ->
  fst (Gemini.gemini_attempts generate retries delay attempt remaining) = Some text
  /\ calls (snd (Gemini.gemini_attempts generate retries delay attempt remaining))
     = S (k - attempt)
  /\ seconds_slept (snd (Gemini.gemini_attempts generate retries delay attempt remaining))
     = delay * (k - attempt).
Proof.
  revert attempt. induction remaining as [|remaining IH]; intros attempt Hsum Hk Hgen Hfail;
    [lia|].
  cbn [Gemini.gemini_attempts].
  destruct (Nat.eq_dec attempt k) as [->|Hne].
  - rewrite Hgen. cbn. rewrite Nat.sub_diag. repeat split; lia.
  - rewrite (Hfail attempt) by lia.
    destruct (IH (S attempt)) as (H1 & H2 & H3); try assumption; try lia.
    { intros j Hj. apply Hfail. lia. }
    cbn [fst snd]. split; [exact H1|].
    destruct (Nat.ltb_spec attempt (retries - 1)) as [_|Hge]; [|lia].
    cbn [app]. split.
    + rewrite calls_cons_called. change (calls (Printed attempt :: Slept delay :: ?l)) with (calls l).
      rewrite H2. lia.
    + change (seconds_slept (Called attempt :: Printed attempt :: Slept delay :: ?l))
        with (delay + seconds_slept l).
      rewrite H3. replace (k - attempt) with (S (k - S attempt)) by lia. lia.
Qed.

Lemma gemini_attempts_failure (remaining attempt : nat) :
  attempt + remaining = retries ->
  (forall j, attempt <= j < retries -> generate j = None) ->
  fst (Gemini.gemini_attempts generate retries delay attempt remaining) = None
  /\ calls (snd (Gemini.gemini_attempts generate retries delay attempt remaining)) = remaining
  /\ seconds_slept (snd (Gemini.gemini_attempts generate retries delay attempt remaining))
     = delay * (remaining - 1).
Proof.
  revert attempt. induction remaining as [|remaining IH]; intros attempt Hsum Hfail.
  - cbn. repeat split. lia.
  - cbn [Gemini.gemini_attempts]. rewrite (Hfail attempt) by lia.
    destruct (IH (S attempt)) as (H1 & H2 & H3); try lia.
    { intros j Hj. apply Hfail. lia. }
    cbn [fst snd]. split; [exact H1|].
    destruct (Nat.ltb_spec attempt (retries - 1)) as [Hlt|Hge]; cbn [app].
    + split.
      * rewrite calls_cons_called.
        change (calls (Printed attempt :: Slept delay :: ?l)) with (calls l). now rewrite H2.
      * change (seconds_slept (Called attempt :: Printed attempt :: Slept delay :: ?l))
          with (delay + seconds_slept l).
        rewrite H3. destruct remaining; [lia|]. cbn [Nat.sub]. rewrite Nat.sub_0_r. lia.
    + assert (remaining = 0) by lia. subst remaining. split.
      * rewrite calls_cons_called. change (calls (Printed attempt :: ?l)) with (calls l).
        now rewrite H2.
      * change (seconds_slept (Called attempt :: Printed attempt :: ?l))
          with (seconds_slept l).
        rewrite H3. lia.
Qed.

Lemma gemini_attempts_bounds (remaining attempt : nat) :
  attempt + remaining = retries ->
  calls (snd (Gemini.gemini_attempts generate retries delay attempt remaining)) <= remaining
  /\ seconds_slept (snd (Gemini.gemini_attempts generate retries delay attempt remaining))
     <= delay * (remaining - 1).
Proof.
  revert attempt. induction remaining as [|remaining IH]; intros attempt Hsum.
  - cbn. lia.
  - cbn [Gemini.gemini_attempts]. destruct (generate attempt) as [text|].
    + split; [unfold calls; cbn [snd filter List.length]; lia|].
      unfold seconds_slept. cbn [snd map list_sum fold_right]. lia.
    + destruct (IH (S attempt)) as (H2 & H3); [lia|]. cbn [fst snd].
      destruct (Nat.ltb_spec attempt (retries - 1)) as [Hlt|Hge]; cbn [app].
      * split.
        -- rewrite calls_cons_called.
           change (calls (Printed attempt :: Slept delay :: ?l)) with (calls l). lia.
        -- change (seconds_slept (Called attempt :: Printed attempt :: Slept delay :: ?l))
             with (delay + seconds_slept l).
           destruct remaining; [lia|]. cbn [Nat.sub] in *. rewrite Nat.sub_0_r in *. lia.
      * assert (remaining = 0) by lia. subst remaining. split.
        -- rewrite calls_cons_called. change (calls (Printed attempt :: ?l)) with (calls l).
           lia.
        -- change (seconds_slept (Called attempt :: Printed attempt :: ?l))
             with (seconds_slept l).
           cbn [Nat.sub] in *. lia.
Qed.

End GeminiRetries.

Lemma gemini_attempts_none (generate : nat -> option string) (retries delay : nat)
    (remaining attempt : nat) :
  fst (Gemini.gemini_attempts generate retries delay attempt remaining) = None ->
  forall j, attempt <= j < attempt + remaining -> generate j = None.
Proof.
  revert attempt. induction remaining as [|remaining IH]; intros attempt H j Hj; [lia|].
  cbn [Gemini.gemini_attempts] in H.
  destruct (generate attempt) as [text|] eqn:E; [discriminate|]. cbn [fst] in H.
  destruct (Nat.eq_dec j attempt) as [->|Hne]; [exact E|].
  apply (IH (S attempt) H). lia.
Qed.

(** X13. [call_gemini_with_retries] returns the text of the first attempt
    that succeeds: when attempt [k] is the first to succeed, the model has
    been called [k + 1] times and the loop has slept [delay] seconds after
    each of the [k] failures. *)
Theorem call_gemini_first_success (generate : nat -> option string)
    (retries delay k : nat) (text : string) :
  k < retries ->
  generate k = Some text ->
  (forall j, j < k -> generate j = None) ->
  fst (Gemini.call_gemini_with_retries generate retries delay) = Some text
  /\ calls (snd (Gemini.call_gemini_with_retries generate retries delay)) = S k
  /\ seconds_slept (snd (Gemini.call_gemini_with_retries generate retries delay))
     = delay * k.
Proof.
  intros Hk Hgen Hfail. unfold Gemini.call_gemini_with_retries.
  destruct (gemini_attempts_success generate retries delay retries 0 k text)
    as (H1 & H2 & H3); try assumption; try lia.
  { intros j Hj. apply Hfail. lia. }
  rewrite Nat.sub_0_r in *. now repeat split.
Qed.

Lemma call_gemini_first_success_witness :
  fst (Gemini.call_gemini_with_retries third_time_lucky 3 5) = Some "ok"
  /\ calls (snd (Gemini.call_gemini_with_retries third_time_lucky 3 5)) = 3
  /\ seconds_slept (snd (Gemini.call_gemini_with_retries third_time_lucky 3 5)) = 5 * 2.
Proof.
  apply (call_gemini_first_success third_time_lucky 3 5 2 "ok").
  - lia.
  - reflexivity.
  - intros j Hj. unfold third_time_lucky. now apply Nat.ltb_lt in Hj as ->.
Defined.

(** X14. [call_gemini_with_retries] gives up, raising "All retries failed",
    exactly when each of the [retries] attempts fails; it has then called the
    model [retries] times and slept after every failure but the last. *)
Theorem call_gemini_all_fail (generate : nat -> option string) (retries delay : nat) :
  (fst (Gemini.call_gemini_with_retries generate retries delay) = None
   <-> forall j, j < retries -> generate j = None)
  /\ (fst (Gemini.call_gemini_with_retries generate retries delay) = None ->
      calls (snd (Gemini.call_gemini_with_retries generate retries delay)) = retries
      /\ seconds_slept (snd (Gemini.call_gemini_with_retries generate retries delay))
         = delay * (retries - 1)).
Proof.
  unfold Gemini.call_gemini_with_retries.
  assert (Hfail : fst (Gemini.gemini_attempts generate retries delay 0 retries) = None ->
                  forall j, 0 <= j < retries -> generate j = None).
  { intros H j Hj. apply (gemini_attempts_none generate retries delay retries 0 H). lia. }
  split; [split|].
  - intros H j Hj. apply (Hfail H). lia.
  - intros H. apply (gemini_attempts_failure generate retries delay retries 0); [lia|].
    intros j Hj. apply H. lia.
  - intros H.
    destruct (gemini_attempts_failure generate retries delay retries 0) as (_ & H2 & H3);
      [lia|now apply Hfail|]. now split.
Qed.

(** X15. Whatever the model does, [call_gemini_with_retries] calls it at most
    [retries] times and sleeps at most [delay * (retries - 1)] seconds; with
    [retries = 0] it calls nothing and gives up at once. *)
Theorem call_gemini_bounds (generate : nat -> option string) (retries delay : nat) :
  calls (snd (Gemini.call_gemini_with_retries generate retries delay)) <= retries
  /\ seconds_slept (snd (Gemini.call_gemini_with_retries generate retries delay))
     <= delay * (retries - 1)
  /\ Gemini.call_gemini_with_retries generate 0 delay = (None, []).
Proof.
  unfold Gemini.call_gemini_with_retries.
  destruct (gemini_attempts_bounds generate retries delay retries 0) as [H1 H2]; [lia|].
  repeat split; assumption.
Qed.

(** ** The retry loop of the Claude driver *)

Lemma first_block_text_spec (content : list (option string)) :
  match Excel.first_block_text content with
  | Some text =>
      exists before rest,
        content = before ++ Some text :: rest /\ Forall (fun b => b = None) before
  | None => Forall (fun b => b = None) content
  end.
Proof.
  induction content as [|[text|] content IH]; cbn [Excel.first_block_text].
  - constructor.
  - exists [], content. split; [reflexivity|constructor].
  - destruct (Excel.first_block_text content) as [text|].
    + destruct IH as (before & rest & -> & Hb).
      exists (None :: before), rest. split; [reflexivity|now constructor].
    + now constructor.
Qed.

(** X16. From the content blocks of a message the driver takes the text of
    the first block that has one, and fails when no block has text or the
    content is empty; the separate look at [content[0]] changes nothing. *)
Theorem text_of_message_first_text (content : list (option string)) :
  Excel.text_of_message content = Excel.first_block_text content
  /\ (forall text, Excel.text_of_message content = Some text <->
      exists before rest,
        content = before ++ Some text :: rest /\ Forall (fun b => b = None) before)
  /\ (Excel.text_of_message content = None <-> Forall (fun b => b = None) content).
Proof.
  assert (E : Excel.text_of_message content = Excel.first_block_text content).
  { now destruct content as [|[text|] content]. }
  split; [exact E|]. rewrite E. pose proof (first_block_text_spec content) as H.
  split.
  - intros text. split.
    + intros Ht. rewrite Ht in H. exact H.
    + intros (before & rest & -> & Hb). clear H E.
      induction Hb as [|b before -> _ IH]; [reflexivity|exact IH].
  - split.
    + intros Hn. now rewrite Hn in H.
    + intros Hall. clear H E. induction Hall as [|b l -> _ IH]; [reflexivity|exact IH].
Qed.

Section ClaudeRetries.

Variable create : nat -> option (list (option string)).
Variables retries delay : nat.

Lemma claude_attempts_success (remaining attempt k : nat) (text : string) :
  attempt + remaining = retries ->
  attempt <= k < retries ->
  claude_attempt create k = Some text ->
  (forall j, attempt <= j < k -> claude_attempt create j = None) ->
  fst (Excel.claude_attempts create retries delay attempt remaining) = Some text
  /\ calls (snd (Excel.claude_attempts create retries delay attempt remaining))
     = S (k - attempt)
  /\ sleeps (snd (Excel.claude_attempts create retries delay attempt remaining))
     = map (fun j => delay * (j + 1)) (seq attempt (k - attempt)).
Proof.
  revert attempt. induction remaining as [|remaining IH]; intros attempt Hsum Hk Hgen Hfail;
    [lia|].
  cbn [Excel.claude_attempts]. fold (claude_attempt create attempt).
  destruct (Nat.eq_dec attempt k) as [->|Hne].
  - rewrite Hgen. cbn [fst snd]. rewrite Nat.sub_diag. repeat split.
  - rewrite (Hfail attempt) by lia.
    destruct (IH (S attempt)) as (H1 & H2 & H3); try assumption; try lia.
    { intros j Hj. apply Hfail. lia. }
    cbn [fst snd]. split; [exact H1|].
    destruct (Nat.ltb_spec attempt (retries - 1)) as [_|Hge]; [|lia].
    cbn [app]. split.
    + rewrite calls_cons_called.
      change (calls (Printed attempt :: Slept ?s :: ?l)) with (calls l).
      rewrite H2. lia.
    + change (sleeps (Called attempt :: Printed attempt :: Slept ?s :: ?l))
        with (s :: sleeps l).
      rewrite H3. replace (k - attempt) with (S (k - S attempt)) by lia. reflexivity.
Qed.

Lemma claude_attempts_failure (remaining attempt : nat) :
  attempt + remaining = retries ->
  (forall j, attempt <= j < retries -> claude_attempt create j = None) ->
  fst (Excel.claude_attempts create retries delay attempt remaining) = None
  /\ calls (snd (Excel.claude_attempts create retries delay attempt remaining)) = remaining
  /\ sleeps (snd (Excel.claude_attempts create retries delay attempt remaining))
     = map (fun j => delay * (j + 1)) (seq attempt (remaining - 1)).
Proof.
  revert attempt. induction remaining as [|remaining IH]; intros attempt Hsum Hfail.
  - repeat split.
  - cbn [Excel.claude_attempts]. fold (claude_attempt create attempt).
    rewrite (Hfail attempt) by lia.
    destruct (IH (S attempt)) as (H1 & H2 & H3); try lia.
    { intros j Hj. apply Hfail. lia. }
    cbn [fst snd]. split; [exact H1|].
    destruct (Nat.ltb_spec attempt (retries - 1)) as [Hlt|Hge]; cbn [app].
    + split.
      * rewrite calls_cons_called.
        change (calls (Printed attempt :: Slept ?s :: ?l)) with (calls l). now rewrite H2.
      * change (sleeps (Called attempt :: Printed attempt :: Slept ?s :: ?l))
          with (s :: sleeps l).
        rewrite H3. destruct remaining; [lia|].
        cbn [Nat.sub]. rewrite !Nat.sub_0_r. reflexivity.
    + assert (remaining = 0) by lia. subst remaining. split.
      * rewrite calls_cons_called. change (calls (Printed attempt :: ?l)) with (calls l).
        now rewrite H2.
      * change (sleeps (Called attempt :: Printed attempt :: ?l)) with (sleeps l).
        rewrite H3. reflexivity.
Qed.

Lemma claude_attempts_none (remaining attempt : nat) :
  fst (Excel.claude_attempts create retries delay attempt remaining) = None ->
  forall j, attempt <= j < attempt + remaining -> claude_attempt create j = None.
Proof.
  revert attempt. induction remaining as [|remaining IH]; intros attempt H j Hj; [lia|].
  cbn [Excel.claude_attempts] in H. fold (claude_attempt create attempt) in H.
  destruct (claude_attempt create attempt) as [text|] eqn:E; [discriminate|]. cbn [fst] in H.
  destruct (Nat.eq_dec j attempt) as [->|Hne]; [exact E|].
  apply (IH (S attempt) H). lia.
Qed.

End ClaudeRetries.

(** X17. [call_claude_with_retries] returns the text of the first attempt
    that succeeds.  When attempt [k] is the first to succeed the model has
    been called [k + 1] times, and the sleeps after the failures are
    [delay], [2 * delay], ..., [k * delay]: the wait grows by [delay] at each
    failure. *)
Theorem call_claude_first_success (create : nat -> option (list (option string)))
    (retries delay k : nat) (text : string) :
  k < retries ->
  claude_attempt create k = Some text ->
  (forall j, j < k -> claude_attempt create j = None) ->
  fst (Excel.call_claude_with_retries create retries delay) = Some text
  /\ calls (snd (Excel.call_claude_with_retries create retries delay)) = S k
  /\ sleeps (snd (Excel.call_claude_with_retries create retries delay))
     = map (fun j => delay * (j + 1)) (seq 0 k).
Proof.
  intros Hk Hgen Hfail. unfold Excel.call_claude_with_retries.
  destruct (claude_attempts_success create retries delay retries 0 k text)
    as (H1 & H2 & H3); try assumption; try lia.
  { intros j Hj. apply Hfail. lia. }
  rewrite Nat.sub_0_r in *. now repeat split.
Qed.

Lemma call_claude_first_success_witness :
  fst (Excel.call_claude_with_retries third_time_lucky_message 3 5) = Some "ok"
  /\ calls (snd (Excel.call_claude_with_retries third_time_lucky_message 3 5)) = 3
  /\ sleeps (snd (Excel.call_claude_with_retries third_time_lucky_message 3 5))
     = map (fun j => 5 * (j + 1)) (seq 0 2).
Proof.
  apply (call_claude_first_success third_time_lucky_message 3 5 2 "ok").
  - lia.
  - reflexivity.
  - intros j Hj. unfold claude_attempt, third_time_lucky_message.
    now apply Nat.ltb_lt in Hj as ->.
Defined.

(** X18. [call_claude_with_retries] gives up, raising "All retries failed",
    exactly when each of the [retries] attempts fails (the call raises, or the
    message has no text); it has then called the model [retries] times and
    slept [delay], [2 * delay], ... after every failure but the last. *)
Theorem call_claude_all_fail (create : nat -> option (list (option string)))
    (retries delay : nat) :
  (fst (Excel.call_claude_with_retries create retries delay) = None
   <-> forall j, j < retries -> claude_attempt create j = None)
  /\ (fst (Excel.call_claude_with_retries create retries delay) = None ->
      calls (snd (Excel.call_claude_with_retries create retries delay)) = retries
      /\ sleeps (snd (Excel.call_claude_with_retries create retries delay))
         = map (fun j => delay * (j + 1)) (seq 0 (retries - 1))).
Proof.
  unfold Excel.call_claude_with_retries.
  assert (Hfail : fst (Excel.claude_attempts create retries delay 0 retries) = None ->
                  forall j, 0 <= j < retries -> claude_attempt create j = None).
  { intros H j Hj. apply (claude_attempts_none create retries delay retries 0 H). lia. }
  split; [split|].
  - intros H j Hj. apply (Hfail H). lia.
  - intros H. apply (claude_attempts_failure create retries delay retries 0); [lia|].
    intros j Hj. apply H. lia.
  - intros H.
    destruct (claude_attempts_failure create retries delay retries 0) as (_ & H2 & H3);
      [lia|now apply Hfail|]. now split.
Qed.

(** ** File names *)

Lemma lower_char_idem (c : ascii) : lower_char (lower_char c) = lower_char c.
Proof. destruct c as [[] [] [] [] [] [] [] []]; reflexivity. Qed.

Lemma lower_char_not_upper (c : ascii) :
  let n := nat_of_ascii (lower_char c) in (65 <=? n) && (n <=? 90) = false.
Proof. destruct c as [[] [] [] [] [] [] [] []]; reflexivity. Qed.

Lemma str_lower_idem (s : string) : str_lower (str_lower s) = str_lower s.
Proof.
  induction s as [|c s IH]; [reflexivity|].
  cbn [str_lower]. now rewrite lower_char_idem, IH.
Qed.

Lemma endswith_refl (s : string) : endswith s s = true.
Proof. destruct s; cbn [endswith]; now rewrite String.eqb_refl. Qed.

Lemma endswith_spec (s suffix : string) :
  endswith s suffix = true <-> exists before, s = String.append before suffix.
Proof.
  split.
  - induction s as [|c s IH]; cbn [endswith].
    + destruct (String.eqb_spec EmptyString suffix) as [<-|_]; [|discriminate].
      intros _. now exists EmptyString.
    + destruct (String.eqb_spec (String c s) suffix) as [<-|_].
      * intros _. now exists EmptyString.
      * intros H. destruct (IH H) as [before ->]. now exists (String c before).
  - intros [before ->]. induction before as [|c before IH]; [apply endswith_refl|].
    cbn [String.append endswith]. rewrite IH. now destruct (String.eqb _ suffix).
Qed.

(** Two suffixes of one string: one is a suffix of the other. *)
Lemma endswith_two (s a b : string) :
  endswith s a = true -> endswith s b = true ->
  endswith a b = true \/ endswith b a = true.
Proof.
  induction s as [|c s IH]; cbn [endswith].
  - destruct (String.eqb_spec EmptyString a) as [<-|_]; [|discriminate].
    destruct (String.eqb_spec EmptyString b) as [<-|_]; [|discriminate]. now left.
  - destruct (String.eqb_spec (String c s) a) as [<-|Ha].
    + intros _ Hb. left. cbn [endswith]. exact Hb.
    + destruct (String.eqb_spec (String c s) b) as [<-|Hb].
      * intros Hsa _. right. cbn [endswith].
        destruct (String.eqb_spec (String c s) a); [contradiction|exact Hsa].
      * apply IH.
Qed.

Lemma endswith_exclusive (s a b : string) :
  endswith a b = false -> endswith b a = false ->
  endswith s a = true -> endswith s b = false.
Proof.
  intros Hab Hba Ha. destruct (endswith s b) eqn:Hb; [|reflexivity].
  destruct (endswith_two s a b Ha Hb); congruence.
Qed.

Lemma endswith_lower_has_no_upper (s : string) :
  endswith (str_lower s) ".PDF" = false.
Proof.
  destruct (endswith (str_lower s) ".PDF") eqn:E; [|reflexivity].
  exfalso. apply endswith_spec in E. destruct E as [before E].
  revert before E. induction s as [|c s IH]; intros before E.
  - destruct before; discriminate E.
  - cbn [str_lower] in E. destruct before as [|b before].
    + cbn [String.append] in E. injection E as _ E.
      destruct s as [|c' s]; [discriminate E|]. cbn [str_lower] in E.
      injection E as E _. pose proof (lower_char_not_upper c') as H.
      rewrite E in H. discriminate H.
    + cbn [String.append] in E. injection E as _ E. now apply (IH before).
Qed.

(** X19. [process_folder] chooses the handler of a file from its name in
    lower case; the entry ['.PDF'] of the tuple of PDF suffixes never
    matches, a file is handled as a PDF exactly when its lower-cased name
    ends in [.pdf], and two names that differ only in case are handled
    alike. *)
Theorem dispatch_ignores_case (file : string) :
  endswith (str_lower file) ".PDF" = false
  /\ (Excel.dispatch file = UsePdf <-> endswith (str_lower file) ".pdf" = true)
  /\ Excel.dispatch (str_lower file) = Excel.dispatch file
  /\ Gemini.dispatch (str_lower file) = Gemini.dispatch file.
Proof.
  pose proof (endswith_lower_has_no_upper file) as Hup.
  split; [exact Hup|]. split; [|split].
  - unfold Excel.dispatch, endswith_any. cbn [existsb]. rewrite Hup.
    destruct (endswith (str_lower file) ".pdf"); cbn [orb]; [tauto|].
    split; [|discriminate].
    destruct (_ || _); discriminate.
  - unfold Excel.dispatch. now rewrite str_lower_idem.
  - unfold Gemini.dispatch. now rewrite str_lower_idem.
Qed.

(** X20. The two programs handle every file alike but the GIF images: a file
    whose lower-cased name ends in [.gif] is sent to [process_image] by
    [OCR_Invoices_Output_Excel.py] and skipped as unsupported by
    [OCR_Invoices_Output_Excel_Gemini.py]; on every other name the two tests
    agree. *)
Theorem dispatch_differs_on_gif (file : string) :
  (endswith (str_lower file) ".gif" = true ->
   Excel.dispatch file = UseImage /\ Gemini.dispatch file = Unsupported)
  /\ (endswith (str_lower file) ".gif" = false ->
      Excel.dispatch file = Gemini.dispatch file).
Proof.
  unfold Excel.dispatch, Gemini.dispatch, endswith_any. cbn [existsb]. split.
  - intros Hgif. rewrite Hgif.
    rewrite (endswith_exclusive _ ".gif" ".pdf" eq_refl eq_refl Hgif).
    rewrite (endswith_exclusive _ ".gif" ".PDF" eq_refl eq_refl Hgif).
    rewrite (endswith_exclusive _ ".gif" ".jpg" eq_refl eq_refl Hgif).
    rewrite (endswith_exclusive _ ".gif" ".jpeg" eq_refl eq_refl Hgif).
    rewrite (endswith_exclusive _ ".gif" ".png" eq_refl eq_refl Hgif).
    rewrite (endswith_exclusive _ ".gif" ".webp" eq_refl eq_refl Hgif).
    rewrite (endswith_exclusive _ ".gif" ".heic" eq_refl eq_refl Hgif).
    split; reflexivity.
  - intros Hgif. rewrite Hgif. now rewrite !orb_false_r.
Qed.

Lemma dispatch_differs_on_gif_witness :
  Excel.dispatch "Scan.GIF" = UseImage /\ Gemini.dispatch "Scan.GIF" = Unsupported.
Proof.
  apply (dispatch_differs_on_gif "Scan.GIF"). reflexivity.
Defined.

Lemma rfind_append_dot (base ext : string) :
  rfind "."%char ext = None ->
  rfind "."%char (String.append base (String "." ext)) = Some (String.length base).
Proof.
  intros Hext. induction base as [|c base IH].
  - cbn [String.append rfind String.length]. now rewrite Hext.
  - cbn [String.append rfind String.length]. now rewrite IH.
Qed.

Lemma substring_append_prefix (base rest : string) :
  substring 0 (String.length base) (String.append base rest) = base.
Proof.
  induction base as [|c base IH]; cbn [String.append String.length substring].
  - apply substring_0_0.
  - now rewrite IH.
Qed.

Lemma length_append (a b : string) :
  String.length (String.append a b) = String.length a + String.length b.
Proof. induction a as [|c a IH]; cbn [String.append String.length]; [reflexivity|now rewrite IH]. Qed.

Lemma stem_drops_extension (base ext : string) :
  base <> EmptyString -> ext <> EmptyString -> rfind "."%char ext = None ->
  stem (String.append base (String "." ext)) = base.
Proof.
  intros Hbase Hext Hdot. unfold stem. rewrite (rfind_append_dot base ext Hdot).
  rewrite length_append. cbn [String.length].
  assert (H1 : 0 < String.length base) by (destruct base; [congruence|simpl; lia]).
  assert (H2 : 0 < String.length ext) by (destruct ext; [congruence|simpl; lia]).
  destruct (Nat.ltb_spec 0 (String.length base)) as [_|]; [|lia].
  destruct (Nat.ltb_spec (String.length base)
              (String.length base + S (String.length ext) - 1)) as [_|]; [|lia].
  cbn [andb]. apply substring_append_prefix.
Qed.

(** X21. The spreadsheet of a document is named after the stem of the file:
    for a name [base.ext] with a non-empty base and an extension without a
    dot the stem is [base], so two files of the folder that differ only in
    their extension are written to the same path, and the later one
    replaces the earlier. *)
Theorem output_path_ignores_extension (output_folder base ext1 ext2 : string) :
  base <> EmptyString ->
  ext1 <> EmptyString -> rfind "."%char ext1 = None ->
  ext2 <> EmptyString -> rfind "."%char ext2 = None ->
  stem (String.append base (String "." ext1)) = base
  /\ Excel.output_path output_folder (String.append base (String "." ext1))
     = Excel.output_path output_folder (String.append base (String "." ext2))
  /\ Excel.output_path output_folder (String.append base (String "." ext1))
     = path_join output_folder (String.append base ".xlsx").
Proof.
  intros Hb H1 D1 H2 D2. unfold Excel.output_path.
  rewrite !stem_drops_extension by assumption. repeat split.
Qed.

Lemma output_path_ignores_extension_witness :
  stem "invoice.pdf" = "invoice"
  /\ Excel.output_path "output" "invoice.pdf" = Excel.output_path "output" "invoice.png"
  /\ Excel.output_path "output" "invoice.pdf" = path_join "output" "invoice.xlsx".
Proof.
  apply (output_path_ignores_extension "output" "invoice" "pdf" "png");
    try discriminate; reflexivity.
Defined.

(** ** The loop over the folder *)

Section FolderRun.

Variable json_loads : string -> option dict.
Variable to_numeric : json -> number.
Variable isdir : string -> bool.
Variable valid_pdf : string -> bool.
Variable model_response : string -> option string.

Let step := Excel.process_file json_loads to_numeric isdir valid_pdf model_response.
Let sheet := written json_loads to_numeric isdir valid_pdf model_response.

Lemma process_file_spec (output_folder : string) (run : folder_run) (file : string) :
  step output_folder run file
  = {| saved := saved run ++ sheet output_folder file;
       all_data := all_data run ++ map snd (sheet output_folder file);
       processed_count := processed_count run + (if isdir file then 0 else 1) |}.
Proof.
  unfold step, sheet, Excel.process_file, written, handled_frame.
  destruct run as [s a n]. cbn [saved all_data processed_count].
  destruct (isdir file).
  - cbn [map]. now rewrite !app_nil_r, Nat.add_0_r.
  - replace (n + 1) with (S n) by lia.
    destruct (Excel.dispatch file); cbn [map]; rewrite ?app_nil_r; try reflexivity.
    + destruct (df_empty _); cbn [negb map snd]; now rewrite ?app_nil_r.
    + destruct (df_empty _); cbn [negb map snd]; now rewrite ?app_nil_r.
Qed.

Lemma fold_process_file (output_folder : string) (files : list string) (run : folder_run) :
  fold_left (step output_folder) files run
  = {| saved := saved run ++ flat_map (sheet output_folder) files;
       all_data := all_data run ++ map snd (flat_map (sheet output_folder) files);
       processed_count :=
         processed_count run + List.length (filter (fun file => negb (isdir file)) files) |}.
Proof.
  revert run. induction files as [|file files IH]; intros run.
  - cbn [fold_left flat_map map filter List.length]. destruct run.
    cbn [saved all_data processed_count]. now rewrite !app_nil_r, Nat.add_0_r.
  - cbn [fold_left flat_map filter]. rewrite IH, process_file_spec.
    cbn [saved all_data processed_count]. rewrite map_app, <- !app_assoc. f_equal.
    destruct (isdir file); cbn [negb List.length]; lia.
Qed.

Lemma written_nonempty (output_folder file : string) :
  Forall (fun entry => df_empty (snd entry) = false) (sheet output_folder file).
Proof.
  unfold sheet, written.
  destruct (handled_frame _ _ _ _ _ file) as [df|]; [|constructor].
  destruct (df_empty df) eqn:E; constructor; [exact E|constructor].
Qed.

Lemma written_all_nonempty (output_folder : string) (files : list string) :
  Forall (fun entry => df_empty (snd entry) = false)
         (flat_map (sheet output_folder) files).
Proof.
  induction files as [|file files IH]; [constructor|].
  cbn [flat_map]. apply Forall_app. split; [apply written_nonempty|exact IH].
Qed.

Lemma written_nothing (output_folder file : string) :
  isdir file = true
  \/ Excel.dispatch file = Unsupported
  \/ (Excel.dispatch file = UsePdf /\ valid_pdf file = false)
  \/ model_response file = None
  \/ (exists response, model_response file = Some response
        /\ Excel.extract_json_from_response json_loads response = None) ->
  sheet output_folder file = [].
Proof.
  intros H. unfold sheet, written, handled_frame.
  destruct (isdir file); [reflexivity|].
  destruct H as [H|[H|[[H1 H2]|[H|(response & H1 & H2)]]]].
  - discriminate H.
  - now rewrite H.
  - rewrite H1. unfold Excel.process_pdf_file. now rewrite H2.
  - unfold Excel.process_pdf_file, Excel.process_image_file. rewrite H.
    destruct (Excel.dispatch file); try reflexivity. now destruct (valid_pdf file).
  - unfold Excel.process_pdf_file, Excel.process_image_file, Excel.process_pdf,
      Excel.process_image, Excel.process_response.
    rewrite H1, H2.
    destruct (Excel.dispatch file); try reflexivity. now destruct (valid_pdf file).
Qed.

End FolderRun.

Lemma filter_all_true {A : Type} (f : A -> bool) (l : list A) :
  Forall (fun x => f x = true) l -> filter f l = l.
Proof.
  induction 1 as [|x l Hx _ IH]; [reflexivity|]. cbn [filter]. now rewrite Hx, IH.
Qed.

Lemma sort_combined_nrows (other_ltb : json -> json -> bool) (df sorted : DataFrame) :
  Excel.sort_combined other_ltb df = Ok sorted -> nrows sorted = nrows df.
Proof.
  unfold Excel.sort_combined, sort_values.
  destruct (has_column df "Date"); [|now intros [= <-]].
  destruct (mapM (getitem df) ["Date"; "Product"]) as [by_cols|e]; [|discriminate].
  cbn [bind]. destruct (forallb factorizable by_cols); [|discriminate].
  now intros [= <-].
Qed.

(** X22. The loop of [process_folder] in one pass: the spreadsheets written
    are, in the order of the listing, those of the files that are no
    directory, have a handled extension and give a non-empty frame, each
    under the path made from its stem; the frames kept for the combined file
    are the frames written, in the same order; and the counter printed
    counts the entries that are no directory, handled or not. *)
Theorem process_folder_run (json_loads : string -> option dict)
    (to_numeric : json -> number) (other_ltb : json -> json -> bool)
    (isdir valid_pdf : string -> bool) (model_response : string -> option string)
    (files : list string) (output_folder : string) :
  let run := fst (Excel.process_folder json_loads to_numeric other_ltb isdir valid_pdf
                    model_response files output_folder) in
  saved run
  = flat_map (written json_loads to_numeric isdir valid_pdf model_response output_folder)
      files
  /\ all_data run = map snd (saved run)
  /\ Forall (fun df => df_empty df = false) (all_data run)
  /\ processed_count run = List.length (filter (fun file => negb (isdir file)) files)
  /\ List.length (saved run) <= processed_count run <= List.length files.
Proof.
  cbv zeta. unfold Excel.process_folder. cbn [fst]. rewrite fold_process_file.
  cbn [saved all_data processed_count app Nat.add].
  split; [reflexivity|]. split; [reflexivity|]. split; [|split; [reflexivity|]].
  - apply Forall_map. apply written_all_nonempty.
  - split; [|apply filter_length_le].
    induction files as [|file files IH]; [apply Nat.le_refl|].
    cbn [flat_map filter]. rewrite length_app.
    unfold written at 1, handled_frame.
    destruct (isdir file); cbn [negb List.length]; [exact IH|].
    destruct (Excel.dispatch file); cbn [List.length]; try lia;
      destruct (df_empty _); cbn [List.length]; lia.
Qed.

(** X23. A file that gives nothing leaves no trace: a directory, a file with
    an extension that is not handled, a PDF that fails [validate_pdf], a file
    for which the model call raises, and a file whose response holds no
    usable JSON object change neither the spreadsheets written nor the
    frames kept nor the combined frame, compared with a folder without
    that file. *)
Theorem process_folder_skips (json_loads : string -> option dict)
    (to_numeric : json -> number) (other_ltb : json -> json -> bool)
    (isdir valid_pdf : string -> bool) (model_response : string -> option string)
    (before after : list string) (file output_folder : string) :
  isdir file = true
  \/ Excel.dispatch file = Unsupported
  \/ (Excel.dispatch file = UsePdf /\ valid_pdf file = false)
  \/ model_response file = None
  \/ (exists response, model_response file = Some response
        /\ Excel.extract_json_from_response json_loads response = None) ->
  let with_file := Excel.process_folder json_loads to_numeric other_ltb isdir valid_pdf
                     model_response (before ++ file :: after) output_folder in
  let without := Excel.process_folder json_loads to_numeric other_ltb isdir valid_pdf
                   model_response (before ++ after) output_folder in
  saved (fst with_file) = saved (fst without)
  /\ all_data (fst with_file) = all_data (fst without)
  /\ snd with_file = snd without.
Proof.
  intros H. cbv zeta. unfold Excel.process_folder. cbn [fst snd].
  rewrite !fold_process_file. cbn [saved all_data processed_count app].
  rewrite !flat_map_app. cbn [flat_map].
  rewrite (written_nothing json_loads to_numeric isdir valid_pdf model_response
             output_folder file H).
  cbn [app]. repeat split.
Qed.

Lemma process_folder_skips_witness :
  saved (fst (Excel.process_folder sample_json_loads sample_to_numeric no_other_order
                sample_isdir sample_valid_pdf sample_model_response
                (["invoice.pdf"] ++ "notes.txt" :: ["invoice.png"]) "output"))
  = saved (fst (Excel.process_folder sample_json_loads sample_to_numeric no_other_order
                  sample_isdir sample_valid_pdf sample_model_response
                  (["invoice.pdf"] ++ ["invoice.png"]) "output")).
Proof.
  apply (process_folder_skips sample_json_loads sample_to_numeric no_other_order
           sample_isdir sample_valid_pdf sample_model_response
           ["invoice.pdf"] ["invoice.png"] "notes.txt" "output").
  right. left. reflexivity.
Defined.

(** X24. When [process_folder] writes a combined file, some single
    spreadsheet was written, and the combined frame has at most as many rows
    as the single spreadsheets together: the second cleaning and the sort
    add no row. *)
Theorem process_folder_combined_rows (json_loads : string -> option dict)
    (to_numeric : json -> number) (other_ltb : json -> json -> bool)
    (isdir valid_pdf : string -> bool) (model_response : string -> option string)
    (files : list string) (output_folder : string) (combined_df : DataFrame) :
  snd (Excel.process_folder json_loads to_numeric other_ltb isdir valid_pdf
         model_response files output_folder) = Ok (Some combined_df) ->
  saved (fst (Excel.process_folder json_loads to_numeric other_ltb isdir valid_pdf
                model_response files output_folder)) <> []
  /\ nrows combined_df
     <= rows_saved (fst (Excel.process_folder json_loads to_numeric other_ltb isdir
                           valid_pdf model_response files output_folder)).
Proof.
  unfold Excel.process_folder, rows_saved. cbn [fst snd]. rewrite fold_process_file.
  cbn [saved all_data processed_count app Nat.add].
  set (entries := flat_map _ files).
  assert (Hne : Forall (fun df => negb (df_empty df) = true) (map snd entries)).
  { apply Forall_map.
    eapply Forall_impl; [|apply (written_all_nonempty json_loads to_numeric isdir
                                   valid_pdf model_response output_folder files)].
    intros entry He. cbn beta in He. now rewrite He. }
  unfold Excel.combine_documents. rewrite (filter_all_true _ _ Hne).
  destruct entries as [|entry rest]; [discriminate|]. clear Hne.
  cbn [map]. cbv zeta.
  destruct (Excel.clean_dataframe (pd_concat (snd entry :: map snd rest)))
    as [cleaned|e] eqn:Ec; [|discriminate].
  cbn [bind].
  destruct (Excel.sort_combined other_ltb cleaned) as [sorted|e] eqn:Es; [|discriminate].
  cbn [bind]. intros [= <-]. split; [discriminate|].
  rewrite (sort_combined_nrows other_ltb cleaned sorted Es).
  destruct (clean_dataframe_Ok _ _ Ec) as [[mask ->] _].
  cbn [select_rows nrows pd_concat].
  etransitivity; [apply select_length_le|].
  rewrite length_seq. cbn [map]. rewrite map_map. apply Nat.le_refl.
Qed.

Lemma process_folder_combined_rows_witness :
  saved (fst sample_folder_run) <> []
  /\ nrows sample_combined <= rows_saved (fst sample_folder_run).
Proof.
  apply (process_folder_combined_rows sample_json_loads sample_to_numeric no_other_order
           sample_isdir sample_valid_pdf sample_model_response sample_files "output"
           sample_combined).
  vm_compute. reflexivity.
Defined.

(** ** The media type of an image *)

Lemma str_lower_empty (s : string) : str_lower s = EmptyString <-> s = EmptyString.
Proof. destruct s; cbn [str_lower]; split; intros H; try reflexivity; discriminate H. Qed.

Ltac media_type_known E :=
  split; [cbn [In]; tauto|]; split; [reflexivity|]; split;
  [split; [discriminate|];
   let H := fresh "H" in
   intros H; exfalso; apply (H _ eq_refl); rewrite E; cbn [In]; tauto
  |discriminate].

(** X25. [process_image] always declares one of the four media types, it
    reads the format PIL reports without regard to case, and whenever it
    saves the image again as PNG it declares [image/png]. *)
Theorem image_media_type_declared (format : option string) :
  In (fst (Excel.image_media_type format))
     ["image/jpeg"; "image/png"; "image/webp"; "image/gif"]
  /\ Excel.image_media_type (option_map str_lower format) = Excel.image_media_type format
  /\ (snd (Excel.image_media_type format) = true <->
      forall f, format = Some f -> ~ In (str_lower f) ["jpeg"; "jpg"; "png"; "webp"; "gif"])
  /\ (snd (Excel.image_media_type format) = true ->
      fst (Excel.image_media_type format) = "image/png").
Proof.
  destruct format as [f|]; cbn [option_map].
  2:{ cbn. repeat split; try tauto. intros _ f [=]. }
  unfold Excel.image_media_type. rewrite str_lower_idem.
  assert (Hempty : String.eqb (str_lower f) "" = String.eqb f "").
  { destruct f; reflexivity. }
  rewrite Hempty. clear Hempty. unfold str_in. cbn [existsb].
  destruct (String.eqb_spec f "") as [Ef|Hf]; cbn [negb andb].
  { subst f. cbn. repeat split; try tauto. intros _ f [= <-]. cbn.
    intros [H|[H|[H|[H|[H|[]]]]]]; discriminate H. }
  destruct (String.eqb_spec (str_lower f) "jpeg") as [E|N1]; cbn [orb fst snd];
    [media_type_known E|].
  destruct (String.eqb_spec (str_lower f) "jpg") as [E|N2]; cbn [orb fst snd];
    [media_type_known E|].
  destruct (String.eqb_spec (str_lower f) "png") as [E|N3]; cbn [orb fst snd];
    [media_type_known E|].
  destruct (String.eqb_spec (str_lower f) "webp") as [E|N4]; cbn [orb fst snd];
    [media_type_known E|].
  destruct (String.eqb_spec (str_lower f) "gif") as [E|N5]; cbn [orb fst snd];
    [media_type_known E|].
  split; [cbn [In]; tauto|]. split; [reflexivity|]. split; [|reflexivity].
  split; [|reflexivity].
  intros _ f' [= <-]. cbn [In]. intros [H|[H|[H|[H|[H|[]]]]]]; congruence.
Qed.
